(** * A/B test toolkit for online ads: data generation and analysis

    A shallow embedding of [src/ab_test_online_ads/data_generation.py] and
    [src/analysis.py].

    - numpy's [float64] is an interface ([Float64]) with two implementations:
      [xfloat], the extended rationals (every operation exact, NaN and the
      infinities kept), and [PrimFloat.float], IEEE binary64, on which the
      code runs as numpy runs it. A theorem is stated for every [Float64]
      where it holds for every one, and for [xfloat] where it is about
      the value of a quotient or a sum.
    - [statsmodels.stats.proportion.proportions_ztest] and
      [scipy.stats.ttest_ind] are library calls ([StatsLib]); what the
      theorems use of them is stated as [StatsLibLaws].
    - numpy's global, seedable generator is the state of a small
      state-and-exception monad ([M]) over four primitive draws
      ([RandomState], [RandomStateLaws]).
    - a [pandas.DataFrame] is its column index together with its rows;
      an [int64] entry, sum or count is an integer of [Z] (see [sum_count]
      for the sums), and the group mean is pandas' compensated sum over
      the values that are not NaN ([kahan_step]). *)

From Stdlib Require Import ZArith QArith Qreduction Qabs Floats Uint63 String List Lia Lqa.
From stdpp Require Import gmap strings.

Local Open Scope string_scope.
Local Open Scope Z_scope.

(** ** float64 *)

(** The operations of [float64] the two source files use. Comparisons are
    IEEE comparisons: any comparison with NaN is [false] (so [!=] is
    [true]). *)
Class Float64 (F : Type) : Type := {
  f_of_int : Z -> F;            (* int64 -> float64, as [/] on int arrays does *)
  f_add : F -> F -> F;
  f_sub : F -> F -> F;
  f_mul : F -> F -> F;
  f_div : F -> F -> F;
  f_ltb : F -> F -> bool;
  f_leb : F -> F -> bool;
  f_eqb : F -> F -> bool;
  f_isnan : F -> bool;
  f_isfinite : F -> bool;       (* [np.isfinite], used to state what a draw is *)
  f_signbit : F -> bool;        (* [np.signbit] of a number: [-0.0] has it set *)
  f_nan : F                     (* [np.nan] *)
}.

Definition f_zero {F} `{Float64 F} : F := f_of_int 0.
Definition f_one {F} `{Float64 F} : F := f_of_int 1.

(** [x > y] and [x != y]. *)
Definition f_gtb {F} `{Float64 F} (x y : F) : bool := f_ltb y x.
Definition f_neb {F} `{Float64 F} (x y : F) : bool := negb (f_eqb x y).

(** [np.maximum(x, y)], which is what [ndarray.clip(min=y)] computes: NaN if
    either argument is NaN. *)
Definition f_maximum {F} `{Float64 F} (x y : F) : F :=
  if f_isnan x then x else if f_isnan y then y else if f_ltb x y then y else x.

(** The test [numpy.random] makes of a parameter that must not be
    negative: [not isnan(x) and signbit(x)]. It refuses [-0.0], which no
    comparison with [0.0] tells from [0.0]. *)
Definition negative_signed {F} `{Float64 F} (x : F) : bool :=
  negb (f_isnan x) && f_signbit x.

(** [0 <= p <= 1]. *)
Definition in_unit_interval {F} `{Float64 F} (p : F) : Prop :=
  f_leb f_zero p = true /\ f_leb p f_one = true.

(** *** Exact arithmetic: the extended rationals

    Every finite [float64] is a rational; [xfloat] keeps the special values
    and drops the rounding. Results are reduced fractions, so that equal
    results are equal terms. There is one zero: [x / 0] is [+inf] or [-inf]
    by the sign of [x], and [0 / 0] is NaN. *)
Inductive xfloat : Type :=
| XNaN
| XInf (negative : bool)
| XReal (q : Q).

Definition x_of_int (z : Z) : xfloat := XReal (inject_Z z).

Definition x_opp (x : xfloat) : xfloat :=
  match x with
  | XNaN => XNaN
  | XInf s => XInf (negb s)
  | XReal q => XReal (Qred (- q))
  end.

Definition x_add (x y : xfloat) : xfloat :=
  match x, y with
  | XNaN, _ | _, XNaN => XNaN
  | XInf s, XInf t => if Bool.eqb s t then XInf s else XNaN
  | XInf s, XReal _ | XReal _, XInf s => XInf s
  | XReal a, XReal b => XReal (Qred (a + b))
  end.

Definition x_sub (x y : xfloat) : xfloat := x_add x (x_opp y).

Definition q_negative (q : Q) : bool := (Qnum q <? 0)%Z.
Definition q_is_zero (q : Q) : bool := (Qnum q =? 0)%Z.

Definition x_mul (x y : xfloat) : xfloat :=
  match x, y with
  | XNaN, _ | _, XNaN => XNaN
  | XInf s, XInf t => XInf (xorb s t)
  | XInf s, XReal q | XReal q, XInf s =>
      if q_is_zero q then XNaN else XInf (xorb s (q_negative q))
  | XReal a, XReal b => XReal (Qred (a * b))
  end.

Definition x_div (x y : xfloat) : xfloat :=
  match x, y with
  | XNaN, _ | _, XNaN => XNaN
  | XInf _, XInf _ => XNaN
  | XInf s, XReal q => XInf (xorb s (q_negative q))
  | XReal _, XInf _ => XReal 0
  | XReal a, XReal b =>
      if q_is_zero b
      then (if q_is_zero a then XNaN else XInf (q_negative a))
      else XReal (Qred (a / b))
  end.

Definition x_ltb (x y : xfloat) : bool :=
  match x, y with
  | XNaN, _ | _, XNaN => false
  | XInf s, XInf t => s && negb t
  | XInf s, XReal _ => s
  | XReal _, XInf t => negb t
  | XReal a, XReal b => negb (Qle_bool b a)
  end.

Definition x_eqb (x y : xfloat) : bool :=
  match x, y with
  | XNaN, _ | _, XNaN => false
  | XInf s, XInf t => Bool.eqb s t
  | XReal a, XReal b => Qeq_bool a b
  | _, _ => false
  end.

Definition x_leb (x y : xfloat) : bool := x_ltb x y || x_eqb x y.

Definition x_isnan (x : xfloat) : bool :=
  match x with XNaN => true | _ => false end.

Definition x_isfinite (x : xfloat) : bool :=
  match x with XReal _ => true | _ => false end.

(** The one zero has no sign. *)
Definition x_signbit (x : xfloat) : bool :=
  match x with
  | XNaN => false
  | XInf s => s
  | XReal q => q_negative q
  end.

#[export] Instance xfloat_float64 : Float64 xfloat := {|
  f_of_int := x_of_int;
  f_add := x_add;
  f_sub := x_sub;
  f_mul := x_mul;
  f_div := x_div;
  f_ltb := x_ltb;
  f_leb := x_leb;
  f_eqb := x_eqb;
  f_isnan := x_isnan;
  f_isfinite := x_isfinite;
  f_signbit := x_signbit;
  f_nan := XNaN
|}.

(** *** IEEE binary64

    [int64 -> float64] is exact below 2^53 and correctly rounded above;
    [PrimFloat.of_uint63] is that conversion on the non-negative 63-bit
    integers, so it converts the magnitude of every [int64] but the
    least, -2^63, which is a power of two. *)
Definition b64_of_int (z : Z) : float :=
  if z =? - 2 ^ 63 then (-0x1p63)%float
  else if z <? 0
  then PrimFloat.opp (PrimFloat.of_uint63 (Uint63.of_Z (- z)))
  else PrimFloat.of_uint63 (Uint63.of_Z z).

Definition b64_isnan (x : float) : bool := negb (PrimFloat.eqb x x).

Definition b64_isfinite (x : float) : bool :=
  PrimFloat.ltb (PrimFloat.abs x) PrimFloat.infinity.

#[export] Instance binary64_float64 : Float64 float := {|
  f_of_int := b64_of_int;
  f_add := PrimFloat.add;
  f_sub := PrimFloat.sub;
  f_mul := PrimFloat.mul;
  f_div := PrimFloat.div;
  f_ltb := PrimFloat.ltb;
  f_leb := PrimFloat.leb;
  f_eqb := PrimFloat.eqb;
  f_isnan := b64_isnan;
  f_isfinite := b64_isfinite;
  f_signbit := PrimFloat.get_sign;
  f_nan := PrimFloat.nan
|}.

(** ** Exceptions *)

(** What the two files raise. All but [KeyError] are [ValueError]s that
    differ in their message; the constructor names the message. The names
    the specification gives them are in brackets. *)
Inductive exn : Type :=
| Missing_required_columns (missing : gset string)
    (* f"Missing required columns: {missing}"               [SchemaError] *)
| Both_variants_must_be_present
    (* "Both variants A and B must be present in data."     [MissingVariantError] *)
| No_clicks_in_dataset
    (* "No clicks in dataset to compute conversion per click." [NoClicksError] *)
| Bad_denominator
    (* "denominator must be 'impressions' or 'clicks'"      [InvalidArgumentError] *)
| Library_ValueError (msg : string)
    (* raised by a call into [numpy.random] or by [pd.DataFrame] *)
| KeyError (key : string)
    (* a column or an index label that is not there *)
| IndexError.
    (* an array index out of bounds *)

Inductive result (A : Type) : Type :=
| Ok (a : A)
| Raise (e : exn).
Arguments Ok {A} a.
Arguments Raise {A} e.

Definition bind {A B} (r : result A) (k : A -> result B) : result B :=
  match r with
  | Ok a => k a
  | Raise e => Raise e
  end.

Declare Scope result_scope.
Delimit Scope result_scope with result.
Notation "'try' x := r 'in' k" := (bind r (fun x => k))
  (at level 10, x name, r at level 100, k at level 200) : result_scope.

(** ** DataFrames *)

Section Frames.
Context {F : Type}.

(** One impression. A frame whose column index lacks a name still has
    the field in its rows; a column is read only through [groupby_variant],
    [getitem_int] and [getitem_revenue], which raise [KeyError] when its
    name is not in the index. *)
Record Row : Type := mkRow {
  impression_id : Z;
  user_id : Z;
  variant : string;
  clicked : Z;
  converted : Z;
  revenue : F
}.

Record DataFrame : Type := mkDataFrame {
  columns : list string;        (* df.columns *)
  rows : list Row
}.

(** [df[name]] for a column of integers. *)
Definition getitem_int (d : DataFrame) (name : string) : result (Row -> Z) :=
  if negb (bool_decide (name ∈ columns d)) then Raise (KeyError name)
  else if String.eqb name "clicked" then Ok clicked
  else if String.eqb name "converted" then Ok converted
  else if String.eqb name "impression_id" then Ok impression_id
  else if String.eqb name "user_id" then Ok user_id
  else Raise (KeyError name).

(** [df["revenue"]], the column of floats. *)
Definition getitem_revenue (d : DataFrame) : result (Row -> F) :=
  if negb (bool_decide ("revenue" ∈ columns d)) then Raise (KeyError "revenue")
  else Ok revenue.

(** [df[mask]]: the rows where the mask holds, same columns. *)
Definition select (mask : Row -> bool) (d : DataFrame) : DataFrame :=
  {| columns := columns d; rows := List.filter mask (rows d) |}.

(** [df.groupby("variant")]: the rows, to be grouped by their label. *)
Definition groupby_variant (d : DataFrame) : result (list Row) :=
  if negb (bool_decide ("variant" ∈ columns d)) then Raise (KeyError "variant")
  else Ok (rows d).

(** [grouped[col].agg(...)]: one entry per label that occurs, built in
    one pass; [f] folds a row into its label's entry. *)
Definition agg {A} (f : option A -> Row -> A) (grouped : list Row) : gmap string A :=
  fold_left (fun g r => <[variant r := f (g !! variant r) r]> g) grouped ∅.

(** [group.loc[label]]. *)
Definition loc {A} (g : gmap string A) (label : string) : result A :=
  match g !! label with
  | Some a => Ok a
  | None => Raise (KeyError label)
  end.
End Frames.
Arguments Row : clear implicits.
Arguments DataFrame : clear implicits.

(** ** analysis.py *)

(** The two library tests. Each returns [(statistic, p_value)]. *)
Class StatsLib (F : Type) : Type := {
  (* statsmodels.stats.proportion.proportions_ztest(count, nobs) *)
  proportions_ztest : list Z -> list Z -> F * F;
  (* scipy.stats.ttest_ind(a, b, equal_var=False) *)
  ttest_ind : list F -> list F -> F * F
}.

Section Analysis.
Context {F : Type} `{Float64 F} `{StatsLib F}.

Record MetricResult : Type := mkMetricResult {
  metric_name : string;
  variant_a : F;
  variant_b : F;
  lift : F;                     (* (B - A) / A *)
  p_value : F;
  significant : bool
}.

Record AbTestAnalyzer : Type := mkAnalyzer {
  df : DataFrame F;
  alpha : F
}.

Definition required_cols : gset string :=
  {[ "variant"; "clicked"; "converted"; "revenue" ]}.

(** [AbTestAnalyzer.__init__] *)
Definition __init__ (d : DataFrame F) (alpha : F) : result AbTestAnalyzer :=
  let missing := required_cols ∖ list_to_set (columns d) in
  if negb (bool_decide (missing = ∅))
  then Raise (Missing_required_columns missing)
  else Ok {| df := d; alpha := alpha |}.

(** [.agg(["sum", "count"])]. pandas keeps both in int64, where a sum
    that leaves the type wraps around ([sum_count_int64]); the sum here
    is the integer sum, the same number whenever a label's sum fits
    int64, as the sum of a 0/1 column does ([sum_count_int64_agrees]).
    The theorems on the values of the rates are stated for 0/1
    columns. *)
Definition sum_count (col : Row F -> Z) (acc : option (Z * Z)) (r : Row F) : Z * Z :=
  match acc with
  | None => (col r, 1)
  | Some (s, c) => (s + col r, c + 1)
  end.

(** The value int64 arithmetic gives: the integer of [-2^63, 2^63) that
    differs from [z] by a multiple of 2^64. *)
Definition int64 (z : Z) : Z := (z + 2 ^ 63) mod 2 ^ 64 - 2 ^ 63.

Definition sum_count_int64 (col : Row F -> Z) (acc : option (Z * Z)) (r : Row F)
  : Z * Z :=
  match acc with
  | None => (int64 (col r), 1)
  | Some (s, c) => (int64 (s + col r), int64 (c + 1))
  end.

Definition both_present {A} (group : gmap string A) : bool :=
  bool_decide (({[ "A"; "B" ]} : gset string) ⊆ dom group).

(** [AbTestAnalyzer._binary_ztest] *)
Definition _binary_ztest (self : AbTestAnalyzer) (success_col metric_name : string)
  : result MetricResult :=
  (try grouped := groupby_variant (df self) in
   try col := getitem_int (df self) success_col in
   let group := agg (sum_count col) grouped in
   if negb (both_present group) then Raise Both_variants_must_be_present else
   try a := loc group "A" in
   try b := loc group "B" in
   let successes := [fst a; fst b] in
   let nobs := [snd a; snd b] in
   let stat_p := proportions_ztest successes nobs in
   let p_value := snd stat_p in
   let rate_a := f_div (f_of_int (fst a)) (f_of_int (snd a)) in
   let rate_b := f_div (f_of_int (fst b)) (f_of_int (snd b)) in
   let lift := if f_gtb rate_a f_zero
               then f_div (f_sub rate_b rate_a) rate_a else f_nan in
   let significant := f_ltb p_value (alpha self) in
   Ok {| metric_name := metric_name;
         variant_a := rate_a;
         variant_b := rate_b;
         lift := lift;
         p_value := p_value;
         significant := significant |})%result.

(** [AbTestAnalyzer.ctr] *)
Definition ctr (self : AbTestAnalyzer) : result MetricResult :=
  _binary_ztest self "clicked" "click_through_rate".

(** [AbTestAnalyzer.conversion_rate] *)
Definition conversion_rate (self : AbTestAnalyzer) (denominator : string)
  : result MetricResult :=
  if String.eqb denominator "impressions" then
    _binary_ztest self "converted" "conversion_rate_per_impression"
  else if String.eqb denominator "clicks" then
    (try col := getitem_int (df self) "clicked" in
     let df_clicked := select (fun r => col r =? 1) (df self) in
     if match rows df_clicked with [] => true | _ => false end
     then Raise No_clicks_in_dataset
     else try inner := __init__ df_clicked (alpha self) in
          _binary_ztest inner "converted" "conversion_rate_per_click")%result
  else Raise Bad_denominator.

(** [.agg(["mean"])] is pandas' [group_mean]: for each label a running
    sum with Kahan's compensation and the number of values added, a NaN
    value being skipped ([val != val]); a compensation that comes out
    NaN, as after an infinity, is put back to 0. One step, on the state
    [(sumx, compensation, nobs)]: *)
Definition kahan_step (st : F * F * Z) (val : F) : F * F * Z :=
  let '(sumx, compensation, nobs) := st in
  if f_isnan val then st
  else
    let y := f_sub val compensation in
    let t := f_add sumx y in
    let c := f_sub (f_sub t sumx) y in
    (t, (if f_isnan c then f_zero else c), nobs + 1).

Definition sum_count_f (col : Row F -> F) (acc : option (F * F * Z)) (r : Row F)
  : F * F * Z :=
  kahan_step (match acc with
              | None => (f_zero, f_zero, 0)
              | Some st => st
              end) (col r).

(** The mean of a label: NaN when every value was skipped. *)
Definition mean_of (st : F * F * Z) : F :=
  let '(sumx, _, nobs) := st in
  if nobs =? 0 then f_nan else f_div sumx (f_of_int nobs).

(** [AbTestAnalyzer.revenue_per_impression] *)
Definition revenue_per_impression (self : AbTestAnalyzer) : result MetricResult :=
  (try grouped := groupby_variant (df self) in
   try rev := getitem_revenue (df self) in
   let group := mean_of <$> agg (sum_count_f rev) grouped in
   if negb (both_present group) then Raise Both_variants_must_be_present else
   let rev_a := map rev (rows (select (fun r => String.eqb (variant r) "A") (df self))) in
   let rev_b := map rev (rows (select (fun r => String.eqb (variant r) "B") (df self))) in
   let stat_p := ttest_ind rev_a rev_b in
   let p_value := snd stat_p in
   try mean_a := loc group "A" in
   try mean_b := loc group "B" in
   let lift := if f_neb mean_a f_zero
               then f_div (f_sub mean_b mean_a) mean_a else f_nan in
   let significant := f_ltb p_value (alpha self) in
   Ok {| metric_name := "revenue_per_impression";
         variant_a := mean_a;
         variant_b := mean_b;
         lift := lift;
         p_value := p_value;
         significant := significant |})%result.

(** [AbTestAnalyzer.summarize]: the three metrics under their keys, in
    the order the dictionary is built. *)
Definition summarize (self : AbTestAnalyzer) : result (list (string * MetricResult)) :=
  (try r1 := ctr self in
   try r2 := conversion_rate self "impressions" in
   try r3 := revenue_per_impression self in
   Ok [("ctr", r1);
       ("conversion_rate_per_impression", r2);
       ("revenue_per_impression", r3)])%result.
End Analysis.
Arguments MetricResult : clear implicits.
Arguments AbTestAnalyzer : clear implicits.

(** ** data_generation.py *)

(** *** numpy.random

    The legacy generator behind [np.random.*]: a hidden global state [G],
    re-initialised by [np.random.seed], from which each primitive draws
    one value. *)
Class RandomState (F G : Type) : Type := {
  rk_seed : Z -> G;                   (* the state [seed(s)] installs *)
  rk_interval : Z -> G -> Z * G;      (* a uniform integer of [0, max] *)
  rk_double : G -> F * G;             (* a uniform double of [0, 1) *)
  rk_gauss : G -> F * G               (* a standard normal double *)
}.

(** What the theorems use of the primitives: an integer draw is within
    its bounds, a double and a normal draw are finite numbers. *)
Record RandomStateLaws {F G : Type} `{Float64 F} `{RandomState F G} : Prop := {
  rk_interval_range : forall (max : Z) (g : G),
    0 <= max -> 0 <= fst (rk_interval max g) <= max;
  rk_double_finite : forall g : G, f_isfinite (fst (rk_double g)) = true;
  rk_gauss_finite : forall g : G, f_isfinite (fst (rk_gauss g)) = true
}.
Arguments RandomStateLaws F G {_ _}.

(** Code that draws: the generator state is threaded, an exception leaves
    the state as it was when raised. *)
Definition M (G A : Type) : Type := G -> result A * G.

Definition ret {G A} (a : A) : M G A := fun g => (Ok a, g).
Definition mbind {G A B} (m : M G A) (k : A -> M G B) : M G B :=
  fun g => match m g with
           | (Ok a, g') => k a g'
           | (Raise e, g') => (Raise e, g')
           end.

Declare Scope rng_scope.
Delimit Scope rng_scope with rng.
Notation "'run' x := m 'in' k" := (mbind m (fun x => k))
  (at level 10, x name, m at level 100, k at level 200) : rng_scope.

(** [n] successive draws. *)
Fixpoint draws {G A} (n : nat) (draw : G -> A * G) (g : G) : list A * G :=
  match n with
  | O => ([], g)
  | S n' => let '(a, g1) := draw g in
            let '(l, g2) := draws n' draw g1 in
            (a :: l, g2)
  end.

(** One draw per element of [l], in order. *)
Fixpoint draws_for {G A B} (l : list B) (draw : B -> G -> A * G) (g : G) : list A * G :=
  match l with
  | [] => ([], g)
  | b :: l' => let '(a, g1) := draw b g in
               let '(r, g2) := draws_for l' draw g1 in
               (a :: r, g2)
  end.

Section NumpyRandom.
Context {F G : Type} `{Float64 F} `{RandomState F G}.

(** [np.random.seed(seed)] *)
Definition np_random_seed (seed : Z) : M G unit :=
  fun g =>
    if (0 <=? seed) && (seed <? 2 ^ 32)
    then (Ok tt, rk_seed seed)
    else (Raise (Library_ValueError "Seed must be between 0 and 2**32 - 1"), g).

(** [np.random.randint(low, high, size=size)]: integers of
    [[low, high)]. An empty request is answered before the bounds are
    looked at, and the bounds before the output array is made. *)
Definition np_random_randint (low high size : Z) : M G (list Z) :=
  fun g =>
    if size =? 0 then (Ok [], g)
    else if high <=? low then (Raise (Library_ValueError "low >= high"), g)
    else if size <? 0
    then (Raise (Library_ValueError "negative dimensions are not allowed"), g)
    else let '(l, g') := draws (Z.to_nat size) (rk_interval (high - low - 1)) g in
         (Ok (map (fun k => low + k) l), g').

(** [a[idx]] for an array of indices. *)
Fixpoint take_indices {A} (a : list A) (idx : list Z) : result (list A) :=
  match idx with
  | [] => Ok []
  | i :: idx' =>
      match (if i <? 0 then None else a !! Z.to_nat i) with
      | Some x => bind (take_indices a idx') (fun l => Ok (x :: l))
      | None => Raise IndexError
      end
  end.

(** [np.random.choice(a, size=size)] (with replacement, uniform):
    [a[randint(0, len(a), size)]]. *)
Definition np_random_choice {A} (a : list A) (size : Z) : M G (list A) :=
  (run idx := np_random_randint 0 (Z.of_nat (length a)) size in
   fun g => (take_indices a idx, g))%rng.

(** [np.random.rand(n)] *)
Definition np_random_rand (n : Z) : M G (list F) :=
  fun g =>
    if n <? 0 then (Raise (Library_ValueError "negative dimensions are not allowed"), g)
    else let '(l, g') := draws (Z.to_nat n) rk_double g in (Ok l, g').

(** [np.random.normal(loc=loc, scale=scale, size=len(loc))] for an array
    [loc]: [loc[i] + scale * gauss()]. *)
Definition np_random_normal (loc : list F) (scale : F) : M G (list F) :=
  fun g =>
    if negative_signed scale then (Raise (Library_ValueError "scale < 0"), g)
    else let '(l, g') :=
           draws_for loc (fun m g0 => let '(z, g1) := rk_gauss g0 in
                                      (f_add m (f_mul scale z), g1)) g in
         (Ok l, g').
End NumpyRandom.

(** *** The generator *)

Section DataGeneration.
Context {F G : Type} `{Float64 F} `{RandomState F G}.

Record AdExperimentConfig : Type := mkConfig {
  n_impressions : Z;
  ctr_a : F;
  ctr_b : F;
  conv_a : F;
  conv_b : F;
  rev_mean_a : F;
  rev_mean_b : F;
  rev_std : F;
  seed : option Z
}.

(** [np.where(variants == "A", x, y)] *)
Definition where_A {A} (variants : list string) (x y : A) : list A :=
  map (fun v => if String.eqb v "A" then x else y) variants.

(** [(u < p).astype(int)] *)
Definition bernoulli (u p : list F) : list Z :=
  zip_with (fun x q => if f_ltb x q then 1 else 0) u p.

(** [np.arange(lo, hi)] *)
Definition arange (lo hi : Z) : list Z :=
  map (fun k => lo + Z.of_nat k) (seq 0 (Z.to_nat (hi - lo))).

(** The rows of the six columns, taken together position by position. *)
Fixpoint zip_rows (ids uids : list Z) (vs : list string) (cl cv : list Z) (rev : list F)
  : list (Row F) :=
  match ids, uids, vs, cl, cv, rev with
  | i :: ids', u :: uids', v :: vs', c :: cl', k :: cv', r :: rev' =>
      mkRow i u v c k r :: zip_rows ids' uids' vs' cl' cv' rev'
  | _, _, _, _, _, _ => []
  end.

(** [pd.DataFrame({...})] of the six columns; arrays of different
    lengths are refused. *)
Definition pd_DataFrame (ids uids : list Z) (vs : list string) (cl cv : list Z)
    (rev : list F) : result (DataFrame F) :=
  let n := length ids in
  if (length uids =? n)%nat && (length vs =? n)%nat && (length cl =? n)%nat
     && (length cv =? n)%nat && (length rev =? n)%nat
  then Ok {| columns := ["impression_id"; "user_id"; "variant";
                         "clicked"; "converted"; "revenue"];
             rows := zip_rows ids uids vs cl cv rev |}
  else Raise (Library_ValueError "All arrays must be of the same length").

(** [generate_synthetic_data] *)
Definition generate_synthetic_data (config : AdExperimentConfig) : M G (DataFrame F) :=
  (run _seeded := match seed config with
                  | Some s => np_random_seed s
                  | None => ret tt
                  end in
   let n := n_impressions config in
   run variants := np_random_choice ["A"; "B"] n in
   let ctrs := where_A variants (ctr_a config) (ctr_b config) in
   run u1 := np_random_rand n in
   let clicked := bernoulli u1 ctrs in
   let convs := where_A variants (conv_a config) (conv_b config) in
   run u2 := np_random_rand n in
   let converted := bernoulli u2 convs in
   let means := where_A variants (rev_mean_a config) (rev_mean_b config) in
   run z := np_random_normal means (rev_std config) in
   let revenue := zip_with (fun c x => if c =? 1 then f_maximum x f_zero else f_zero)
                           converted z in
   run uid := np_random_randint 1 (n / 2 + 1) n in
   fun g => (pd_DataFrame (arange 1 (n + 1)) uid variants clicked converted revenue, g))%rng.
End DataGeneration.
Arguments AdExperimentConfig : clear implicits.

(** * The vocabulary of the statements *)

(** What the theorems use of float64 comparisons: equal numbers are not
    strictly ordered. *)
Class Float64Laws (F : Type) `{Float64 F} : Prop := {
  f_eqb_not_ltb : forall x y : F, f_eqb x y = true -> f_ltb y x = false
}.

(** What the theorems use of float64 division: the quotient of two
    counts, the first not above the second, lies in [0, 1]. The counts
    are below 2^53, where [int64 -> float64] is exact. *)
Class Float64RatioLaws (F : Type) `{Float64 F} : Prop := {
  f_ratio_in_unit_interval : forall s n : Z,
    0 <= s <= n -> 0 < n < 2 ^ 53 ->
    in_unit_interval (f_div (f_of_int s) (f_of_int n))
}.

(** What the theorems use of the statistics library.

    [proportions_ztest] computes z = (p1 - p2) / sqrt(p (1 - p) (1/n1 + 1/n2))
    from the pooled proportion p and returns 2 * norm.sf(|z|);
    [ttest_ind] returns 2 * t.sf(|t|, df). Both are evaluated in float64
    without raising: a tail probability is a number of [0, 1], and a
    statistic that is 0/0 gives NaN. With 0/1 data the z statistic is 0/0
    exactly when the pooled proportion is 0 or 1. *)
Record StatsLibLaws {F : Type} `{Float64 F} `{StatsLib F} : Prop := {
  ztest_pvalue_range : forall sa sb na nb,
    f_isnan (snd (proportions_ztest [sa; sb] [na; nb])) = true
    \/ in_unit_interval (snd (proportions_ztest [sa; sb] [na; nb]));
  ztest_undefined : forall sa sb na nb,
    0 < na -> 0 < nb -> 0 <= sa <= na -> 0 <= sb <= nb ->
    sa + sb = 0 \/ sa + sb = na + nb ->
    f_isnan (snd (proportions_ztest [sa; sb] [na; nb])) = true;
  ztest_defined : forall sa sb na nb,
    0 < na -> 0 < nb -> 0 <= sa <= na -> 0 <= sb <= nb ->
    0 < sa + sb < na + nb ->
    f_isnan (snd (proportions_ztest [sa; sb] [na; nb])) = false
    /\ in_unit_interval (snd (proportions_ztest [sa; sb] [na; nb]));
  ttest_pvalue_range : forall a b,
    f_isnan (snd (ttest_ind a b)) = true
    \/ in_unit_interval (snd (ttest_ind a b))
}.
Arguments StatsLibLaws F {_ _}.

(** [df[df["variant"] == v]], and a label's successes and trials. *)
Definition group_rows {F} (v : string) (rs : list (Row F)) : list (Row F) :=
  List.filter (fun r => String.eqb (variant r) v) rs.

Definition sumZ (l : list Z) : Z := fold_right Z.add 0 l.

Definition successes {F} (col : Row F -> Z) (v : string) (rs : list (Row F)) : Z :=
  sumZ (map col (group_rows v rs)).

Definition trials {F} (v : string) (rs : list (Row F)) : Z :=
  Z.of_nat (length (group_rows v rs)).

(** The label occurs in the variant column. *)
Definition has_variant {F} (v : string) (rs : list (Row F)) : Prop :=
  exists r, In r rs /\ variant r = v.

(** The indicator columns hold 0 or 1. *)
Definition binary_indicators {F} (rs : list (Row F)) : Prop :=
  forall r, In r rs ->
    (clicked r = 0 \/ clicked r = 1) /\ (converted r = 0 \/ converted r = 1).

(** The same, as a check to run. *)
Definition indicators_are_binary {F} (rs : list (Row F)) : bool :=
  forallb (fun r => ((clicked r =? 0) || (clicked r =? 1))
                    && ((converted r =? 0) || (converted r =? 1))) rs.

Section AnalyzerVocabulary.
Context {F : Type} `{Float64 F} `{StatsLib F}.

(** [df[df["clicked"] == 1]] *)
Definition clicked_rows (rs : list (Row F)) : list (Row F) :=
  List.filter (fun r => clicked r =? 1) rs.

(** What [_binary_ztest] returns from the four counts. *)
Definition binary_result (al : F) (name : string) (sa na sb nb : Z) : MetricResult F :=
  let rate_a := f_div (f_of_int sa) (f_of_int na) in
  let rate_b := f_div (f_of_int sb) (f_of_int nb) in
  {| metric_name := name;
     variant_a := rate_a;
     variant_b := rate_b;
     lift := if f_gtb rate_a f_zero then f_div (f_sub rate_b rate_a) rate_a else f_nan;
     p_value := snd (proportions_ztest [sa; sb] [na; nb]);
     significant := f_ltb (snd (proportions_ztest [sa; sb] [na; nb])) al |}.

(** The mean [group_mean] computes of a list of values, and a label's
    mean revenue. *)
Definition kahan_mean (l : list F) : F :=
  mean_of (fold_left kahan_step l (f_zero, f_zero, 0)).

Definition mean_revenue (v : string) (rs : list (Row F)) : F :=
  kahan_mean (map revenue (group_rows v rs)).

(** What [revenue_per_impression] returns from the two means and samples. *)
Definition revenue_result (al mean_a mean_b : F) (rev_a rev_b : list F) : MetricResult F :=
  {| metric_name := "revenue_per_impression";
     variant_a := mean_a;
     variant_b := mean_b;
     lift := if f_neb mean_a f_zero then f_div (f_sub mean_b mean_a) mean_a else f_nan;
     p_value := snd (ttest_ind rev_a rev_b);
     significant := f_ltb (snd (ttest_ind rev_a rev_b)) al |}.

End AnalyzerVocabulary.

Section GeneratorVocabulary.
Context {F G : Type} `{Float64 F} `{RandomState F G}.

(** The columns of a generated frame. *)
Definition six_columns : list string :=
  ["impression_id"; "user_id"; "variant"; "clicked"; "converted"; "revenue"].

(** [revenue] of one row, from its conversion flag and its normal draw. *)
Definition revenue_of (c : Z) (x : F) : F :=
  if c =? 1 then f_maximum x f_zero else f_zero.

(** One value of [np.random.normal] at location [m]. *)
Definition normal_draw (scale : F) (m : F) (g0 : G) : F * G :=
  let '(z, g1) := rk_gauss g0 in (f_add m (f_mul scale z), g1).

(** The seed, if one is given, is one [np.random.seed] accepts. *)
Definition seed_accepted (config : AdExperimentConfig F) : Prop :=
  match seed config with
  | Some s => 0 <= s < 2 ^ 32
  | None => True
  end.

End GeneratorVocabulary.

(** * Implementations to run the model on *)

(** ** A statistics library over the exact numbers

    An executable instance of the interface on which concrete frames can
    be run. The z and t statistics are square roots and the normal and
    Student tails are not rational, so this instance works with the
    squared statistic x and puts 1 / (1 + |x|) in place of the tail; it
    has the special cases of the real tests (0/0 gives NaN, a nonzero
    difference over a zero variance gives an infinite statistic and
    p = 0). No theorem depends on the values it reports in [0, 1]. *)
Definition tail_stand_in (x : Q) : Q := Qred (1 / (1 + Qabs x)).

(** With s = sa + sb and n = na + nb, the pooled variance has the sign of
    s (n - s) and z^2 = (sa nb - sb na)^2 n / (na nb s (n - s)). *)
Definition x_proportions_ztest (count nobs : list Z) : xfloat * xfloat :=
  match count, nobs with
  | [sa; sb], [na; nb] =>
      let s := sa + sb in
      let n := na + nb in
      let d := sa * nb - sb * na in
      if (na <=? 0) || (nb <=? 0) then (XNaN, XNaN)
      else if s * (n - s) <? 0 then (XNaN, XNaN)
      else if s * (n - s) =? 0 then
        (if d =? 0 then (XNaN, XNaN) else (XInf (d <? 0), XReal 0))
      else
        let z2 := Qred (d * d * n # Z.to_pos (na * nb * s * (n - s))) in
        (XReal (if d <? 0 then Qred (- z2) else z2), XReal (tail_stand_in z2))
  | _, _ => (XNaN, XNaN)
  end.

Fixpoint reals (l : list xfloat) : option (list Q) :=
  match l with
  | [] => Some []
  | XReal q :: l' => option_map (cons q) (reals l')
  | _ :: _ => None
  end.

Definition q_sum (l : list Q) : Q := fold_right Qplus 0%Q l.
Definition q_mean (l : list Q) : Q := (q_sum l / inject_Z (Z.of_nat (length l)))%Q.
Definition q_var (l : list Q) : Q :=
  (q_sum (map (fun x => (x - q_mean l) * (x - q_mean l)) l)
   / inject_Z (Z.of_nat (length l) - 1))%Q.

(** Welch's test: t^2 = (m1 - m2)^2 / (v1/n1 + v2/n2). *)
Definition x_ttest_ind (a b : list xfloat) : xfloat * xfloat :=
  match reals a, reals b with
  | Some qa, Some qb =>
      if (length qa <? 2)%nat || (length qb <? 2)%nat then (XNaN, XNaN)
      else
        let d := (q_mean qa - q_mean qb)%Q in
        let den := (q_var qa / inject_Z (Z.of_nat (length qa))
                    + q_var qb / inject_Z (Z.of_nat (length qb)))%Q in
        if Qeq_bool den 0 then
          (if Qeq_bool d 0 then (XNaN, XNaN) else (XInf (q_negative d), XReal 0))
        else
          let t2 := Qred (d * d / den) in
          (XReal (if q_negative d then Qred (- t2) else t2), XReal (tail_stand_in t2))
  | _, _ => (XNaN, XNaN)
  end.

#[export] Instance exact_stats : StatsLib xfloat := {|
  proportions_ztest := x_proportions_ztest;
  ttest_ind := x_ttest_ind
|}.

(** ** A generator to run the data generation on

    A linear congruential generator (the constants of C's [rand]) behind
    the four primitives. Its "normal" draw is a bounded stand-in: one of
    the 2001 multiples of 1/500 between -2 and 2. *)
Definition lcg_modulus : Z := 2 ^ 31.
Definition lcg_next (g : Z) : Z := (1103515245 * g + 12345) mod lcg_modulus.

Definition lcg_interval (max : Z) (g : Z) : Z * Z :=
  let g' := lcg_next g in ((g' / 2 ^ 16) mod (max + 1), g').
Definition lcg_double (g : Z) : xfloat * Z :=
  let g' := lcg_next g in (XReal (Qred (g' # Z.to_pos lcg_modulus)), g').
Definition lcg_gauss (g : Z) : xfloat * Z :=
  let g' := lcg_next g in (XReal (Qred ((g' mod 2001 - 1000) # 500)), g').

#[export] Instance lcg : RandomState xfloat Z := {|
  rk_seed := fun s => s mod lcg_modulus;
  rk_interval := lcg_interval;
  rk_double := lcg_double;
  rk_gauss := lcg_gauss
|}.

(** The same generator in binary64, its doubles and normal draws cut
    down to two values each: 0.25 or 0.75, and -1 or 1. *)
Definition lcg_double64 (g : Z) : float * Z :=
  let g' := lcg_next g in
  ((if Z.even (g' / 2 ^ 16) then 0x1p-2 else 0x1.8p-1)%float, g').
Definition lcg_gauss64 (g : Z) : float * Z :=
  let g' := lcg_next g in
  ((if Z.even (g' / 2 ^ 16) then -1 else 1)%float, g').

#[export] Instance lcg64 : RandomState float Z := {|
  rk_seed := fun s => s mod lcg_modulus;
  rk_interval := lcg_interval;
  rk_double := lcg_double64;
  rk_gauss := lcg_gauss64
|}.

(** ** Frames to run the analyzer on *)

(** [tests/test_analysis.py], [_make_simple_df_for_ctr]: 100 rows of "A"
    with 20 clicks, then 100 rows of "B" with 50 clicks; no conversions,
    no revenue. *)
Definition make_simple_df_for_ctr {F : Type} `{Float64 F} : DataFrame F :=
  let n_a := 100%nat in
  let n_b := 100%nat in
  let variants := (repeat "A" n_a ++ repeat "B" n_b)%list in
  let clicked := (repeat 1 20 ++ repeat 0 (n_a - 20)
                  ++ repeat 1 50 ++ repeat 0 (n_b - 50))%list in
  let converted := repeat 0 (n_a + n_b) in
  let revenue := repeat f_zero (n_a + n_b) in
  {| columns := ["impression_id"; "user_id"; "variant"; "clicked"; "converted"; "revenue"];
     rows := zip_rows (arange 1 (Z.of_nat (n_a + n_b) + 1)) (repeat 1 (n_a + n_b))
                      variants clicked converted revenue |}.

(** Four impressions: "A" with one click in two, "B" with two clicks and
    one paid conversion. *)
Definition four_rows : DataFrame xfloat :=
  {| columns := ["impression_id"; "user_id"; "variant"; "clicked"; "converted"; "revenue"];
     rows := [ mkRow 1 1 "A" 1 0 (XReal 0);
               mkRow 2 1 "A" 0 0 (XReal 0);
               mkRow 3 2 "B" 1 1 (XReal (25 # 2));
               mkRow 4 3 "B" 1 0 (XReal 0) ] |}.

(** The same with no click and no revenue under "A". *)
Definition zero_baseline_rows : DataFrame xfloat :=
  {| columns := ["impression_id"; "user_id"; "variant"; "clicked"; "converted"; "revenue"];
     rows := [ mkRow 1 1 "A" 0 0 (XReal 0);
               mkRow 2 1 "A" 0 0 (XReal 0);
               mkRow 3 2 "B" 1 1 (XReal (25 # 2));
               mkRow 4 3 "B" 1 0 (XReal 0) ] |}.

(** Only "A" was served. *)
Definition only_A_rows : DataFrame xfloat :=
  {| columns := ["variant"; "clicked"; "converted"; "revenue"];
     rows := [ mkRow 1 1 "A" 1 0 (XReal 0); mkRow 2 1 "A" 0 0 (XReal 0) ] |}.

(** Both labels, but every click under "B". *)
Definition clicks_under_B_rows : DataFrame xfloat :=
  {| columns := ["variant"; "clicked"; "converted"; "revenue"];
     rows := [ mkRow 1 1 "A" 0 0 (XReal 0);
               mkRow 2 1 "B" 1 1 (XReal 3);
               mkRow 3 2 "B" 1 0 (XReal 0) ] |}.

(** The column [revenue] is not there. *)
Definition no_revenue_column : DataFrame xfloat :=
  {| columns := ["impression_id"; "user_id"; "variant"; "clicked"; "converted"];
     rows := [ mkRow 1 1 "A" 1 0 (XReal 0); mkRow 2 1 "B" 0 0 (XReal 0) ] |}.


(** No revenue under "A"; 0.1, 0.2 and 0.3, as binary64 numbers, under
    "B". *)
Definition tenths_rows : DataFrame float :=
  {| columns := ["variant"; "clicked"; "converted"; "revenue"];
     rows := [ mkRow 1 1 "A" 0 0 0%float;
               mkRow 2 1 "A" 0 0 0%float;
               mkRow 3 2 "B" 1 1 0x1.999999999999ap-4%float;
               mkRow 4 2 "B" 1 1 0x1.999999999999ap-3%float;
               mkRow 5 3 "B" 1 1 0x1.3333333333333p-2%float ] |}.

(** No revenue under "A"; a missing value and 5 under "B". *)
Definition missing_revenue_rows : DataFrame xfloat :=
  {| columns := ["variant"; "clicked"; "converted"; "revenue"];
     rows := [ mkRow 1 1 "A" 0 0 (XReal 0);
               mkRow 2 1 "A" 0 0 (XReal 0);
               mkRow 3 2 "B" 1 1 XNaN;
               mkRow 4 2 "B" 1 1 (XReal 5) ] |}.

Definition alpha_005 : xfloat := XReal (5 # 100).

(** ** Configurations to run the generator on *)

(** The defaults of [AdExperimentConfig]. *)
Definition default_config : AdExperimentConfig xfloat :=
  {| n_impressions := 10000;
     ctr_a := XReal (5 # 100);
     ctr_b := XReal (6 # 100);
     conv_a := XReal (1 # 100);
     conv_b := XReal (12 # 1000);
     rev_mean_a := XReal 10;
     rev_mean_b := XReal 11;
     rev_std := XReal 2;
     seed := Some 19 |}.

Definition with_n_impressions {F} (n : Z) (c : AdExperimentConfig F) : AdExperimentConfig F :=
  {| n_impressions := n;
     ctr_a := ctr_a c; ctr_b := ctr_b c;
     conv_a := conv_a c; conv_b := conv_b c;
     rev_mean_a := rev_mean_a c; rev_mean_b := rev_mean_b c;
     rev_std := rev_std c;
     seed := seed c |}.

(** A configuration small enough to print: six impressions, half of them
    expected to click and to convert. *)
Definition demo_config : AdExperimentConfig xfloat :=
  {| n_impressions := 6;
     ctr_a := XReal (1 # 2);
     ctr_b := XReal (3 # 5);
     conv_a := XReal (1 # 2);
     conv_b := XReal (3 # 5);
     rev_mean_a := XReal 10;
     rev_mean_b := XReal 11;
     rev_std := XReal 2;
     seed := Some 42 |}.

(** Six impressions in binary64, with the standard deviation [-0.0]. *)
Definition negative_zero_config : AdExperimentConfig float :=
  {| n_impressions := 6;
     ctr_a := 0x1p-1%float;
     ctr_b := 0x1.8p-1%float;
     conv_a := 0x1p-1%float;
     conv_b := 0x1.8p-1%float;
     rev_mean_a := 10%float;
     rev_mean_b := 11%float;
     rev_std := PrimFloat.neg_zero;
     seed := Some 42 |}.

(** 0.2, 0.19999999999999998 and 1.4999999999999998 as binary64 numbers. *)
Definition b64_0_2 : float := 0x1.999999999999ap-3%float.
Definition b64_0_19999999999999998 : float := 0x1.9999999999999p-3%float.
Definition b64_1_4999999999999998 : float := 0x1.7ffffffffffffp+0%float.

(** ** Further vocabulary, frames and configurations *)

(** What the theorems on significance use of float64 comparisons: NaN is
    strictly below nothing, and neither is a number below an equal one. *)
Class Float64OrderLaws (F : Type) `{Float64 F} : Prop := {
  f_nan_not_ltb : forall x y : F, f_isnan x = true -> f_ltb x y = false;
  f_eqb_not_ltb_same : forall x y : F, f_eqb x y = true -> f_ltb x y = false
}.

(** [df["variant"].isin(["A", "B"])], row by row. *)
Definition labelled_A_or_B {F} (r : Row F) : bool :=
  String.eqb (variant r) "A" || String.eqb (variant r) "B".

(** Two outcomes of a metric that differ at most in the significance
    flag: the same exception, or results with the same name, values, lift
    and p-value. *)
Definition same_up_to_significance {F} (o1 o2 : result (MetricResult F)) : Prop :=
  match o1, o2 with
  | Ok r1, Ok r2 =>
      metric_name r1 = metric_name r2 /\ variant_a r1 = variant_a r2
      /\ variant_b r1 = variant_b r2 /\ lift r1 = lift r2 /\ p_value r1 = p_value r2
  | Raise e1, Raise e2 => e1 = e2
  | _, _ => False
  end.

(** The rational an exact number is, and the revenues of a label's rows. *)
Definition real_part (x : xfloat) : Q :=
  match x with
  | XReal q => q
  | _ => 0%Q
  end.

Definition revenues (v : string) (rs : list (Row xfloat)) : list Q :=
  map (fun r => real_part (revenue r)) (group_rows v rs).

(** [tests/test_analysis.py], [test_revenue_per_impression]: three
    impressions each, revenues 0, 10, 20 under "A" and 0, 20, 40 under
    "B". *)
Definition revenue_test_df : DataFrame xfloat :=
  let variants := ["A"; "A"; "A"; "B"; "B"; "B"] in
  let clicked := [1; 1; 1; 1; 1; 1] in
  let converted := [0; 1; 1; 0; 1; 1] in
  let revenue := [XReal 0; XReal 10; XReal 20; XReal 0; XReal 20; XReal 40] in
  {| columns := ["impression_id"; "user_id"; "variant"; "clicked"; "converted"; "revenue"];
     rows := zip_rows (arange 1 7) (repeat 1 6) variants clicked converted revenue |}.

(** [four_rows] and a fifth impression, clicked and paid, under a third
    label. *)
Definition third_label_rows : DataFrame xfloat :=
  {| columns := columns four_rows;
     rows := (rows four_rows ++ [mkRow 5 4 "C" 1 1 (XReal 7)])%list |}.

(** The rows of [four_rows] from last to first, under the required
    columns only. *)
Definition four_rows_reversed : DataFrame xfloat :=
  {| columns := ["revenue"; "converted"; "clicked"; "variant"];
     rows := rev (rows four_rows) |}.

(** [dataclasses.replace(c, seed=s)], [replace(c, ctr_a=a, ctr_b=b)] and
    [replace(c, rev_std=x)]. *)
Definition with_seed {F} (s : option Z) (c : AdExperimentConfig F) : AdExperimentConfig F :=
  {| n_impressions := n_impressions c;
     ctr_a := ctr_a c; ctr_b := ctr_b c;
     conv_a := conv_a c; conv_b := conv_b c;
     rev_mean_a := rev_mean_a c; rev_mean_b := rev_mean_b c;
     rev_std := rev_std c;
     seed := s |}.

Definition with_ctr {F} (a b : F) (c : AdExperimentConfig F) : AdExperimentConfig F :=
  {| n_impressions := n_impressions c;
     ctr_a := a; ctr_b := b;
     conv_a := conv_a c; conv_b := conv_b c;
     rev_mean_a := rev_mean_a c; rev_mean_b := rev_mean_b c;
     rev_std := rev_std c;
     seed := seed c |}.

Definition with_rev_std {F} (x : F) (c : AdExperimentConfig F) : AdExperimentConfig F :=
  {| n_impressions := n_impressions c;
     ctr_a := ctr_a c; ctr_b := ctr_b c;
     conv_a := conv_a c; conv_b := conv_b c;
     rev_mean_a := rev_mean_a c; rev_mean_b := rev_mean_b c;
     rev_std := x;
     seed := seed c |}.

Section OutcomeVocabulary.
Context {F : Type} `{Float64 F} `{StatsLib F}.

(** What a binary metric comes to on the rows [rs]: [binary_result] of
    the two labels' sums and counts, or the exception for a label without
    rows. *)
Definition binary_outcome (al : F) (name : string) (col : Row F -> Z)
    (rs : list (Row F)) : result (MetricResult F) :=
  match group_rows "A" rs, group_rows "B" rs with
  | _ :: _, _ :: _ =>
      Ok (binary_result al name (successes col "A" rs) (trials "A" rs)
                        (successes col "B" rs) (trials "B" rs))
  | _, _ => Raise Both_variants_must_be_present
  end.

(** The same for the revenue metric. *)
Definition revenue_outcome (al : F) (rs : list (Row F)) : result (MetricResult F) :=
  match group_rows "A" rs, group_rows "B" rs with
  | _ :: _, _ :: _ =>
      Ok (revenue_result al (mean_revenue "A" rs) (mean_revenue "B" rs)
                         (map revenue (group_rows "A" rs)) (map revenue (group_rows "B" rs)))
  | _, _ => Raise Both_variants_must_be_present
  end.
End OutcomeVocabulary.

(** * Properties *)

(** ** Grouping *)

Section GroupingFacts.
Context {F : Type}.
Implicit Types (rs : list (Row F)) (v : string).

Lemma has_variant_group_rows v rs :
  has_variant v rs <-> group_rows v rs <> [].
Proof.
  unfold has_variant, group_rows. split.
  - intros (r & Hin & Hv) Hnil.
    assert (Hr : In r (List.filter (fun r => String.eqb (variant r) v) rs)).
    { apply filter_In. split; [exact Hin|]. now apply String.eqb_eq. }
    rewrite Hnil in Hr. destruct Hr.
  - intros Hne.
    destruct (List.filter (fun r => String.eqb (variant r) v) rs) as [|r l] eqn:E;
      [congruence|].
    assert (Hr : In r (List.filter (fun r => String.eqb (variant r) v) rs))
      by (rewrite E; now left).
    apply filter_In in Hr as [Hin Hv]. exists r. split; [exact Hin|].
    now apply String.eqb_eq.
Qed.

Lemma trials_pos v rs : group_rows v rs <> [] -> 0 < trials v rs.
Proof. unfold trials. destruct (group_rows v rs); [congruence|simpl; lia]. Qed.

(** Looking a label up in the grouped frame is folding that label's
    rows alone. *)
Lemma groupby_lookup_from {A} (f : option A -> Row F -> A) rs (g0 : gmap string A) v :
  fold_left (fun g r => <[variant r := f (g !! variant r) r]> g) rs g0 !! v
  = fold_left (fun o r => Some (f o r)) (group_rows v rs) (g0 !! v).
Proof.
  revert g0. induction rs as [|r rs IH]; intros g0; simpl; [reflexivity|].
  rewrite IH. destruct (String.eqb (variant r) v) eqn:E; simpl.
  - apply String.eqb_eq in E. subst v. now rewrite lookup_insert_eq.
  - apply String.eqb_neq in E. now rewrite lookup_insert_ne.
Qed.

Lemma agg_lookup {A} (f : option A -> Row F -> A) rs v :
  agg f rs !! v
  = fold_left (fun o r => Some (f o r)) (group_rows v rs) None.
Proof. unfold agg. now rewrite groupby_lookup_from, lookup_empty. Qed.

Lemma fold_sum_count_some (col : Row F -> Z) (l : list (Row F)) s c :
  fold_left (fun o r => Some (sum_count col o r)) l (Some (s, c))
  = Some (s + sumZ (map col l), c + Z.of_nat (length l)).
Proof.
  revert s c. induction l as [|r l IH]; intros s c; simpl fold_left.
  - simpl. f_equal. f_equal; lia.
  - rewrite IH. simpl map. simpl sumZ. simpl length. f_equal. f_equal; lia.
Qed.

(** [sum] and [count] of a label's rows; no entry when it has none. *)
Lemma agg_sum_count_lookup (col : Row F -> Z) rs v :
  agg (sum_count col) rs !! v
  = match group_rows v rs with
    | [] => None
    | _ => Some (successes col v rs, trials v rs)
    end.
Proof.
  rewrite agg_lookup. unfold successes, trials.
  destruct (group_rows v rs) as [|r l]; [reflexivity|].
  simpl fold_left. rewrite fold_sum_count_some.
  simpl map. simpl sumZ. simpl length. f_equal. f_equal; lia.
Qed.

Lemma both_present_spec {A} (g : gmap string A) :
  both_present g = true <-> is_Some (g !! "A") /\ is_Some (g !! "B").
Proof.
  unfold both_present.
  now rewrite bool_decide_eq_true, union_subseteq, !singleton_subseteq_l, !elem_of_dom.
Qed.

(** A sum of 0/1 indicators lies between 0 and the number of rows. *)
Lemma successes_bounds (col : Row F -> Z) v rs :
  (forall r, In r rs -> col r = 0 \/ col r = 1) ->
  0 <= successes col v rs <= trials v rs.
Proof.
  intros Hb. unfold successes, trials, group_rows.
  induction rs as [|r rs IH]; simpl; [lia|].
  assert (IH' : 0 <= sumZ (map col (List.filter (fun r => String.eqb (variant r) v) rs))
                <= Z.of_nat (length (List.filter (fun r => String.eqb (variant r) v) rs)))
    by (apply IH; intros; apply Hb; now right).
  destruct (String.eqb (variant r) v); [|exact IH'].
  simpl. destruct (Hb r (or_introl eq_refl)) as [E|E]; rewrite E; lia.
Qed.
Lemma trials_le_length v rs : trials v rs <= Z.of_nat (length rs).
Proof.
  unfold trials, group_rows. apply inj_le.
  induction rs as [|r rs IH]; simpl; [lia|].
  destruct (String.eqb (variant r) v); simpl; lia.
Qed.

Lemma int64_small (z : Z) : - 2 ^ 63 <= z < 2 ^ 63 -> int64 z = z.
Proof. intros Hz. unfold int64. rewrite Z.mod_small; lia. Qed.

Lemma fold_sum_count_int64_some (col : Row F -> Z) (l : list (Row F)) s c :
  (forall r, In r l -> col r = 0 \/ col r = 1) ->
  0 <= s <= c -> c + Z.of_nat (length l) < 2 ^ 63 ->
  fold_left (fun o r => Some (sum_count_int64 col o r)) l (Some (s, c))
  = fold_left (fun o r => Some (sum_count col o r)) l (Some (s, c)).
Proof.
  revert s c. induction l as [|r l IH]; intros s c Hcol Hs Hc; [reflexivity|].
  cbn [fold_left sum_count_int64 sum_count]. cbn [length] in Hc.
  assert (Hr : col r = 0 \/ col r = 1) by (apply Hcol; now left).
  rewrite !int64_small by lia.
  apply IH; [intros r0 Hr0; apply Hcol; now right|lia|lia].
Qed.

(** On a 0/1 column of fewer than 2^63 rows, the sums and counts of
    int64 arithmetic are the integer sums and counts. *)
Lemma sum_count_int64_agrees (col : Row F -> Z) rs :
  (forall r, In r rs -> col r = 0 \/ col r = 1) ->
  Z.of_nat (length rs) < 2 ^ 63 ->
  agg (sum_count_int64 col) rs = agg (sum_count col) rs.
Proof.
  intros Hcol Hlen. apply map_eq. intros v. rewrite !agg_lookup.
  assert (Hin : forall r, In r (group_rows v rs) -> col r = 0 \/ col r = 1).
  { intros r Hr. apply filter_In in Hr as [Hr _]. now apply Hcol. }
  pose proof (trials_le_length v rs) as Hle. unfold trials in Hle.
  destruct (group_rows v rs) as [|r l]; [reflexivity|].
  cbn [fold_left sum_count_int64 sum_count]. cbn [length] in Hle.
  assert (Hr : col r = 0 \/ col r = 1) by (apply Hin; now left).
  rewrite int64_small by lia.
  apply fold_sum_count_int64_some; [intros r0 Hr0; apply Hin; now right|lia|lia].
Qed.

Lemma binary_indicators_check rs :
  indicators_are_binary rs = true -> binary_indicators rs.
Proof.
  unfold indicators_are_binary, binary_indicators. rewrite forallb_forall.
  intros Hall r Hr. specialize (Hall r Hr).
  rewrite andb_true_iff, !orb_true_iff, !Z.eqb_eq in Hall. exact Hall.
Qed.

End GroupingFacts.

(** ** The analyzer, case by case *)

Section AnalyzerFacts.
Context {F : Type} `{Float64 F} `{StatsLib F}.
Implicit Types (d : DataFrame F) (self : AbTestAnalyzer F).

Lemma init_inv d al self :
  __init__ d al = Ok self ->
  self = {| df := d; alpha := al |} /\
  forall c, c ∈ required_cols -> c ∈ columns d.
Proof.
  unfold __init__. destruct (bool_decide _) eqn:E; simpl; [|discriminate].
  intros [= <-]. split; [reflexivity|].
  apply bool_decide_eq_true in E. intros c Hc.
  destruct (decide (c ∈ columns d)) as [|Hn]; [assumption|exfalso].
  assert (Hin : c ∈ required_cols ∖ (list_to_set (columns d) : gset string)).
  { apply elem_of_difference. split; [exact Hc|]. now rewrite elem_of_list_to_set. }
  rewrite E in Hin. now apply not_elem_of_empty in Hin.
Qed.

Lemma init_complete d al :
  (forall c, c ∈ required_cols -> c ∈ columns d) ->
  __init__ d al = Ok {| df := d; alpha := al |}.
Proof.
  intros Hall. unfold __init__.
  rewrite bool_decide_eq_true_2; [reflexivity|].
  apply set_eq. intros c. rewrite elem_of_difference, elem_of_list_to_set.
  split; [intros [Hc Hn]; destruct Hn; now apply Hall|intros Hc; now apply not_elem_of_empty in Hc].
Qed.

Lemma required_clicked : "clicked" ∈ required_cols.
Proof. unfold required_cols. rewrite !elem_of_union, !elem_of_singleton. tauto. Qed.

Lemma required_converted : "converted" ∈ required_cols.
Proof. unfold required_cols. rewrite !elem_of_union, !elem_of_singleton. tauto. Qed.

Lemma required_variant : "variant" ∈ required_cols.
Proof. unfold required_cols. rewrite !elem_of_union, !elem_of_singleton. tauto. Qed.

Lemma required_revenue : "revenue" ∈ required_cols.
Proof. unfold required_cols. rewrite !elem_of_union, !elem_of_singleton. tauto. Qed.

Lemma groupby_variant_ok d :
  "variant" ∈ columns d -> groupby_variant d = Ok (rows d).
Proof. intros Hc. unfold groupby_variant. now rewrite bool_decide_eq_true_2. Qed.

Lemma getitem_revenue_ok d :
  "revenue" ∈ columns d -> getitem_revenue d = Ok revenue.
Proof. intros Hc. unfold getitem_revenue. now rewrite bool_decide_eq_true_2. Qed.

Lemma getitem_clicked d :
  "clicked" ∈ columns d -> getitem_int d "clicked" = Ok clicked.
Proof. intros Hc. unfold getitem_int. now rewrite bool_decide_eq_true_2. Qed.

Lemma getitem_converted d :
  "converted" ∈ columns d -> getitem_int d "converted" = Ok converted.
Proof. intros Hc. unfold getitem_int. now rewrite bool_decide_eq_true_2. Qed.

(** [_binary_ztest] raises when a label has no row, and otherwise
    returns [binary_result] of the two groups' sums and counts. *)
Lemma binary_ztest_spec self col_name name col :
  "variant" ∈ columns (df self) ->
  getitem_int (df self) col_name = Ok col ->
  _binary_ztest self col_name name
  = match group_rows "A" (rows (df self)), group_rows "B" (rows (df self)) with
    | _ :: _, _ :: _ =>
        let rs := rows (df self) in
        Ok (binary_result (alpha self) name
              (successes col "A" rs) (trials "A" rs)
              (successes col "B" rs) (trials "B" rs))
    | _, _ => Raise Both_variants_must_be_present
    end.
Proof.
  intros Hvar Hcol. unfold _binary_ztest.
  rewrite (groupby_variant_ok _ Hvar), Hcol. simpl bind.
  destruct (both_present _) eqn:E; simpl negb; cbv iota.
  - apply both_present_spec in E as [[a Ha] [b Hb]].
    unfold loc. rewrite Ha, Hb. simpl bind.
    rewrite agg_sum_count_lookup in Ha, Hb.
    destruct (group_rows "A" _) as [|ra la] eqn:EA; [discriminate|].
    destruct (group_rows "B" _) as [|rb lb] eqn:EB; [discriminate|].
    injection Ha as <-. injection Hb as <-. reflexivity.
  - destruct (group_rows "A" _) as [|ra la] eqn:EA; [reflexivity|].
    destruct (group_rows "B" _) as [|rb lb] eqn:EB; [reflexivity|].
    exfalso. assert (Hp : both_present
      (agg (sum_count col) (rows (df self))) = true).
    { apply both_present_spec. rewrite !agg_sum_count_lookup, EA, EB.
      split; eexists; reflexivity. }
    congruence.
Qed.

Lemma fold_sum_count_f_some (l : list (Row F)) (st : F * F * Z) :
  fold_left (fun o r => Some (sum_count_f revenue o r)) l (Some st)
  = Some (fold_left kahan_step (map revenue l) st).
Proof.
  revert st. induction l as [|r l IH]; intros st; simpl fold_left; [reflexivity|].
  now rewrite IH.
Qed.

Lemma agg_mean_lookup (rs : list (Row F)) v :
  (mean_of <$> agg (sum_count_f revenue) rs) !! v
  = match group_rows v rs with
    | [] => None
    | _ => Some (mean_revenue v rs)
    end.
Proof.
  rewrite lookup_fmap, agg_lookup. unfold mean_revenue, kahan_mean.
  destruct (group_rows v rs) as [|r l]; [reflexivity|].
  simpl fold_left at 1. rewrite fold_sum_count_f_some. reflexivity.
Qed.

Lemma revenue_per_impression_spec self :
  "variant" ∈ columns (df self) -> "revenue" ∈ columns (df self) ->
  revenue_per_impression self
  = match group_rows "A" (rows (df self)), group_rows "B" (rows (df self)) with
    | _ :: _, _ :: _ =>
        let rs := rows (df self) in
        Ok (revenue_result (alpha self)
              (mean_revenue "A" rs) (mean_revenue "B" rs)
              (map revenue (group_rows "A" rs)) (map revenue (group_rows "B" rs)))
    | _, _ => Raise Both_variants_must_be_present
    end.
Proof.
  intros Hvar Hrev. unfold revenue_per_impression.
  rewrite (groupby_variant_ok _ Hvar), (getitem_revenue_ok _ Hrev). simpl bind.
  destruct (both_present _) eqn:E; simpl negb; cbv iota.
  - apply both_present_spec in E as [[a Ha] [b Hb]].
    unfold loc. rewrite Ha, Hb. simpl bind.
    rewrite agg_mean_lookup in Ha, Hb.
    destruct (group_rows "A" _) as [|ra la] eqn:EA; [discriminate|].
    destruct (group_rows "B" _) as [|rb lb] eqn:EB; [discriminate|].
    injection Ha as <-. injection Hb as <-.
    unfold select. simpl rows.
    fold (group_rows "A" (rows (df self))). fold (group_rows "B" (rows (df self))).
    rewrite EA, EB. reflexivity.
  - destruct (group_rows "A" _) as [|ra la] eqn:EA; [reflexivity|].
    destruct (group_rows "B" _) as [|rb lb] eqn:EB; [reflexivity|].
    exfalso. assert (Hp : both_present
      (mean_of <$> agg (sum_count_f revenue) (rows (df self))) = true).
    { apply both_present_spec. rewrite !agg_mean_lookup, EA, EB.
      split; eexists; reflexivity. }
    congruence.
Qed.

Lemma conversion_rate_clicks_spec d al self :
  __init__ d al = Ok self ->
  conversion_rate self "clicks"
  = match clicked_rows (rows d) with
    | [] => Raise No_clicks_in_dataset
    | _ :: _ =>
        _binary_ztest {| df := select (fun r => clicked r =? 1) d; alpha := al |}
                      "converted" "conversion_rate_per_click"
    end.
Proof.
  intros Hinit. apply init_inv in Hinit as [-> Hcols].
  unfold conversion_rate. simpl String.eqb. cbv iota. simpl df. simpl alpha.
  rewrite (getitem_clicked _ (Hcols _ required_clicked)). simpl bind.
  unfold clicked_rows. simpl rows.
  destruct (List.filter _ (rows d)) eqn:E; [reflexivity|].
  rewrite init_complete; [reflexivity|]. simpl columns. exact Hcols.
Qed.

Lemma conversion_rate_clicks_groups d al self :
  __init__ d al = Ok self ->
  conversion_rate self "clicks"
  = let crs := clicked_rows (rows d) in
    match crs with
    | [] => Raise No_clicks_in_dataset
    | _ :: _ =>
        match group_rows "A" crs, group_rows "B" crs with
        | _ :: _, _ :: _ =>
            Ok (binary_result al "conversion_rate_per_click"
                  (successes converted "A" crs) (trials "A" crs)
                  (successes converted "B" crs) (trials "B" crs))
        | _, _ => Raise Both_variants_must_be_present
        end
    end.
Proof.
  intros Hinit. rewrite (conversion_rate_clicks_spec _ _ _ Hinit).
  apply init_inv in Hinit as [-> Hcols]. cbv zeta.
  destruct (clicked_rows (rows d)) as [|r l] eqn:E; [reflexivity|].
  erewrite binary_ztest_spec
    by (simpl; first [apply Hcols, required_variant
                     |apply getitem_converted; simpl; apply Hcols, required_converted]).
  unfold select. simpl df. simpl rows. simpl alpha.
  fold (clicked_rows (rows d)). rewrite E. reflexivity.
Qed.

(** [ctr] and [conversion_rate("impressions")] on a constructed analyzer. *)
Lemma ctr_spec d al self :
  __init__ d al = Ok self ->
  ctr self
  = match group_rows "A" (rows d), group_rows "B" (rows d) with
    | _ :: _, _ :: _ =>
        Ok (binary_result al "click_through_rate"
              (successes clicked "A" (rows d)) (trials "A" (rows d))
              (successes clicked "B" (rows d)) (trials "B" (rows d)))
    | _, _ => Raise Both_variants_must_be_present
    end.
Proof.
  intros Hinit. apply init_inv in Hinit as [-> Hcols]. unfold ctr.
  erewrite binary_ztest_spec
    by (first [apply Hcols, required_variant|apply getitem_clicked, Hcols, required_clicked]).
  reflexivity.
Qed.

Lemma conversion_rate_impressions_spec d al self :
  __init__ d al = Ok self ->
  conversion_rate self "impressions"
  = match group_rows "A" (rows d), group_rows "B" (rows d) with
    | _ :: _, _ :: _ =>
        Ok (binary_result al "conversion_rate_per_impression"
              (successes converted "A" (rows d)) (trials "A" (rows d))
              (successes converted "B" (rows d)) (trials "B" (rows d)))
    | _, _ => Raise Both_variants_must_be_present
    end.
Proof.
  intros Hinit. apply init_inv in Hinit as [-> Hcols].
  unfold conversion_rate. simpl String.eqb. cbv iota.
  erewrite binary_ztest_spec
    by (first [apply Hcols, required_variant
              |apply getitem_converted, Hcols, required_converted]).
  reflexivity.
Qed.

Lemma both_groups (X : Type) (rs : list (Row F)) (x y : result X) :
  has_variant "A" rs -> has_variant "B" rs ->
  match group_rows "A" rs, group_rows "B" rs with
  | _ :: _, _ :: _ => x
  | _, _ => y
  end = x.
Proof.
  intros Ha Hb. apply has_variant_group_rows in Ha, Hb.
  destruct (group_rows "A" rs); [congruence|].
  destruct (group_rows "B" rs); [congruence|reflexivity].
Qed.

Lemma In_clicked_rows (rs : list (Row F)) r :
  In r (clicked_rows rs) <-> In r rs /\ clicked r = 1.
Proof. unfold clicked_rows. rewrite filter_In, Z.eqb_eq. tauto. Qed.
End AnalyzerFacts.

(** ** Claims about the analyzer that hold for every float64 and every
       statistics library *)

Section AnalyzerClaims.
Context {F : Type} `{Float64 F} `{StatsLib F}.
Implicit Types (d : DataFrame F) (self : AbTestAnalyzer F).

(** C3. Construction checks the column index against the four required
    names: the set reported is exactly the required names that are not
    columns of the frame; construction raises
    [Missing_required_columns] (the specification's SchemaError) with
    that set when it is not empty, and succeeds, keeping the frame and
    alpha, when it is empty, that is when all four names are columns.
    A frame that lacks only [revenue] is refused with the set
    [{revenue}]. *)
Theorem C3_init_checks_required_columns d (al : F) :
  let missing : gset string := required_cols ∖ list_to_set (columns d) in
  (forall c, c ∈ missing <->
     (c = "variant" \/ c = "clicked" \/ c = "converted" \/ c = "revenue")
     /\ c ∉ columns d)
  /\ (missing <> ∅ -> __init__ d al = Raise (Missing_required_columns missing))
  /\ (missing = ∅ <->
      "variant" ∈ columns d /\ "clicked" ∈ columns d
      /\ "converted" ∈ columns d /\ "revenue" ∈ columns d)
  /\ (missing = ∅ -> __init__ d al = Ok {| df := d; alpha := al |})
  /\ ("variant" ∈ columns d -> "clicked" ∈ columns d -> "converted" ∈ columns d ->
      "revenue" ∉ columns d ->
      __init__ d al = Raise (Missing_required_columns {[ "revenue" ]})).
Proof.
  intros missing.
  assert (Hmem : forall c, c ∈ missing <->
     (c = "variant" \/ c = "clicked" \/ c = "converted" \/ c = "revenue")
     /\ c ∉ columns d).
  { intros c. unfold missing, required_cols.
    rewrite elem_of_difference, elem_of_list_to_set,
      !elem_of_union, !elem_of_singleton. tauto. }
  assert (Hraise : missing <> ∅ ->
     __init__ d al = Raise (Missing_required_columns missing)).
  { intros Hne. unfold __init__. fold missing.
    now rewrite bool_decide_eq_false_2. }
  split; [exact Hmem|]. split; [exact Hraise|]. split; [|split].
  - split.
    + intros He.
      assert (Hin : forall c, (c = "variant" \/ c = "clicked" \/ c = "converted"
                               \/ c = "revenue") -> c ∈ columns d).
      { intros c Hc. destruct (decide (c ∈ columns d)) as [|Hn]; [assumption|].
        exfalso. assert (Hm : c ∈ missing) by (apply Hmem; tauto).
        rewrite He in Hm. now apply not_elem_of_empty in Hm. }
      repeat split; apply Hin; tauto.
    + intros (Hv & Hc & Hk & Hr). apply set_eq. intros c. rewrite Hmem.
      split; [|intros Hc0; now apply not_elem_of_empty in Hc0].
      intros [[-> | [-> | [-> | ->]]] Hn]; now destruct Hn.
  - intros He. unfold __init__. fold missing. now rewrite bool_decide_eq_true_2.
  - intros Hv Hc Hk Hr.
    assert (Hrev : missing = {[ "revenue" ]}).
    { apply set_eq. intros c. rewrite Hmem, elem_of_singleton. split.
      - intros [[-> | [-> | [-> | ->]]] Hn]; try reflexivity; now destruct Hn.
      - intros ->. tauto. }
    rewrite <- Hrev. apply Hraise. rewrite Hrev.
    intros He. assert (Hin : "revenue" ∈ (∅ : gset string))
      by (rewrite <- He; now apply elem_of_singleton).
    now apply not_elem_of_empty in Hin.
Qed.

(** C2. On an analyzer constructed from a frame in which label "A" or
    label "B" does not occur, [ctr], [conversion_rate("impressions")] and
    [revenue_per_impression] each raise [Both_variants_must_be_present]
    (the specification's MissingVariantError). *)
Theorem C2_missing_variant_raises d (al : F) self :
  __init__ d al = Ok self ->
  ~ has_variant "A" (rows d) \/ ~ has_variant "B" (rows d) ->
  ctr self = Raise Both_variants_must_be_present
  /\ conversion_rate self "impressions" = Raise Both_variants_must_be_present
  /\ revenue_per_impression self = Raise Both_variants_must_be_present.
Proof.
  intros Hinit Habs.
  assert (Hnil : group_rows "A" (rows d) = [] \/ group_rows "B" (rows d) = []).
  { destruct Habs as [Ha|Hb]; [left|right].
    - destruct (group_rows "A" (rows d)) eqn:E; [reflexivity|].
      destruct Ha. apply has_variant_group_rows. congruence.
    - destruct (group_rows "B" (rows d)) eqn:E; [reflexivity|].
      destruct Hb. apply has_variant_group_rows. congruence. }
  assert (Hm : forall (X : Type) (x y : result X),
    match group_rows "A" (rows d), group_rows "B" (rows d) with
    | _ :: _, _ :: _ => x
    | _, _ => y
    end = y).
  { intros X x y. destruct Hnil as [-> | ->]; [reflexivity|].
    now destruct (group_rows "A" (rows d)). }
  rewrite (ctr_spec _ _ _ Hinit), (conversion_rate_impressions_spec _ _ _ Hinit).
  apply init_inv in Hinit as [-> Hcols].
  rewrite revenue_per_impression_spec
    by (simpl; first [apply Hcols, required_variant|apply Hcols, required_revenue]).
  simpl df. rewrite !Hm. repeat split.
Qed.


(** C10. A frame may hold both labels and some clicked rows and still
    have all its clicked rows under one label; then
    [conversion_rate("clicks")] raises [Both_variants_must_be_present]:
    the check is made on the clicked rows, not on the whole frame. *)
Theorem C10_clicks_under_one_label_raises d (al : F) self (v : string) :
  __init__ d al = Ok self ->
  has_variant "A" (rows d) -> has_variant "B" (rows d) ->
  (exists r, In r (rows d) /\ clicked r = 1) ->
  (forall r, In r (rows d) -> clicked r = 1 -> variant r = v) ->
  conversion_rate self "clicks" = Raise Both_variants_must_be_present.
Proof.
  intros Hinit _ _ (r1 & Hin1 & Hc1) Hone.
  rewrite (conversion_rate_clicks_groups _ _ _ Hinit). cbv zeta.
  set (crs := clicked_rows (rows d)).
  assert (Hv : forall r, In r crs -> variant r = v).
  { intros r Hr. apply In_clicked_rows in Hr as [Hin Hc]. now apply Hone. }
  destruct crs as [|r0 l0] eqn:Ecrs; [|rewrite <- Ecrs in *].
  { assert (Hr1 : In r1 (clicked_rows (rows d))) by (now apply In_clicked_rows).
    fold crs in Hr1. rewrite Ecrs in Hr1. destruct Hr1. }
  replace (match crs with [] => Raise No_clicks_in_dataset | _ :: _ =>
    match group_rows "A" crs, group_rows "B" crs with
    | _ :: _, _ :: _ =>
        Ok (binary_result al "conversion_rate_per_click"
              (successes converted "A" crs) (trials "A" crs)
              (successes converted "B" crs) (trials "B" crs))
    | _, _ => Raise Both_variants_must_be_present
    end end)
  with (match group_rows "A" crs, group_rows "B" crs with
    | _ :: _, _ :: _ =>
        Ok (binary_result al "conversion_rate_per_click"
              (successes converted "A" crs) (trials "A" crs)
              (successes converted "B" crs) (trials "B" crs))
    | _, _ => Raise Both_variants_must_be_present
    end) by (rewrite Ecrs; reflexivity).
  destruct (group_rows "A" crs) as [|ra la] eqn:EA; [reflexivity|].
  destruct (group_rows "B" crs) as [|rb lb] eqn:EB; [reflexivity|].
  exfalso.
  assert (Ha : In ra (group_rows "A" crs)) by (rewrite EA; now left).
  assert (Hb : In rb (group_rows "B" crs)) by (rewrite EB; now left).
  apply filter_In in Ha as [Ha Hva]. apply filter_In in Hb as [Hb Hvb].
  apply String.eqb_eq in Hva, Hvb.
  rewrite (Hv ra Ha) in Hva. rewrite (Hv rb Hb) in Hvb. congruence.
Qed.
End AnalyzerClaims.

(** ** Exact arithmetic *)

Lemma x_leb_real (a b : Q) : x_leb (XReal a) (XReal b) = true <-> (a <= b)%Q.
Proof.
  unfold x_leb, x_ltb, x_eqb. rewrite orb_true_iff, negb_true_iff, Qeq_bool_iff.
  rewrite <- not_true_iff_false, Qle_bool_iff. split.
  - intros [Hlt | Heq]; [apply Qlt_le_weak, Qnot_le_lt, Hlt | rewrite Heq; apply Qle_refl].
  - intros Hle. destruct (Qlt_le_dec a b) as [Hlt | Hge].
    + left. now apply Qlt_not_le.
    + right. now apply Qle_antisym.
Qed.

Lemma x_ltb_real (a b : Q) : x_ltb (XReal a) (XReal b) = true <-> (a < b)%Q.
Proof.
  unfold x_ltb. rewrite negb_true_iff, <- not_true_iff_false, Qle_bool_iff. split.
  - apply Qnot_le_lt.
  - apply Qlt_not_le.
Qed.

Lemma x_isnan_true (x : xfloat) : x_isnan x = true <-> x = XNaN.
Proof. destruct x; simpl; split; congruence. Qed.

Lemma in_unit_interval_real (q : Q) :
  in_unit_interval (XReal q) <-> (0 <= q <= 1)%Q.
Proof.
  unfold in_unit_interval, f_zero, f_one. simpl. unfold x_of_int.
  now rewrite !x_leb_real.
Qed.

Lemma not_in_unit_interval_nan : ~ in_unit_interval XNaN.
Proof. intros [Hlo _]. discriminate Hlo. Qed.

Lemma x_div_ints (s n : Z) :
  n <> 0 ->
  x_div (x_of_int s) (x_of_int n) = XReal (Qred (inject_Z s / inject_Z n)).
Proof.
  intros Hn. unfold x_div, x_of_int, q_is_zero. simpl Qnum.
  destruct (n =? 0) eqn:E; [apply Z.eqb_eq in E; contradiction|reflexivity].
Qed.

Lemma ratio_bounds (s n : Z) :
  0 < n -> 0 <= s <= n -> (0 <= inject_Z s / inject_Z n <= 1)%Q.
Proof.
  intros Hn [Hs0 Hsn].
  assert (Hn' : (0 < inject_Z n)%Q) by (unfold Qlt; simpl; lia).
  split.
  - apply Qle_shift_div_l; [exact Hn'|]. rewrite Qmult_0_l.
    unfold Qle; simpl; lia.
  - apply Qle_shift_div_r; [exact Hn'|]. rewrite Qmult_1_l.
    unfold Qle; simpl; lia.
Qed.

(** [clip(min=0)] of a number is not negative. *)
Lemma x_clip_nonneg (q : Q) :
  f_leb f_zero (f_maximum (XReal q) f_zero) = true.
Proof.
  change (x_leb (XReal 0) (if x_ltb (XReal q) (XReal 0) then XReal 0 else XReal q) = true).
  destruct (x_ltb (XReal q) (XReal 0)) eqn:Hlt.
  - now apply x_leb_real.
  - apply x_leb_real. apply Qnot_lt_le. intros Hneg.
    apply (proj2 (x_ltb_real q 0)) in Hneg. congruence.
Qed.

Lemma tail_stand_in_range (x : Q) : in_unit_interval (XReal (tail_stand_in x)).
Proof.
  apply in_unit_interval_real. unfold tail_stand_in. rewrite Qred_correct.
  assert (Habs : (0 <= Qabs x)%Q) by apply Qabs_nonneg.
  assert (Hpos : (0 < 1 + Qabs x)%Q).
  { apply Qlt_le_trans with (y := 1%Q); [reflexivity|].
    rewrite <- (Qplus_0_r 1) at 1. now apply Qplus_le_r. }
  split.
  - apply Qle_shift_div_l; [exact Hpos|]. rewrite Qmult_0_l. discriminate.
  - apply Qle_shift_div_r; [exact Hpos|]. rewrite Qmult_1_l.
    rewrite <- (Qplus_0_r 1) at 1. now apply Qplus_le_r.
Qed.

Lemma in_unit_interval_zero : in_unit_interval (XReal 0).
Proof. apply in_unit_interval_real. split; discriminate. Qed.

Lemma exact_stats_laws : StatsLibLaws xfloat.
Proof.
  split.
  - intros sa sb na nb. simpl.
    destruct ((na <=? 0) || (nb <=? 0)); [left; reflexivity|].
    destruct (_ <? 0); [left; reflexivity|].
    destruct (_ =? 0).
    + destruct (_ =? 0); [left; reflexivity|right; apply in_unit_interval_zero].
    + right. apply tail_stand_in_range.
  - intros sa sb na nb Hna Hnb Hsa Hsb Hdeg. simpl. unfold x_proportions_ztest.
    replace ((na <=? 0) || (nb <=? 0)) with false
      by (symmetry; apply orb_false_iff; split; apply Z.leb_gt; lia).
    assert (Hz : (sa + sb) * (na + nb - (sa + sb)) = 0)
      by (destruct Hdeg as [-> | ->]; lia).
    rewrite Hz. simpl.
    replace (sa * nb - sb * na) with 0 by (destruct Hdeg; nia).
    reflexivity.
  - intros sa sb na nb Hna Hnb Hsa Hsb Hmid. simpl. unfold x_proportions_ztest.
    replace ((na <=? 0) || (nb <=? 0)) with false
      by (symmetry; apply orb_false_iff; split; apply Z.leb_gt; lia).
    assert (Hz : 0 < (sa + sb) * (na + nb - (sa + sb))) by nia.
    replace (_ <? 0) with false by (symmetry; apply Z.ltb_ge; lia).
    replace (_ =? 0) with false by (symmetry; apply Z.eqb_neq; lia).
    split; [reflexivity|apply tail_stand_in_range].
  - intros a b. simpl. unfold x_ttest_ind.
    destruct (reals a); [|left; reflexivity].
    destruct (reals b); [|left; reflexivity].
    destruct (_ || _); [left; reflexivity|].
    destruct (Qeq_bool _ 0).
    + destruct (Qeq_bool _ 0); [left; reflexivity|right; apply in_unit_interval_zero].
    + right. apply tail_stand_in_range.
Qed.

(** ** The p-value *)

Section PValue.
Context {F : Type} `{Float64 F} `{StatsLib F}.
Implicit Types (d : DataFrame F) (self : AbTestAnalyzer F).

Lemma binary_ztest_p_value self col_name name r :
  _binary_ztest self col_name name = Ok r ->
  exists sa sb na nb, p_value r = snd (proportions_ztest [sa; sb] [na; nb]).
Proof.
  unfold _binary_ztest. destruct (groupby_variant _); simpl bind; [|discriminate].
  destruct (getitem_int _ _); simpl bind; [|discriminate].
  destruct (both_present _); simpl negb; cbv iota; [|discriminate].
  destruct (loc _ "A"); simpl bind; [|discriminate].
  destruct (loc _ "B"); simpl bind; [|discriminate].
  intros [= <-]. simpl. eauto.
Qed.

Lemma conversion_rate_p_value self den r :
  conversion_rate self den = Ok r ->
  exists sa sb na nb, p_value r = snd (proportions_ztest [sa; sb] [na; nb]).
Proof.
  unfold conversion_rate.
  destruct (String.eqb den "impressions"); [apply binary_ztest_p_value|].
  destruct (String.eqb den "clicks"); [|discriminate].
  destruct (getitem_int _ _); simpl bind; [|discriminate].
  match goal with
  | |- context [match ?l with [] => true | _ :: _ => false end] => destruct l
  end; [discriminate|].
  destruct (__init__ _ _); simpl bind; [apply binary_ztest_p_value|discriminate].
Qed.

Lemma revenue_p_value self r :
  revenue_per_impression self = Ok r ->
  exists a b, p_value r = snd (ttest_ind a b).
Proof.
  unfold revenue_per_impression.
  destruct (groupby_variant _); simpl bind; [|discriminate].
  destruct (getitem_revenue _); simpl bind; [|discriminate].
  destruct (both_present _); simpl negb; cbv iota; [|discriminate].
  destruct (loc _ "A"); simpl bind; [|discriminate].
  destruct (loc _ "B"); simpl bind; [|discriminate].
  intros [= <-]. simpl. eauto.
Qed.

(** The p-value of a binary metric on 0/1 data. *)
Lemma binary_result_p_value (laws : StatsLibLaws F) al name (col : Row F -> Z)
    (rs : list (Row F)) :
  (forall r, In r rs -> col r = 0 \/ col r = 1) ->
  has_variant "A" rs -> has_variant "B" rs ->
  let s := successes col "A" rs + successes col "B" rs in
  let n := trials "A" rs + trials "B" rs in
  let p := p_value (binary_result al name (successes col "A" rs) (trials "A" rs)
                                  (successes col "B" rs) (trials "B" rs)) in
  (s = 0 \/ s = n -> f_isnan p = true)
  /\ (0 < s < n -> f_isnan p = false /\ in_unit_interval p).
Proof.
  intros Hbin Ha Hb s n p. subst p. simpl.
  pose proof (successes_bounds col "A" rs Hbin) as Ba.
  pose proof (successes_bounds col "B" rs Hbin) as Bb.
  apply has_variant_group_rows, trials_pos in Ha, Hb.
  split; intros Hs.
  - now apply ztest_undefined.
  - now apply ztest_defined.
Qed.

(** C4 (as amended). Whatever a metric returns, its p-value is NaN or
    lies in [0, 1]: this holds for [ctr], for [conversion_rate] with
    either denominator and for [revenue_per_impression]. For [ctr] and
    [conversion_rate("impressions")] on 0/1 indicator columns, with s
    the successes and n the rows of the two labels together, the
    p-value is NaN when s = 0 or s = n and a number of [0, 1] when
    0 < s < n. *)
Theorem C4_p_value_is_nan_or_in_unit_interval (laws : StatsLibLaws F)
    d (al : F) self r :
  __init__ d al = Ok self ->
  (ctr self = Ok r \/ (exists den, conversion_rate self den = Ok r)
     \/ revenue_per_impression self = Ok r ->
   f_isnan (p_value r) = true \/ in_unit_interval (p_value r))
  /\ (binary_indicators (rows d) ->
      (ctr self = Ok r ->
         let s := successes clicked "A" (rows d) + successes clicked "B" (rows d) in
         let n := trials "A" (rows d) + trials "B" (rows d) in
         (s = 0 \/ s = n -> f_isnan (p_value r) = true)
         /\ (0 < s < n -> f_isnan (p_value r) = false /\ in_unit_interval (p_value r)))
      /\ (conversion_rate self "impressions" = Ok r ->
         let s := successes converted "A" (rows d) + successes converted "B" (rows d) in
         let n := trials "A" (rows d) + trials "B" (rows d) in
         (s = 0 \/ s = n -> f_isnan (p_value r) = true)
         /\ (0 < s < n -> f_isnan (p_value r) = false /\ in_unit_interval (p_value r)))).
Proof.
  intros Hinit. split.
  - intros [Hr | [[den Hr] | Hr]].
    + apply binary_ztest_p_value in Hr as (sa & sb & na & nb & ->).
      apply ztest_pvalue_range, laws.
    + apply conversion_rate_p_value in Hr as (sa & sb & na & nb & ->).
      apply ztest_pvalue_range, laws.
    + apply revenue_p_value in Hr as (a & b & ->). apply ttest_pvalue_range, laws.
  - intros Hbin. split; intros Hr.
    + rewrite (ctr_spec _ _ _ Hinit) in Hr.
      destruct (group_rows "A" (rows d)) as [|ra la] eqn:EA; [discriminate|].
      destruct (group_rows "B" (rows d)) as [|rb lb] eqn:EB; [discriminate|].
      injection Hr as <-.
      apply (binary_result_p_value laws); [intros r Hin; apply (Hbin r Hin)| |];
        apply has_variant_group_rows; congruence.
    + rewrite (conversion_rate_impressions_spec _ _ _ Hinit) in Hr.
      destruct (group_rows "A" (rows d)) as [|ra la] eqn:EA; [discriminate|].
      destruct (group_rows "B" (rows d)) as [|rb lb] eqn:EB; [discriminate|].
      injection Hr as <-.
      apply (binary_result_p_value laws); [intros r Hin; apply (Hbin r Hin)| |];
        apply has_variant_group_rows; congruence.
Qed.
End PValue.

(** C4 as stated fails on the test suite's own frame:
    nothing converted there, the pooled proportion is 0, and the p-value
    [conversion_rate("impressions")] returns is NaN, which is not in
    [0, 1]; so it is with every library that meets [StatsLibLaws], and so
    it is when run with [exact_stats]. *)
Lemma C4_conversion_p_value_is_nan_without_conversions :
  exists d : DataFrame xfloat,
    d = make_simple_df_for_ctr
    /\ (forall (S : StatsLib xfloat), StatsLibLaws xfloat ->
        exists self r,
          __init__ d alpha_005 = Ok self
          /\ conversion_rate self "impressions" = Ok r
          /\ p_value r = XNaN
          /\ ~ in_unit_interval (p_value r))
    /\ (exists self r,
          __init__ d alpha_005 = Ok self
          /\ @conversion_rate xfloat _ exact_stats self "impressions" = Ok r
          /\ p_value r = XNaN).
Proof.
  exists make_simple_df_for_ctr. split; [reflexivity|]. split.
  - intros S laws.
    exists {| df := make_simple_df_for_ctr; alpha := alpha_005 |}.
    eexists. split; [vm_compute; reflexivity|].
    split; [vm_compute; reflexivity|].
    assert (Hnan : snd (proportions_ztest [0; 0] [100; 100]) = XNaN).
    { apply x_isnan_true. apply (ztest_undefined laws); lia. }
    split; [exact Hnan|].
    intros Hin. apply not_in_unit_interval_nan. rewrite <- Hnan. exact Hin.
  - exists {| df := make_simple_df_for_ctr; alpha := alpha_005 |}.
    eexists. split; [vm_compute; reflexivity|].
    split; vm_compute; reflexivity.
Qed.

(** ** Binary64: the quotient of two counts

    [PrimFloat]'s operations are specified on [spec_float], sign,
    mantissa and exponent, by the rounding functions of [SpecFloat]. For
    two counts below 2^53 the conversions are exact and the quotient,
    rounded to nearest, does not pass 1. *)

Lemma digits2_pos_size (p : positive) : digits2_pos p = Pos.size p.
Proof. induction p; simpl; congruence. Qed.

Lemma digits2_bounds (p : positive) :
  2 ^ (Zpos (digits2_pos p) - 1) <= Zpos p < 2 ^ Zpos (digits2_pos p).
Proof.
  rewrite digits2_pos_size.
  pose proof (Pos.size_gt p) as Hgt. pose proof (Pos.size_le p) as Hle.
  apply Pos2Z.pos_lt_pos in Hgt. apply Pos2Z.pos_le_pos in Hle.
  rewrite Pos2Z.inj_pow in Hgt, Hle.
  change (Z.pos p~0) with (2 * Z.pos p) in Hle.
  replace (Z.pos (Pos.size p)) with (Z.succ (Z.pos (Pos.size p) - 1)) in Hle at 1 by lia.
  rewrite Z.pow_succ_r in Hle by lia. split; lia.
Qed.

Lemma digits2_unique (p : positive) (k : Z) :
  2 ^ (k - 1) <= Zpos p < 2 ^ k -> Zpos (digits2_pos p) = k.
Proof.
  intros [Hlo Hhi]. pose proof (digits2_bounds p) as [Dlo Dhi].
  set (d := Zpos (digits2_pos p)) in *.
  assert (0 < d) by (subst d; lia).
  destruct (Z.lt_trichotomy d k) as [Hlt | [Heq | Hgt]]; [|exact Heq|].
  - exfalso. assert (2 ^ d <= 2 ^ (k - 1)) by (apply Z.pow_le_mono_r; lia). lia.
  - exfalso. assert (k <= 0 \/ 0 < k) as [Hk|Hk] by lia.
    + assert (2 ^ k <= 2 ^ 0) by (destruct (Z.eq_dec k 0); [subst; lia|rewrite Z.pow_neg_r by lia; simpl; lia]).
      simpl in *. lia.
    + assert (2 ^ k <= 2 ^ (d - 1)) by (apply Z.pow_le_mono_r; lia). lia.
Qed.

Lemma iter_xO_val (p k : positive) : Zpos (Pos.iter xO p k) = Zpos p * 2 ^ Zpos k.
Proof.
  revert p. induction k using Pos.peano_ind; intros p.
  - simpl. lia.
  - rewrite Pos.iter_succ, Pos2Z.inj_succ, Z.pow_succ_r by lia.
    change (Z.pos (Pos.iter xO p k)~0) with (2 * Z.pos (Pos.iter xO p k)).
    rewrite IHk. lia.
Qed.

Lemma loc_of_record_of_loc m l : loc_of_shr_record (shr_record_of_loc m l) = l.
Proof. destruct l as [|[]]; reflexivity. Qed.

Lemma shr_m_record_of_loc m l : shr_m (shr_record_of_loc m l) = m.
Proof. destruct l as [|[]]; reflexivity. Qed.

Lemma round_nearest_even_range m l :
  round_nearest_even m l = m \/ round_nearest_even m l = m + 1.
Proof. destruct l as [|[]]; simpl; auto. destruct (Z.even m); auto. Qed.

(** A mantissa of 53 bits is left alone. *)
Lemma shr_fexp_53 (p : positive) e l :
  2 ^ 52 <= Zpos p < 2 ^ 53 -> -1074 <= e ->
  shr_fexp prec emax (Zpos p) e l = (shr_record_of_loc (Zpos p) l, e).
Proof.
  intros Hp He. unfold shr_fexp, Zdigits2.
  rewrite (digits2_unique p 53) by (simpl; lia).
  unfold fexp, SpecFloat.emin, prec, emax.
  replace (Z.max (53 + e - 53) (3 - 1024 - 53) - e) with 0 by lia.
  reflexivity.
Qed.

(** A mantissa of 54 bits loses its last bit. *)
Lemma shr_fexp_54 (p : positive) e l :
  2 ^ 53 <= Zpos p < 2 ^ 54 -> -1074 <= e ->
  exists (p' : positive) r s,
    shr_fexp prec emax (Zpos p) e l = (Build_shr_record (Zpos p') r s, e + 1)
    /\ Zpos p' = Zpos p / 2
    /\ (l = loc_Exact -> Z.even (Zpos p) = true -> r = false /\ s = false).
Proof.
  intros Hp He. unfold shr_fexp, Zdigits2.
  rewrite (digits2_unique p 54) by (simpl; lia).
  unfold fexp, SpecFloat.emin, prec, emax.
  replace (Z.max (54 + e - 53) (3 - 1024 - 53) - e) with 1 by lia.
  unfold shr. simpl iter_pos.
  destruct p as [p'|p'|]; [| |simpl in Hp; lia].
  - exists p'. destruct l as [|[]]; simpl; eexists _, _;
      (split; [reflexivity|split; [apply (Z.div_unique _ _ _ 1); lia|]]);
      intros _ Hev; discriminate Hev.
  - exists p'. destruct l as [|[]]; simpl; eexists _, _;
      (split; [reflexivity|split; [apply (Z.div_unique _ _ _ 0); lia|]]);
      intros Hl _; try discriminate Hl; auto.
Qed.

(** The second normalisation, after rounding: a carry into bit 54 is
    shifted out. *)
Lemma renormalize (m1 : Z) e :
  2 ^ 52 <= m1 <= 2 ^ 53 -> -1074 <= e <= 900 ->
  exists (m : positive) e',
    (let '(mrs, e'') := shr_fexp prec emax m1 e loc_Exact in
     match shr_m mrs with
     | Z0 => S754_zero false
     | Zpos m => if e'' <=? emax - prec then S754_finite false m e'' else S754_infinity false
     | Zneg _ => S754_nan
     end) = S754_finite false m e'
    /\ ((m1 < 2 ^ 53 /\ Zpos m = m1 /\ e' = e)
        \/ (m1 = 2 ^ 53 /\ Zpos m = 2 ^ 52 /\ e' = e + 1)).
Proof.
  intros Hm He. destruct m1 as [|p|p]; try lia.
  destruct (Z.eq_dec (Zpos p) (2 ^ 53)) as [Heq | Hne].
  - assert (Hp : p = 9007199254740992%positive) by lia. subst p.
    exists 4503599627370496%positive, (e + 1). split; [|right; auto].
    unfold shr_fexp, Zdigits2.
    change (Z.pos (digits2_pos 9007199254740992)) with 54.
    unfold fexp, SpecFloat.emin, prec, emax.
    replace (Z.max (54 + e - 53) (3 - 1024 - 53) - e) with 1 by lia.
    cbn [shr iter_pos shr_record_of_loc shr_1 shr_m].
    replace (e + 1 <=? 1024 - 53) with true by (symmetry; apply Z.leb_le; lia).
    reflexivity.
  - exists p, e. split; [|left; repeat split; lia].
    rewrite shr_fexp_53 by lia. rewrite shr_m_record_of_loc.
    replace (e <=? emax - prec) with true; [reflexivity|].
    symmetry. apply Z.leb_le. unfold emax, prec. lia.
Qed.

Lemma round_aux_cases (q : positive) e l :
  2 ^ 52 <= Zpos q < 2 ^ 54 -> -1000 <= e <= 800 ->
  exists (m : positive) e',
    binary_round_aux prec emax false (Zpos q) e l = S754_finite false m e'
    /\ ((Zpos q < 2 ^ 53 /\ (e' = e \/ (e' = e + 1 /\ Zpos m = 2 ^ 52)))
        \/ (2 ^ 53 <= Zpos q
            /\ ((e' = e + 1
                 /\ (l = loc_Exact -> Z.even (Zpos q) = true -> Zpos m = Zpos q / 2))
                \/ (e' = e + 2 /\ Zpos m = 2 ^ 52
                    /\ ~ (l = loc_Exact /\ Z.even (Zpos q) = true))))).
Proof.
  intros Hq He. unfold binary_round_aux.
  destruct (Z_lt_le_dec (Zpos q) (2 ^ 53)) as [Hlt | Hge].
  - rewrite shr_fexp_53 by lia.
    rewrite shr_m_record_of_loc, loc_of_record_of_loc.
    destruct (renormalize (round_nearest_even (Zpos q) l) e) as (m & e' & Hr & Hc);
      [destruct (round_nearest_even_range (Zpos q) l) as [-> | ->]; lia|lia|].
    exists m, e'. split; [exact Hr|]. left. split; [exact Hlt|].
    destruct Hc as [(_ & _ & ->) | (_ & Hm & ->)]; auto.
  - destruct (shr_fexp_54 q e l) as (p' & r & s & -> & Hp' & Hex); [lia|lia|].
    assert (Hp'r : 2 ^ 52 <= Zpos p' < 2 ^ 53).
    { rewrite Hp'. split.
      - apply Z.div_le_lower_bound; lia.
      - apply Z.div_lt_upper_bound; lia. }
    cbn [shr_m].
    destruct (renormalize
                (round_nearest_even (Zpos p')
                   (loc_of_shr_record (Build_shr_record (Zpos p') r s))) (e + 1))
      as (m & e' & Hr & Hc);
      [destruct (round_nearest_even_range (Zpos p')
                   (loc_of_shr_record (Build_shr_record (Zpos p') r s))) as [-> | ->]; lia
      |lia|].
    exists m, e'. split; [exact Hr|]. right. split; [exact Hge|].
    pose proof Hc as Hc0.
    destruct Hc0 as [(_ & Hm & ->) | (_ & Hm & ->)].
    + left. split; [reflexivity|]. intros Hl Hev.
      destruct (Hex Hl Hev) as [-> ->]. simpl in Hm. lia.
    + right. split; [lia|]. split; [exact Hm|].
      intros [Hl Hev]. destruct (Hex Hl Hev) as [-> ->].
      destruct Hc as [(_ & _ & Hc) | (Hc & _)]; simpl in Hc; lia.
Qed.

Lemma digits2_iter_xO (p k : positive) :
  Zpos (digits2_pos (Pos.iter xO p k)) = Zpos (digits2_pos p) + Zpos k.
Proof.
  apply digits2_unique. rewrite iter_xO_val.
  pose proof (digits2_bounds p) as [Dlo Dhi].
  replace (Zpos (digits2_pos p) + Zpos k - 1) with (Zpos (digits2_pos p) - 1 + Zpos k) by lia.
  rewrite !Z.pow_add_r by lia.
  assert (0 < 2 ^ Zpos k) by (apply Z.pow_pos_nonneg; lia). nia.
Qed.

(** An integer below 2^53 is converted exactly: the mantissa is the
    integer shifted to 53 bits. *)
Lemma binary_normalize_exact (n : Z) :
  0 < n < 2 ^ 53 ->
  exists (m : positive) e,
    binary_normalize prec emax n 0 false = S754_finite false m e
    /\ 2 ^ 52 <= Zpos m < 2 ^ 53 /\ -52 <= e <= 0
    /\ Zpos m = n * 2 ^ (- e).
Proof.
  intros Hn. destruct n as [|p|p]; try lia.
  pose proof (digits2_bounds p) as [Dlo Dhi].
  set (d := Zpos (digits2_pos p)) in *.
  assert (Hd : 1 <= d <= 53).
  { split; [subst d; lia|].
    destruct (Z_le_gt_dec d 53) as [|Hgt]; [assumption|exfalso].
    assert (2 ^ 53 <= 2 ^ (d - 1)) by (apply Z.pow_le_mono_r; lia). lia. }
  unfold binary_normalize, binary_round. fold d.
  unfold fexp, SpecFloat.emin, prec, emax.
  replace (Z.max (d + 0 - 53) (3 - 1024 - 53)) with (d - 53) by lia.
  unfold shl_align.
  destruct (d - 53 - 0) as [|k|k] eqn:Ek; try lia.
  - exists p, 0. assert (d = 53) by lia.
    assert (Hp : 2 ^ 52 <= Zpos p < 2 ^ 53) by (replace 52 with (d - 1) by lia; lia).
    split; [|split; [exact Hp|split; [lia|simpl; lia]]].
    unfold binary_round_aux. rewrite shr_fexp_53 by lia.
    cbn [shr_m shr_record_of_loc loc_of_shr_record round_nearest_even].
    rewrite shr_fexp_53 by lia. cbn [shr_m shr_record_of_loc]. reflexivity.
  - assert (Hk : Zpos k = 53 - d) by lia.
    assert (Hm : Zpos (Pos.iter xO p k) = Zpos p * 2 ^ (53 - d))
      by (rewrite iter_xO_val, Hk; reflexivity).
    assert (Hp : 2 ^ 52 <= Zpos (Pos.iter xO p k) < 2 ^ 53).
    { pose proof (digits2_bounds (Pos.iter xO p k)) as Hb.
      rewrite digits2_iter_xO in Hb. fold d in Hb.
      replace (d + Zpos k) with 53 in Hb by lia. exact Hb. }
    exists (Pos.iter xO p k), (d - 53).
    split; [|split; [exact Hp|split; [lia|rewrite Hm; f_equal; f_equal; lia]]].
    unfold binary_round_aux. rewrite shr_fexp_53 by lia.
    cbn [shr_m shr_record_of_loc loc_of_shr_record round_nearest_even].
    rewrite shr_fexp_53 by lia. cbn [shr_m shr_record_of_loc].
    replace (d - 53 <=? 1024 - 53) with true by (symmetry; apply Z.leb_le; lia).
    reflexivity.
Qed.

Lemma new_location_zero (nb : Z) : new_location nb 0 = loc_Exact.
Proof. unfold new_location. now destruct (Z.even nb). Qed.

(** The quotient of two positive numbers of 53 bits, the first not above
    the second, is at most 1. *)
Lemma SFdiv_le_one (mx my : positive) (ex ey : Z) :
  2 ^ 52 <= Zpos mx < 2 ^ 53 -> 2 ^ 52 <= Zpos my < 2 ^ 53 ->
  -52 <= ex <= 0 -> -52 <= ey <= 0 ->
  ex < ey \/ (ex = ey /\ Zpos mx <= Zpos my) ->
  exists (m : positive) e,
    SFdiv prec emax (S754_finite false mx ex) (S754_finite false my ey)
    = S754_finite false m e
    /\ (e < -52 \/ (e = -52 /\ Zpos m = 2 ^ 52)).
Proof.
  intros Hmx Hmy Hex Hey Hle.
  cbn [SFdiv xorb]. unfold SFdiv_core_binary, Zdigits2.
  rewrite (digits2_unique mx 53), (digits2_unique my 53) by (simpl; lia).
  unfold fexp, SpecFloat.emin, prec, emax.
  replace (Z.min (Z.max (53 + ex - (53 + ey) - 53) (3 - 1024 - 53)) (ex - ey))
    with (ex - ey - 53) by lia.
  replace (ex - ey - (ex - ey - 53)) with 53 by lia. cbv iota.
  pose proof (Z_div_mod (Z.shiftl (Zpos mx) 53) (Zpos my) eq_refl) as Hdiv.
  destruct (Z.div_eucl (Z.shiftl (Zpos mx) 53) (Zpos my)) as [q r].
  rewrite Z.shiftl_mul_pow2 in Hdiv by lia. destruct Hdiv as [Hqr Hr].
  assert (Hq : 2 ^ 52 <= q < 2 ^ 54).
  { split.
    - assert (2 ^ 52 * 2 ^ 53 < Zpos my * (q + 1)) by nia.
      assert (2 ^ 52 < q + 1) by nia. lia.
    - assert (Zpos my * q < 2 ^ 53 * 2 ^ 53) by nia.
      assert (2 ^ 52 * q < 2 ^ 53 * 2 ^ 53) by nia. lia. }
  destruct q as [|q|q]; try lia.
  destruct (round_aux_cases q (ex - ey - 53) (new_location (Zpos my) r))
    as (m & e' & Hres & Hcases); [lia|lia|].
  exists m, e'. split; [exact Hres|].
  destruct Hle as [Hlt | [Heq Hm]].
  - destruct Hcases as [(_ & [-> | [-> Hm2]]) | (_ & [[-> _] | (-> & Hm2 & _)])].
    + left; lia.
    + left; lia.
    + left; lia.
    + assert (ex - ey - 53 + 2 < -52 \/ ex - ey - 53 + 2 = -52) as [|] by lia; auto.
  - subst ey. replace (ex - ex - 53) with (-53) in * by lia.
    assert (Hq53 : Zpos q <= 2 ^ 53) by nia.
    destruct Hcases as [(_ & [-> | [-> Hm2]]) | (Hge & Hc)].
    + left; lia.
    + right; auto.
    + assert (Hqe : Zpos q = 2 ^ 53) by lia.
      assert (Hr0 : r = 0) by nia.
      subst r. rewrite new_location_zero in Hc.
      assert (Hev : Z.even (Zpos q) = true) by (rewrite Hqe; reflexivity).
      destruct Hc as [[-> Hm2] | (_ & _ & Hn)].
      * right. split; [lia|]. rewrite (Hm2 eq_refl Hev), Hqe. reflexivity.
      * exfalso. apply Hn. auto.
Qed.

Lemma to_Z_of_Z_small (z : Z) : 0 <= z < 2 ^ 63 -> Uint63.to_Z (Uint63.of_Z z) = z.
Proof.
  intros Hz. rewrite Uint63.of_Z_spec. apply Z.mod_small. exact Hz.
Qed.

Lemma b64_of_int_nonneg (z : Z) :
  0 <= z -> b64_of_int z = PrimFloat.of_uint63 (Uint63.of_Z z).
Proof.
  intros Hz. unfold b64_of_int.
  replace (z =? - 2 ^ 63) with false by (symmetry; apply Z.eqb_neq; lia).
  now replace (z <? 0) with false by (symmetry; apply Z.ltb_ge; lia).
Qed.

Lemma binary64_ratio_in_unit_interval (s n : Z) :
  0 <= s <= n -> 0 < n < 2 ^ 53 ->
  in_unit_interval (PrimFloat.div (b64_of_int s) (b64_of_int n)).
Proof.
  intros Hs Hn. unfold in_unit_interval, f_zero, f_one. cbn [f_leb f_of_int binary64_float64].
  rewrite !b64_of_int_nonneg by lia.
  rewrite !FloatAxioms.leb_spec, FloatAxioms.div_spec, !FloatAxioms.of_uint63_spec.
  rewrite !to_Z_of_Z_small by lia. unfold SF64div.
  destruct (binary_normalize_exact n Hn) as (my & ey & -> & Hmy & Hey & Vy).
  change (binary_normalize prec emax 0 0 false) with (S754_zero false).
  change (binary_normalize prec emax 1 0 false)
    with (S754_finite false 4503599627370496 (-52)).
  destruct (Z.eq_dec s 0) as [-> | Hs0].
  - change (binary_normalize prec emax 0 0 false) with (S754_zero false).
    split; reflexivity.
  - destruct (binary_normalize_exact s) as (mx & ex & -> & Hmx & Hex & Vx); [lia|].
    destruct (SFdiv_le_one mx my ex ey Hmx Hmy Hex Hey) as (m & e & -> & He).
    { destruct (Z.lt_trichotomy ex ey) as [Hlt | [Heq | Hgt]]; [left; exact Hlt| |exfalso].
      - right. split; [exact Heq|]. subst ey.
        assert (0 < 2 ^ (- ex)) by (apply Z.pow_pos_nonneg; lia). nia.
      - assert (Hpow : 2 ^ (- ey) = 2 ^ (- ex) * 2 ^ (ex - ey))
          by (rewrite <- Z.pow_add_r by lia; f_equal; lia).
        assert (2 <= 2 ^ (ex - ey))
          by (change 2 with (2 ^ 1) at 1; apply Z.pow_le_mono_r; lia).
        assert (0 < 2 ^ (- ex)) by (apply Z.pow_pos_nonneg; lia).
        assert (Zpos my >= 2 * Zpos mx) by nia. lia. }
    split; [reflexivity|].
    unfold SFleb, SFcompare.
    destruct He as [Hlt | [-> Hm]].
    + apply Z.compare_lt_iff in Hlt. now rewrite Hlt.
    + injection Hm as ->. reflexivity.
Qed.

#[export] Instance binary64_ratio_laws : Float64RatioLaws float.
Proof. split. exact binary64_ratio_in_unit_interval. Qed.

#[export] Instance xfloat_ratio_laws : Float64RatioLaws xfloat.
Proof.
  split. intros s n Hs Hn. cbn [f_div f_of_int xfloat_float64].
  rewrite x_div_ints by lia. apply in_unit_interval_real.
  rewrite Qred_correct. apply ratio_bounds; lia.
Qed.

(** ** Rates and lift *)

#[export] Instance xfloat_laws : Float64Laws xfloat.
Proof.
  split. intros x y. destruct x as [| s | a], y as [| t | b]; simpl; try discriminate.
  - destruct s, t; simpl; congruence.
  - intros Heq. apply Qeq_bool_iff in Heq.
    apply negb_false_iff, Qle_bool_iff. rewrite Heq. apply Qle_refl.
Qed.

(** Binary64 comparisons go through [SFcompare] on the decoded numbers. *)
Lemma SFcompare_Eq_sym (a b : spec_float) :
  SFcompare a b = Some Eq -> SFcompare b a = Some Eq.
Proof.
  destruct a as [sa | sa | | sa ma ea], b as [sb | sb | | sb mb eb]; simpl;
    try discriminate; try reflexivity;
    try (destruct sa; discriminate); try (destruct sb; discriminate).
  - destruct sa, sb; simpl; intros Hc; try discriminate; reflexivity.
  - destruct sa, sb; try discriminate; intros Hc.
    + destruct (Z.compare_spec ea eb) as [-> | |]; try discriminate.
      rewrite Z.compare_refl.
      destruct (Pos.compare_cont Eq ma mb) eqn:E; try discriminate.
      apply Pos.compare_eq in E. subst. now rewrite Pos.compare_cont_refl.
    + destruct (Z.compare_spec ea eb) as [-> | |]; try discriminate.
      rewrite Z.compare_refl.
      fold (Pos.compare ma mb) in Hc.
      destruct (Pos.compare_spec ma mb) as [-> | |]; try discriminate.
      now rewrite Pos.compare_cont_refl.
Qed.

#[export] Instance binary64_laws : Float64Laws float.
Proof.
  split. intros x y. simpl.
  rewrite FloatAxioms.eqb_spec, FloatAxioms.ltb_spec. unfold SFeqb, SFltb.
  destruct (SFcompare (Prim2SF x) (Prim2SF y)) as [[| |]|] eqn:E; try discriminate.
  intros _. now rewrite (SFcompare_Eq_sym _ _ E).
Qed.

Section ZeroBaseline.
Context {F : Type} `{Float64Laws F} `{StatsLib F}.
Implicit Types (d : DataFrame F) (self : AbTestAnalyzer F).

Lemma binary_result_zero_baseline (al : F) name sa na sb nb :
  f_eqb (f_div (f_of_int sa) (f_of_int na)) f_zero = true ->
  binary_result al name sa na sb nb
  = {| metric_name := name;
       variant_a := f_div (f_of_int sa) (f_of_int na);
       variant_b := f_div (f_of_int sb) (f_of_int nb);
       lift := f_nan;
       p_value := snd (proportions_ztest [sa; sb] [na; nb]);
       significant := f_ltb (snd (proportions_ztest [sa; sb] [na; nb])) al |}.
Proof.
  intros Hz. unfold binary_result, f_gtb. now rewrite (f_eqb_not_ltb _ _ Hz).
Qed.

(** C5. On a constructed analyzer whose frame has both labels, a
    baseline that is exactly zero is not an error. On 0/1 indicator
    columns, if variant A's rate is 0 ([rate_a == 0]), [ctr] and
    [conversion_rate("impressions")] return a result whose lift is NaN
    and whose other fields are what they always are: the metric's name,
    the two rates, the library's p-value and [p_value < alpha]; the same
    holds of [conversion_rate("clicks")] when both labels have clicked
    rows. Whatever the revenues, if variant A's mean revenue is 0,
    [revenue_per_impression] returns a result whose lift is NaN, with
    the two means as pandas computes them (compensated sums over the
    values that are not NaN), the library's p-value and
    [p_value < alpha]. *)
Theorem C5_zero_baseline_gives_nan_lift d (al : F) self :
  __init__ d al = Ok self ->
  has_variant "A" (rows d) -> has_variant "B" (rows d) ->
  let rs := rows d in
  let crs := clicked_rows (rows d) in
  let rate (col : Row F -> Z) (v : string) (l : list (Row F)) :=
    f_div (f_of_int (successes col v l)) (f_of_int (trials v l)) in
  let ztest_p (col : Row F -> Z) (l : list (Row F)) :=
    snd (proportions_ztest [successes col "A" l; successes col "B" l]
                           [trials "A" l; trials "B" l]) in
  let ttest_p :=
    snd (ttest_ind (map revenue (group_rows "A" rs)) (map revenue (group_rows "B" rs))) in
  (binary_indicators rs ->
   f_eqb (rate clicked "A" rs) f_zero = true ->
   ctr self = Ok {| metric_name := "click_through_rate";
                    variant_a := rate clicked "A" rs;
                    variant_b := rate clicked "B" rs;
                    lift := f_nan;
                    p_value := ztest_p clicked rs;
                    significant := f_ltb (ztest_p clicked rs) al |})
  /\ (binary_indicators rs ->
      f_eqb (rate converted "A" rs) f_zero = true ->
      conversion_rate self "impressions"
      = Ok {| metric_name := "conversion_rate_per_impression";
              variant_a := rate converted "A" rs;
              variant_b := rate converted "B" rs;
              lift := f_nan;
              p_value := ztest_p converted rs;
              significant := f_ltb (ztest_p converted rs) al |})
  /\ (binary_indicators rs ->
      has_variant "A" crs -> has_variant "B" crs ->
      f_eqb (rate converted "A" crs) f_zero = true ->
      conversion_rate self "clicks"
      = Ok {| metric_name := "conversion_rate_per_click";
              variant_a := rate converted "A" crs;
              variant_b := rate converted "B" crs;
              lift := f_nan;
              p_value := ztest_p converted crs;
              significant := f_ltb (ztest_p converted crs) al |})
  /\ (f_eqb (mean_revenue "A" rs) f_zero = true ->
      revenue_per_impression self
      = Ok {| metric_name := "revenue_per_impression";
              variant_a := mean_revenue "A" rs;
              variant_b := mean_revenue "B" rs;
              lift := f_nan;
              p_value := ttest_p;
              significant := f_ltb ttest_p al |}).
Proof.
  intros Hinit Ha Hb rs crs rate ztest_p ttest_p. repeat split.
  - intros _ Hz. rewrite (ctr_spec _ _ _ Hinit), both_groups by assumption.
    f_equal. now apply binary_result_zero_baseline.
  - intros _ Hz. rewrite (conversion_rate_impressions_spec _ _ _ Hinit), both_groups
      by assumption.
    f_equal. now apply binary_result_zero_baseline.
  - intros _ Hca Hcb Hz. rewrite (conversion_rate_clicks_groups _ _ _ Hinit). cbv zeta.
    fold crs. rewrite both_groups by assumption.
    destruct crs as [|r0 l0] eqn:E.
    + destruct Hca as (r & [] & _).
    + f_equal. now apply binary_result_zero_baseline.
  - intros Hz. apply init_inv in Hinit as [-> Hcols].
    rewrite revenue_per_impression_spec
      by (simpl; first [apply Hcols, required_variant|apply Hcols, required_revenue]).
    simpl df. simpl alpha.
    rewrite both_groups by assumption. cbv zeta. f_equal.
    unfold revenue_result, f_neb. fold rs. rewrite Hz. reflexivity.
Qed.
End ZeroBaseline.

(** In exact arithmetic: the rates are the ratios of the counts, they lie
    in [0, 1], and the lift is (rate_b - rate_a) / rate_a when rate_a is
    positive and NaN when it is zero. *)
Lemma binary_result_exact `{StatsLib xfloat} (al : xfloat) name sa na sb nb :
  0 < na -> 0 < nb -> 0 <= sa <= na -> 0 <= sb <= nb ->
  let r := binary_result al name sa na sb nb in
  exists qa qb : Q,
    variant_a r = XReal qa /\ variant_b r = XReal qb
    /\ (qa == inject_Z sa / inject_Z na)%Q /\ (qb == inject_Z sb / inject_Z nb)%Q
    /\ (0 <= qa <= 1)%Q /\ (0 <= qb <= 1)%Q
    /\ ((0 < qa)%Q -> exists ql, lift r = XReal ql /\ (ql == (qb - qa) / qa)%Q)
    /\ ((qa == 0)%Q -> lift r = XNaN).
Proof.
  intros Hna Hnb Hsa Hsb r.
  exists (Qred (inject_Z sa / inject_Z na)), (Qred (inject_Z sb / inject_Z nb)).
  assert (Ea : variant_a r = XReal (Qred (inject_Z sa / inject_Z na)))
    by (apply x_div_ints; lia).
  assert (Eb : variant_b r = XReal (Qred (inject_Z sb / inject_Z nb)))
    by (apply x_div_ints; lia).
  split; [exact Ea|]. split; [exact Eb|].
  split; [apply Qred_correct|]. split; [apply Qred_correct|].
  split; [rewrite Qred_correct; now apply ratio_bounds|].
  split; [rewrite Qred_correct; now apply ratio_bounds|].
  assert (El : lift r = if x_ltb (XReal 0) (variant_a r)
                        then x_div (x_sub (variant_b r) (variant_a r)) (variant_a r)
                        else XNaN) by reflexivity.
  rewrite Ea, Eb in El. set (qa := Qred (inject_Z sa / inject_Z na)) in *.
  set (qb := Qred (inject_Z sb / inject_Z nb)) in *.
  split.
  - intros Hpos. rewrite (proj2 (x_ltb_real 0 qa) Hpos) in El.
    assert (Hnz : q_is_zero qa = false).
    { unfold q_is_zero. apply Z.eqb_neq. unfold Qlt in Hpos. simpl in Hpos. lia. }
    simpl in El. rewrite Hnz in El.
    eexists. split; [exact El|].
    rewrite !Qred_correct. reflexivity.
  - intros Hz.
    assert (Hn : x_ltb (XReal 0) (XReal qa) = false).
    { apply not_true_iff_false. rewrite x_ltb_real, Hz. apply Qlt_irrefl. }
    now rewrite Hn in El.
Qed.

(** C1 (as amended). On a constructed analyzer whose frame has both
    labels, 0/1 indicator columns and fewer than 2^53 rows, [ctr] and
    [conversion_rate("impressions")] return variant_a = successes_a /
    trials_a and variant_b = successes_b / trials_b, the float64
    quotients of the label's sum and count of the success column, each
    within [0, 1], and lift = (rate_b - rate_a) / rate_a, evaluated in
    float64, when rate_a > 0, NaN otherwise (first part: for every
    float64 that keeps the quotient of two such counts within [0, 1], as
    exact arithmetic and IEEE binary64 are proved to do). In exact
    arithmetic the two rates are the exact ratios and the lift is the
    exact quotient when rate_a > 0 (second part). On the frame with
    A = 20 clicks of 100 and B = 50 of 100, exact arithmetic gives 1/5,
    1/2 and lift 3/2 (third part); the float64 arithmetic the code runs
    gives 0.2, 0.5 and lift 1.4999999999999998, one rounding away from
    1.5 (fourth part). *)
Theorem C1_rates_are_ratios_and_lift_is_relative_difference :
  (forall (F : Type) (Fl : Float64 F) (L : Float64RatioLaws F) (S : StatsLib F)
          (d : DataFrame F) (al : F) self,
      __init__ d al = Ok self ->
      has_variant "A" (rows d) -> has_variant "B" (rows d) ->
      binary_indicators (rows d) ->
      Z.of_nat (length (rows d)) < 2 ^ 53 ->
      forall (col : Row F -> Z) (op : result (MetricResult F)),
        (col = clicked /\ op = ctr self)
        \/ (col = converted /\ op = conversion_rate self "impressions") ->
        exists r, op = Ok r
          /\ variant_a r = f_div (f_of_int (successes col "A" (rows d)))
                                 (f_of_int (trials "A" (rows d)))
          /\ variant_b r = f_div (f_of_int (successes col "B" (rows d)))
                                 (f_of_int (trials "B" (rows d)))
          /\ in_unit_interval (variant_a r) /\ in_unit_interval (variant_b r)
          /\ lift r = if f_gtb (variant_a r) f_zero
                      then f_div (f_sub (variant_b r) (variant_a r)) (variant_a r)
                      else f_nan)
  /\ (forall (S : StatsLib xfloat) (d : DataFrame xfloat) (al : xfloat) self,
      __init__ d al = Ok self ->
      has_variant "A" (rows d) -> has_variant "B" (rows d) ->
      binary_indicators (rows d) ->
      forall (col : Row xfloat -> Z) (op : result (MetricResult xfloat)),
        (col = clicked /\ op = ctr self)
        \/ (col = converted /\ op = conversion_rate self "impressions") ->
        exists r (qa qb : Q), op = Ok r
          /\ variant_a r = XReal qa /\ variant_b r = XReal qb
          /\ (qa == inject_Z (successes col "A" (rows d))
                    / inject_Z (trials "A" (rows d)))%Q
          /\ (qb == inject_Z (successes col "B" (rows d))
                    / inject_Z (trials "B" (rows d)))%Q
          /\ (0 <= qa <= 1)%Q /\ (0 <= qb <= 1)%Q
          /\ ((0 < qa)%Q -> exists ql, lift r = XReal ql /\ (ql == (qb - qa) / qa)%Q)
          /\ ((qa == 0)%Q -> lift r = XNaN))
  /\ (forall (S : StatsLib xfloat) (al : xfloat),
      exists self r,
        __init__ make_simple_df_for_ctr al = Ok self /\ ctr self = Ok r
        /\ variant_a r = XReal (1 # 5) /\ variant_b r = XReal (1 # 2)
        /\ lift r = XReal (3 # 2))
  /\ (forall (S : StatsLib float) (al : float),
      exists self r,
        __init__ make_simple_df_for_ctr al = Ok self /\ ctr self = Ok r
        /\ variant_a r = b64_0_2 /\ variant_b r = 0.5%float
        /\ lift r = b64_1_4999999999999998).
Proof.
  split; [|split; [|split]].
  - intros F Fl L S d al self Hinit Ha Hb Hbin Hlen col op Hop.
    assert (Hunit : forall (c : Row F -> Z) (v : string),
      (forall r, In r (rows d) -> c r = 0 \/ c r = 1) ->
      has_variant v (rows d) ->
      in_unit_interval (f_div (f_of_int (successes c v (rows d)))
                              (f_of_int (trials v (rows d))))).
    { intros c v Hc Hv. apply f_ratio_in_unit_interval.
      - now apply successes_bounds.
      - pose proof (trials_le_length v (rows d)).
        apply has_variant_group_rows, trials_pos in Hv. lia. }
    destruct Hop as [[-> ->] | [-> ->]].
    + rewrite (ctr_spec _ _ _ Hinit), both_groups by assumption.
      eexists. split; [reflexivity|]. split; [reflexivity|]. split; [reflexivity|].
      split; [apply Hunit; [intros r Hr; apply (Hbin r Hr)|exact Ha]|].
      split; [apply Hunit; [intros r Hr; apply (Hbin r Hr)|exact Hb]|reflexivity].
    + rewrite (conversion_rate_impressions_spec _ _ _ Hinit), both_groups by assumption.
      eexists. split; [reflexivity|]. split; [reflexivity|]. split; [reflexivity|].
      split; [apply Hunit; [intros r Hr; apply (Hbin r Hr)|exact Ha]|].
      split; [apply Hunit; [intros r Hr; apply (Hbin r Hr)|exact Hb]|reflexivity].
  - intros S d al self Hinit Ha Hb Hbin col op Hop.
    assert (Hexact : forall name (c : Row xfloat -> Z),
      (forall r, In r (rows d) -> c r = 0 \/ c r = 1) ->
      let r := binary_result al name (successes c "A" (rows d)) (trials "A" (rows d))
                             (successes c "B" (rows d)) (trials "B" (rows d)) in
      exists qa qb : Q,
        variant_a r = XReal qa /\ variant_b r = XReal qb
        /\ (qa == inject_Z (successes c "A" (rows d)) / inject_Z (trials "A" (rows d)))%Q
        /\ (qb == inject_Z (successes c "B" (rows d)) / inject_Z (trials "B" (rows d)))%Q
        /\ (0 <= qa <= 1)%Q /\ (0 <= qb <= 1)%Q
        /\ ((0 < qa)%Q -> exists ql, lift r = XReal ql /\ (ql == (qb - qa) / qa)%Q)
        /\ ((qa == 0)%Q -> lift r = XNaN)).
    { intros name c Hc. apply binary_result_exact.
      - now apply trials_pos, has_variant_group_rows.
      - now apply trials_pos, has_variant_group_rows.
      - now apply successes_bounds.
      - now apply successes_bounds. }
    destruct Hop as [[-> ->] | [-> ->]].
    + rewrite (ctr_spec _ _ _ Hinit), both_groups by assumption.
      destruct (Hexact "click_through_rate" clicked) as (qa & qb & Hq).
      { intros r Hr. apply (Hbin r Hr). }
      eexists _, qa, qb. split; [reflexivity|exact Hq].
    + rewrite (conversion_rate_impressions_spec _ _ _ Hinit), both_groups by assumption.
      destruct (Hexact "conversion_rate_per_impression" converted) as (qa & qb & Hq).
      { intros r Hr. apply (Hbin r Hr). }
      eexists _, qa, qb. split; [reflexivity|exact Hq].
  - intros S al. eexists _, _. split; [vm_compute; reflexivity|].
    split; [vm_compute; reflexivity|]. repeat split.
  - intros S al. eexists _, _. split; [vm_compute; reflexivity|].
    split; [vm_compute; reflexivity|]. repeat split.
Qed.

(** As written, C1 fails on its own example: the code, run in binary64,
    returns lift 1.4999999999999998, not 1.5, since (0.5 - 0.2) / 0.2 is
    one rounding below 1.5; the two rates are 0.2 and 0.5 as stated. *)
Lemma C1_lift_is_not_exactly_1_5 :
  exists d : DataFrame float,
    d = make_simple_df_for_ctr
    /\ forall (S : StatsLib float) (al : float),
       exists self r,
         __init__ d al = Ok self /\ ctr self = Ok r
         /\ variant_a r = b64_0_2 /\ variant_b r = 0.5%float
         /\ lift r = b64_1_4999999999999998
         /\ PrimFloat.eqb (lift r) 1.5%float = false
         /\ lift r <> 1.5%float.
Proof.
  exists make_simple_df_for_ctr. split; [reflexivity|]. intros S al.
  eexists _, _. split; [vm_compute; reflexivity|].
  split; [vm_compute; reflexivity|].
  repeat split.
  intros Heq. apply (f_equal (fun x => PrimFloat.eqb x 1.5%float)) in Heq.
  vm_compute in Heq. discriminate Heq.
Qed.

Lemma lcg_interval_range (max g : Z) :
  0 <= max -> 0 <= fst (lcg_interval max g) <= max.
Proof.
  intros Hmax. unfold lcg_interval. simpl.
  pose proof (Z.mod_pos_bound (lcg_next g / 2 ^ 16) (max + 1)). lia.
Qed.

Lemma lcg_laws : RandomStateLaws xfloat Z.
Proof. split; [exact lcg_interval_range|reflexivity|reflexivity]. Qed.

Lemma lcg64_laws : RandomStateLaws float Z.
Proof.
  split; [exact lcg_interval_range| |]; intros g; simpl;
    destruct (Z.even (lcg_next g / 2 ^ 16)); reflexivity.
Qed.

(** ** The generator, step by step *)

Section GeneratorFacts.
Context {F G : Type} `{Float64 F} `{RandomState F G} (rlaws : RandomStateLaws F G).

Lemma draws_length {A} (n : nat) (draw : G -> A * G) g :
  length (fst (draws n draw g)) = n.
Proof.
  revert g. induction n as [|n IH]; intros g; simpl; [reflexivity|].
  destruct (draw g) as [a g1]. specialize (IH g1).
  destruct (draws n draw g1) as [l g2]. simpl in *. now rewrite IH.
Qed.

Lemma draws_Forall {A} (P : A -> Prop) (n : nat) (draw : G -> A * G) g :
  (forall g0, P (fst (draw g0))) -> Forall P (fst (draws n draw g)).
Proof.
  intros Hd. revert g. induction n as [|n IH]; intros g; simpl; [constructor|].
  pose proof (Hd g) as Ha. destruct (draw g) as [a g1]. specialize (IH g1).
  destruct (draws n draw g1) as [l g2]. simpl in *. now constructor.
Qed.

Lemma draws_for_length {A B} (l : list B) (draw : B -> G -> A * G) g :
  length (fst (draws_for l draw g)) = length l.
Proof.
  revert g. induction l as [|b l IH]; intros g; simpl; [reflexivity|].
  destruct (draw b g) as [a g1]. specialize (IH g1).
  destruct (draws_for l draw g1) as [r g2]. simpl in *. now rewrite IH.
Qed.

Lemma draws_for_Forall {A B} (P : A -> Prop) (l : list B) (draw : B -> G -> A * G) g :
  (forall b g0, In b l -> P (fst (draw b g0))) -> Forall P (fst (draws_for l draw g)).
Proof.
  revert g. induction l as [|b l IH]; intros g Hd; simpl; [constructor|].
  pose proof (Hd b g (or_introl eq_refl)) as Ha. destruct (draw b g) as [a g1].
  assert (IH' : Forall P (fst (draws_for l draw g1)))
    by (apply IH; intros; apply Hd; now right).
  destruct (draws_for l draw g1) as [r g2]. simpl in *. now constructor.
Qed.

Lemma mbind_inv {A B} (m : M G A) (k : A -> M G B) g b g' :
  mbind m k g = (Ok b, g') ->
  exists a g1, m g = (Ok a, g1) /\ k a g1 = (Ok b, g').
Proof.
  unfold mbind. destruct (m g) as [[a|e] g1]; [eauto|discriminate].
Qed.

Lemma mbind_ok {A B} (m : M G A) (k : A -> M G B) g a g1 :
  m g = (Ok a, g1) -> mbind m k g = k a g1.
Proof. unfold mbind. now intros ->. Qed.

(** [randint]: what it returns, by cases. *)
Lemma np_random_randint_eq low high size g :
  np_random_randint low high size g
  = if size =? 0 then (Ok [], g)
    else if high <=? low then (Raise (Library_ValueError "low >= high"), g)
    else if size <? 0
    then (Raise (Library_ValueError "negative dimensions are not allowed"), g)
    else (Ok (map (fun k => low + k)
                  (fst (draws (Z.to_nat size) (rk_interval (high - low - 1)) g))),
          snd (draws (Z.to_nat size) (rk_interval (high - low - 1)) g)).
Proof.
  unfold np_random_randint.
  destruct (size =? 0); [reflexivity|]. destruct (high <=? low); [reflexivity|].
  destruct (size <? 0); [reflexivity|]. now destruct (draws _ _ g).
Qed.

Lemma np_random_randint_inv low high size g l g' :
  np_random_randint low high size g = (Ok l, g') ->
  0 <= size /\ (size = 0 \/ low < high)
  /\ length l = Z.to_nat size
  /\ Forall (fun k => low <= k < high) l.
Proof.
  rewrite np_random_randint_eq.
  destruct (size =? 0) eqn:E2.
  { apply Z.eqb_eq in E2. intros [= <- <-]. subst size. repeat split; auto. lia. }
  destruct (high <=? low) eqn:E3; [discriminate|]. apply Z.leb_gt in E3.
  destruct (size <? 0) eqn:E1; [discriminate|]. apply Z.ltb_ge in E1.
  intros [= <- <-]. repeat split; [exact E1|now right| |].
  - now rewrite length_map, draws_length.
  - apply Forall_map.
    eapply Forall_impl.
    + apply (draws_Forall (fun k => 0 <= k <= high - low - 1)).
      intros g0. apply (rk_interval_range rlaws). lia.
    + intros k Hk. simpl in Hk. lia.
Qed.

Lemma take_indices_ok {A} (a : list A) (idx : list Z) :
  Forall (fun k => 0 <= k < Z.of_nat (length a)) idx ->
  exists l, take_indices a idx = Ok l /\ length l = length idx /\ Forall (fun x => In x a) l.
Proof.
  induction 1 as [|k idx Hk _ IH]; simpl; [exists []; auto|].
  destruct IH as (l & -> & Hlen & Hin).
  replace (k <? 0) with false by (symmetry; apply Z.ltb_ge; lia).
  destruct (a !! Z.to_nat k) as [x|] eqn:E.
  - exists (x :: l). simpl. repeat split; [now rewrite Hlen|].
    constructor; [|exact Hin]. apply list_elem_of_In. now apply list_elem_of_lookup_2 in E.
  - apply lookup_ge_None in E. lia.
Qed.

Lemma take_indices_inv {A} (a : list A) (idx : list Z) l :
  take_indices a idx = Ok l -> length l = length idx /\ Forall (fun x => In x a) l.
Proof.
  revert l. induction idx as [|k idx IH]; simpl; intros l.
  - intros [= <-]. auto.
  - destruct (if k <? 0 then None else a !! Z.to_nat k) as [x|] eqn:E; [|discriminate].
    destruct (take_indices a idx) as [l0|e]; simpl; [|discriminate].
    intros [= <-]. destruct (IH l0 eq_refl) as [Hlen Hin]. simpl. split; [now rewrite Hlen|].
    constructor; [|exact Hin]. destruct (k <? 0); [discriminate|].
    apply list_elem_of_In. now apply list_elem_of_lookup_2 in E.
Qed.

Lemma np_random_choice_inv {A} (a : list A) size g l g' :
  np_random_choice a size g = (Ok l, g') ->
  0 <= size /\ length l = Z.to_nat size /\ Forall (fun x => In x a) l.
Proof.
  unfold np_random_choice. intros Hc.
  apply mbind_inv in Hc as (idx & g1 & Hidx & Htake).
  apply np_random_randint_inv in Hidx as (Hsize & _ & Hlen & _).
  injection Htake as Htake <-. apply take_indices_inv in Htake as [Hl Hin].
  split; [exact Hsize|]. split; [congruence|exact Hin].
Qed.

Lemma np_random_choice_ok {A} (a : list A) size g :
  0 <= size -> a <> [] ->
  exists l g', np_random_choice a size g = (Ok l, g').
Proof.
  intros Hsize Hne. unfold np_random_choice.
  destruct (np_random_randint 0 (Z.of_nat (length a)) size g) as [[idx|e] g1] eqn:E.
  - pose proof E as Einv. apply np_random_randint_inv in Einv as (_ & _ & _ & Hr).
    rewrite (mbind_ok _ _ _ _ _ E).
    destruct (take_indices_ok a idx Hr) as (l & Hl & _).
    exists l, g1. now rewrite Hl.
  - exfalso. rewrite np_random_randint_eq in E.
    replace (size <? 0) with false in E by (symmetry; apply Z.ltb_ge; lia).
    destruct (size =? 0); [discriminate|].
    replace (Z.of_nat (length a) <=? 0) with false in E; [discriminate|].
    symmetry. apply Z.leb_gt. destruct a; [congruence|simpl; lia].
Qed.

Lemma np_random_rand_eq n g :
  np_random_rand n g
  = if n <? 0 then (Raise (Library_ValueError "negative dimensions are not allowed"), g)
    else (Ok (fst (draws (Z.to_nat n) rk_double g)), snd (draws (Z.to_nat n) rk_double g)).
Proof.
  unfold np_random_rand. destruct (n <? 0); [reflexivity|]. now destruct (draws _ _ g).
Qed.

Lemma np_random_rand_inv n g l g' :
  np_random_rand n g = (Ok l, g') -> length l = Z.to_nat n.
Proof.
  rewrite np_random_rand_eq. destruct (n <? 0); [discriminate|].
  intros [= <- <-]. apply draws_length.
Qed.

Lemma np_random_normal_eq loc scale g :
  np_random_normal loc scale g
  = if negative_signed scale then (Raise (Library_ValueError "scale < 0"), g)
    else (Ok (fst (draws_for loc (normal_draw scale) g)),
          snd (draws_for loc (normal_draw scale) g)).
Proof.
  unfold np_random_normal. destruct (negative_signed scale); [reflexivity|].
  fold (normal_draw scale). now destruct (draws_for _ _ g).
Qed.

(** Every value [normal] returns is [m + scale * z] for a location [m]
    and a finite draw [z]. *)
Lemma np_random_normal_inv loc scale g l g' :
  np_random_normal loc scale g = (Ok l, g') ->
  negative_signed scale = false
  /\ length l = length loc
  /\ Forall (fun x => exists m z, In m loc /\ f_isfinite z = true
                                  /\ x = f_add m (f_mul scale z)) l.
Proof.
  rewrite np_random_normal_eq. destruct (negative_signed scale); [discriminate|].
  intros [= <- <-]. split; [reflexivity|]. split; [apply draws_for_length|].
  apply draws_for_Forall. intros m g0 Hm. unfold normal_draw.
  pose proof (rk_gauss_finite rlaws g0) as Hz. destruct (rk_gauss g0) as [z g1].
  simpl in *. eauto.
Qed.
Implicit Types (config : AdExperimentConfig F).

Lemma arange_length lo hi : length (arange lo hi) = Z.to_nat (hi - lo).
Proof. unfold arange. now rewrite length_map, length_seq. Qed.

Lemma arange_from_1 (n : Z) : arange 1 (n + 1) = map Z.of_nat (seq 1 (Z.to_nat n)).
Proof.
  unfold arange. replace (n + 1 - 1) with n by lia.
  rewrite <- seq_shift, map_map. apply map_ext. intros k. lia.
Qed.

Lemma bernoulli_length (u p : list F) :
  length u = length p -> length (bernoulli u p) = length p.
Proof.
  unfold bernoulli. revert p. induction u as [|x u IH]; intros [|q p]; simpl;
    try discriminate; [reflexivity|]. intros [= Hl]. now rewrite IH.
Qed.

Lemma where_A_length {A} (vs : list string) (x y : A) :
  length (where_A vs x y) = length vs.
Proof. unfold where_A. apply length_map. Qed.

Lemma where_A_In {A} (vs : list string) (x y m : A) :
  In m (where_A vs x y) -> m = x \/ m = y.
Proof.
  unfold where_A. rewrite in_map_iff. intros (v & <- & _).
  destruct (String.eqb v "A"); auto.
Qed.

Lemma revenue_length (cv : list Z) (z : list F) :
  length cv = length z ->
  length (zip_with (fun c x => if c =? 1 then f_maximum x f_zero else f_zero) cv z)
  = length z.
Proof.
  revert z. induction cv as [|c cv IH]; intros [|x z]; simpl; try discriminate;
    [reflexivity|]. intros [= Hl]. now rewrite IH.
Qed.

(** With columns of one length, the rows carry the columns. *)
Lemma zip_rows_columns (ids uids : list Z) (vs : list string) (cl cv : list Z)
    (rev : list F) :
  length uids = length ids -> length vs = length ids -> length cl = length ids ->
  length cv = length ids -> length rev = length ids ->
  map impression_id (zip_rows ids uids vs cl cv rev) = ids
  /\ map variant (zip_rows ids uids vs cl cv rev) = vs
  /\ length (zip_rows ids uids vs cl cv rev) = length ids.
Proof.
  revert uids vs cl cv rev.
  induction ids as [|i ids IH]; intros [|u uids] [|v vs] [|c cl] [|k cv] [|r rev];
    simpl; try discriminate; auto.
  intros [= H1] [= H2] [= H3] [= H4] [= H5].
  destruct (IH uids vs cl cv rev H1 H2 H3 H4 H5) as (E1 & E2 & E3).
  now rewrite E1, E2, E3.
Qed.

(** Each row's revenue is [revenue_of] its own conversion flag and one
    of the normal draws. *)
Lemma zip_rows_revenue (P : Z -> F -> Prop) (ids uids : list Z) (vs : list string)
    (cl cv : list Z) (z : list F) :
  (forall c x, In x z -> P c (revenue_of c x)) ->
  forall r, In r (zip_rows ids uids vs cl cv (zip_with revenue_of cv z)) ->
            P (converted r) (revenue r).
Proof.
  intros HP. revert ids uids vs cl z HP.
  induction cv as [|k cv IH]; intros [|i ids] [|u uids] [|v vs] [|c cl] [|x z] HP r;
    simpl; try contradiction.
  intros [<- | Hr].
  - simpl. apply HP. now left.
  - apply (IH ids uids vs cl z); [|exact Hr]. intros c0 x0 Hx. apply HP. now right.
Qed.

Lemma pd_DataFrame_inv (ids uids : list Z) (vs : list string) (cl cv : list Z)
    (rev : list F) d :
  pd_DataFrame ids uids vs cl cv rev = Ok d ->
  d = {| columns := six_columns; rows := zip_rows ids uids vs cl cv rev |}
  /\ length uids = length ids /\ length vs = length ids /\ length cl = length ids
  /\ length cv = length ids /\ length rev = length ids.
Proof.
  unfold pd_DataFrame.
  destruct (_ && _) eqn:E; [|discriminate]. intros [= <-].
  rewrite !andb_true_iff, !Nat.eqb_eq in E. tauto.
Qed.

(** What a successful run is made of. *)
Lemma generate_inv config g d g' :
  generate_synthetic_data config g = (Ok d, g') ->
  let n := n_impressions config in
  exists (variants : list string) (u1 u2 z : list F) (uid : list Z),
    0 <= n
    /\ length variants = Z.to_nat n
    /\ length z = Z.to_nat n
    /\ length uid = Z.to_nat n
    /\ Forall (fun x => exists m w,
                 (m = rev_mean_a config \/ m = rev_mean_b config)
                 /\ f_isfinite w = true
                 /\ x = f_add m (f_mul (rev_std config) w)) z
    /\ (n = 0 \/ 2 <= n)
    /\ negative_signed (rev_std config) = false
    /\ length (rows d) = Z.to_nat n
    /\ d = {| columns := six_columns;
              rows := zip_rows (arange 1 (n + 1)) uid variants
                        (bernoulli u1 (where_A variants (ctr_a config) (ctr_b config)))
                        (bernoulli u2 (where_A variants (conv_a config) (conv_b config)))
                        (zip_with revenue_of
                           (bernoulli u2 (where_A variants (conv_a config) (conv_b config)))
                           z) |}.
Proof.
  intros Hgen n. unfold generate_synthetic_data in Hgen. fold n in Hgen.
  apply mbind_inv in Hgen as (u & g0 & _ & Hgen).
  apply mbind_inv in Hgen as (variants & g1 & Hv & Hgen).
  apply mbind_inv in Hgen as (u1 & g2 & Hu1 & Hgen).
  apply mbind_inv in Hgen as (u2 & g3 & Hu2 & Hgen).
  apply mbind_inv in Hgen as (z & g4 & Hz & Hgen).
  apply mbind_inv in Hgen as (uid & g5 & Huid & Hgen).
  injection Hgen as Hd <-.
  apply np_random_choice_inv in Hv as (Hn & Hlv & _).
  apply np_random_rand_inv in Hu1, Hu2.
  apply np_random_normal_inv in Hz as (Hscale & Hlz & Hzs).
  rewrite where_A_length in Hlz.
  apply np_random_randint_inv in Huid as (_ & Hbounds & Hluid & _).
  apply pd_DataFrame_inv in Hd as (Hd & L1 & L2 & L3 & L4 & L5).
  fold revenue_of in Hd, L5.
  exists variants, u1, u2, z, uid.
  split; [exact Hn|]. split; [exact Hlv|]. split; [congruence|]. split; [exact Hluid|].
  split.
  { eapply Forall_impl; [exact Hzs|]. intros x (m & w & Hm & Hw & ->).
    exists m, w. split; [now apply where_A_In in Hm|auto]. }
  split.
  { destruct Hbounds as [-> | Hlt]; [now left|right].
    assert (Hhalf : 0 < n / 2) by lia.
    destruct (Z_lt_le_dec n 2) as [Hsmall|]; [|assumption].
    rewrite Z.div_small in Hhalf; lia. }
  split; [exact Hscale|]. split; [|exact Hd].
  rewrite Hd. simpl rows.
  destruct (zip_rows_columns _ _ _ _ _ _ L1 L2 L3 L4 L5) as (_ & _ & ->).
  rewrite arange_length. f_equal. lia.
Qed.

Lemma generate_succeeds config g :
  seed_accepted config ->
  n_impressions config = 0 \/ 2 <= n_impressions config ->
  negative_signed (rev_std config) = false ->
  exists d g', generate_synthetic_data config g = (Ok d, g').
Proof.
  intros Hseed Hn Hscale. unfold generate_synthetic_data.
  set (n := n_impressions config) in *.
  assert (Hn0 : 0 <= n) by lia.
  assert (Hs : exists g0, match seed config with
                          | Some s => np_random_seed s
                          | None => ret tt
                          end g = (Ok tt, g0)).
  { unfold seed_accepted in Hseed. destruct (seed config) as [s|].
    - unfold np_random_seed.
      replace ((0 <=? s) && (s <? 2 ^ 32)) with true; [eauto|].
      symmetry. apply andb_true_iff. split; [apply Z.leb_le|apply Z.ltb_lt]; lia.
    - unfold ret. eauto. }
  destruct Hs as (g0 & Hs). rewrite (mbind_ok _ _ _ _ _ Hs).
  destruct (np_random_choice_ok ["A"; "B"] n g0 Hn0) as (variants & g1 & Hv);
    [discriminate|].
  rewrite (mbind_ok _ _ _ _ _ Hv).
  apply np_random_choice_inv in Hv as (_ & Hlv & _).
  assert (Hrand : forall g1, exists u g2,
    np_random_rand n g1 = (Ok u, g2) /\ length u = Z.to_nat n).
  { intros g9. rewrite np_random_rand_eq.
    replace (n <? 0) with false by (symmetry; apply Z.ltb_ge; lia).
    eexists _, _. split; [reflexivity|apply draws_length]. }
  destruct (Hrand g1) as (u1 & g2 & Hu1 & Hl1). rewrite (mbind_ok _ _ _ _ _ Hu1).
  destruct (Hrand g2) as (u2 & g3 & Hu2 & Hl2). rewrite (mbind_ok _ _ _ _ _ Hu2).
  pose proof (np_random_normal_eq
                (where_A variants (rev_mean_a config) (rev_mean_b config))
                (rev_std config) g3) as Hz.
  rewrite Hscale in Hz. rewrite (mbind_ok _ _ _ _ _ Hz).
  pose proof (np_random_randint_eq 1 (n / 2 + 1) n
    (snd (draws_for (where_A variants (rev_mean_a config) (rev_mean_b config))
                    (normal_draw (rev_std config)) g3))) as Huid.
  replace (n <? 0) with false in Huid by (symmetry; apply Z.ltb_ge; lia).
  assert (Hfin : exists uid g5,
    np_random_randint 1 (n / 2 + 1) n
      (snd (draws_for (where_A variants (rev_mean_a config) (rev_mean_b config))
                      (normal_draw (rev_std config)) g3)) = (Ok uid, g5)
    /\ length uid = Z.to_nat n).
  { rewrite Huid. destruct (n =? 0) eqn:E0.
    - apply Z.eqb_eq in E0. eexists _, _. split; [reflexivity|]. now rewrite E0.
    - apply Z.eqb_neq in E0.
      replace (n / 2 + 1 <=? 1) with false.
      + eexists _, _. split; [reflexivity|]. now rewrite length_map, draws_length.
      + symmetry. apply Z.leb_gt.
        assert (1 <= n / 2) by (apply Z.div_le_lower_bound; lia). lia. }
  destruct Hfin as (uid & g5 & Hu & Hlu). rewrite (mbind_ok _ _ _ _ _ Hu).
  unfold pd_DataFrame.
  rewrite arange_length. replace (Z.to_nat (n + 1 - 1)) with (Z.to_nat n) by (f_equal; lia).
  assert (Lc : forall (u : list F) (x y : F), length u = Z.to_nat n ->
    length (bernoulli u (where_A variants x y)) = Z.to_nat n).
  { intros u x y Hl. rewrite bernoulli_length; rewrite where_A_length; congruence. }
  rewrite Hlu, Hlv, !Lc by assumption.
  rewrite revenue_length
    by (rewrite Lc by assumption; now rewrite draws_for_length, where_A_length).
  rewrite draws_for_length, where_A_length, Hlv, !Nat.eqb_refl. simpl.
  eauto.
Qed.
(** ** Claims about the generator *)

(** With one impression the user ids are asked of the empty range
    [[1, 1)]: everything before is drawn, then [randint] raises. *)
Lemma generate_one_impression config g :
  n_impressions config = 1 ->
  seed_accepted config ->
  negative_signed (rev_std config) = false ->
  fst (generate_synthetic_data config g) = Raise (Library_ValueError "low >= high").
Proof.
  intros Hn Hseed Hscale. unfold generate_synthetic_data. rewrite Hn.
  assert (Hs : exists g0, match seed config with
                          | Some s => np_random_seed s
                          | None => ret tt
                          end g = (Ok tt, g0)).
  { unfold seed_accepted in Hseed. destruct (seed config) as [s|].
    - unfold np_random_seed.
      replace ((0 <=? s) && (s <? 2 ^ 32)) with true; [eauto|].
      symmetry. apply andb_true_iff. split; [apply Z.leb_le|apply Z.ltb_lt]; lia.
    - unfold ret. eauto. }
  destruct Hs as (g0 & Hs). rewrite (mbind_ok _ _ _ _ _ Hs).
  destruct (np_random_choice_ok ["A"; "B"] 1 g0) as (variants & g1 & Hv);
    [lia|discriminate|].
  rewrite (mbind_ok _ _ _ _ _ Hv).
  rewrite (mbind_ok _ _ _ _ _ (np_random_rand_eq 1 g1)).
  rewrite (mbind_ok _ _ _ _ _ (np_random_rand_eq 1 _)).
  pose proof (np_random_normal_eq
                (where_A variants (rev_mean_a config) (rev_mean_b config))
                (rev_std config)) as Hz.
  rewrite Hscale in Hz. rewrite (mbind_ok _ _ _ _ _ (Hz _)).
  unfold mbind. rewrite np_random_randint_eq. reflexivity.
Qed.

(** C7. With a seed in the configuration, the outcome of
    [generate_synthetic_data] does not depend on the state the
    generator was in when it was called: two runs of one configuration
    return the same data frame, equal row for row and column for
    column (or raise the same exception). With a seed numpy accepts
    they also leave the generator in the same state, and with, besides,
    a size that is 0 or at least 2 and a scale that passes numpy's test
    ([negative_signed] is false of it: it is NaN or its sign bit is
    clear, which leaves out [-0.0]), the outcome is a data frame of
    [n_impressions] rows. *)
Theorem C7_same_seed_same_dataset config (s : Z) (g1 g2 : G) :
  seed config = Some s ->
  fst (generate_synthetic_data config g1) = fst (generate_synthetic_data config g2)
  /\ (0 <= s < 2 ^ 32 ->
      generate_synthetic_data config g1 = generate_synthetic_data config g2)
  /\ (0 <= s < 2 ^ 32 ->
      n_impressions config = 0 \/ 2 <= n_impressions config ->
      negative_signed (rev_std config) = false ->
      exists d, fst (generate_synthetic_data config g1) = Ok d
                /\ fst (generate_synthetic_data config g2) = Ok d
                /\ length (rows d) = Z.to_nat (n_impressions config)).
Proof.
  intros Hseed.
  assert (Hcases :
    (0 <= s < 2 ^ 32 /\
     generate_synthetic_data config g1 = generate_synthetic_data config g2)
    \/ (~ 0 <= s < 2 ^ 32 /\
        fst (generate_synthetic_data config g1) = fst (generate_synthetic_data config g2))).
  { unfold generate_synthetic_data. rewrite Hseed.
    unfold mbind at 1 7. unfold np_random_seed.
    destruct ((0 <=? s) && (s <? 2 ^ 32)) eqn:E.
    - left. apply andb_true_iff in E as [E1 E2].
      apply Z.leb_le in E1. apply Z.ltb_lt in E2. split; [lia|reflexivity].
    - right. split; [|reflexivity]. intros [E1 E2].
      apply Z.leb_le in E1. apply Z.ltb_lt in E2. rewrite E1, E2 in E. discriminate. }
  split; [|split].
  - destruct Hcases as [[_ ->] | [_ Hfst]]; [reflexivity|exact Hfst].
  - intros Hs. destruct Hcases as [[_ Heq] | [Hn _]]; [exact Heq|contradiction].
  - intros Hs Hn Hscale.
    destruct Hcases as [[_ Heq] | [Hns _]]; [|contradiction].
    destruct (generate_succeeds config g1) as (d & g' & Hd);
      [unfold seed_accepted; now rewrite Hseed|exact Hn|exact Hscale|].
    exists d. rewrite <- Heq, Hd. repeat split.
    now destruct (generate_inv _ _ _ _ Hd) as (? & ? & ? & ? & ? & ? & ? & ? & ? & ? & ? & ? & Hlen & ?).
Qed.

(** Every successful run returns [n_impressions] rows under the six
    columns, with [impression_id] counting 1, 2, ..., [n_impressions]
    down the rows; and a run succeeds when the seed is one numpy
    accepts, the size is at least 2 and the scale passes numpy's test
    ([negative_signed] is false of it, which leaves out [-0.0]). *)
Theorem generate_rows_and_ids config g :
  (forall d g', generate_synthetic_data config g = (Ok d, g') ->
     columns d = ["impression_id"; "user_id"; "variant"; "clicked"; "converted"; "revenue"]
     /\ length (rows d) = Z.to_nat (n_impressions config)
     /\ map impression_id (rows d) = map Z.of_nat (seq 1 (Z.to_nat (n_impressions config))))
  /\ (seed_accepted config -> 2 <= n_impressions config ->
      negative_signed (rev_std config) = false ->
      exists d g', generate_synthetic_data config g = (Ok d, g')).
Proof.
  split.
  - intros d g' Hgen. pose proof Hgen as Hinv. apply generate_inv in Hinv.
    destruct Hinv as (variants & u1 & u2 & z & uid & Hn & Hlv & Hlz & Hlu & _ & _ & _
                      & Hlen & Hd).
    split; [now rewrite Hd|]. split; [exact Hlen|].
    unfold generate_synthetic_data in Hgen.
    apply mbind_inv in Hgen as (u & g0 & _ & Hgen).
    apply mbind_inv in Hgen as (variants' & g1 & Hv & Hgen).
    apply mbind_inv in Hgen as (u1' & g2 & Hu1 & Hgen).
    apply mbind_inv in Hgen as (u2' & g3 & Hu2 & Hgen).
    apply mbind_inv in Hgen as (z' & g4 & Hz & Hgen).
    apply mbind_inv in Hgen as (uid' & g5 & Huid & Hgen).
    injection Hgen as Hpd _.
    apply pd_DataFrame_inv in Hpd as (-> & L1 & L2 & L3 & L4 & L5).
    simpl rows.
    destruct (zip_rows_columns _ _ _ _ _ _ L1 L2 L3 L4 L5) as (-> & _ & _).
    apply arange_from_1.
  - intros Hseed Hn Hscale. apply generate_succeeds; auto.
Qed.
End GeneratorFacts.

(** C8, at one impression. With the default configuration and
    [n_impressions = 1], whatever the generator and its state,
    [generate_synthetic_data] raises [ValueError("low >= high")]: the user
    ids are drawn from [[1, 1 // 2 + 1)], which is empty. No data frame of
    one row is returned. *)
Theorem C8_one_impression_raises (G : Type) (R : RandomState xfloat G)
    (rlaws : RandomStateLaws xfloat G) (g : G) :
  fst (generate_synthetic_data (with_n_impressions 1 default_config) g)
  = Raise (Library_ValueError "low >= high").
Proof.
  apply (generate_one_impression rlaws); [reflexivity| |reflexivity].
  unfold seed_accepted. simpl. lia.
Qed.

(** C9. In exact arithmetic, with finite revenue means and standard
    deviation, every row of a generated data frame has [revenue >= 0],
    and [revenue] is exactly 0 when [converted] is 0. *)
Theorem C9_revenue_nonnegative_and_zero_without_conversion
    (G : Type) (R : RandomState xfloat G) (rlaws : RandomStateLaws xfloat G)
    (config : AdExperimentConfig xfloat) (g g' : G) (d : DataFrame xfloat) :
  generate_synthetic_data config g = (Ok d, g') ->
  f_isfinite (rev_mean_a config) = true ->
  f_isfinite (rev_mean_b config) = true ->
  f_isfinite (rev_std config) = true ->
  forall r, In r (rows d) ->
    f_leb f_zero (revenue r) = true
    /\ (converted r = 0 -> revenue r = XReal 0).
Proof.
  intros Hgen Ha Hb Hs r Hr.
  apply (generate_inv rlaws) in Hgen.
  destruct Hgen as (variants & u1 & u2 & z & uid & _ & _ & _ & _ & Hz & _ & _ & _ & Hd).
  subst d. simpl rows in Hr. revert r Hr.
  apply (zip_rows_revenue (fun c x => f_leb f_zero x = true /\ (c = 0 -> x = XReal 0))).
  intros c x Hx. rewrite Forall_forall in Hz.
  destruct (Hz x (proj2 (list_elem_of_In _ _) Hx)) as (m & w & Hm & Hw & ->).
  assert (Hreal : exists q, x_add m (x_mul (rev_std config) w) = XReal q).
  { destruct (rev_std config) as [| |qs]; try discriminate.
    destruct w as [| |qw]; try discriminate.
    destruct Hm as [-> | ->].
    - destruct (rev_mean_a config); try discriminate. simpl. eauto.
    - destruct (rev_mean_b config); try discriminate. simpl. eauto. }
  destruct Hreal as (q & Hq). simpl f_add. simpl f_mul. rewrite Hq.
  unfold revenue_of. destruct (c =? 1) eqn:E.
  - split; [apply x_clip_nonneg|intros ->; discriminate].
  - split; reflexivity.
Qed.

(** ** Further properties of the analyzer *)

Section FurtherProperties.
Context {F : Type} `{Float64 F} `{StatsLib F}.
Implicit Types (d : DataFrame F) (self : AbTestAnalyzer F).

Lemma binary_ztest_significant self col_name name r :
  _binary_ztest self col_name name = Ok r ->
  significant r = f_ltb (p_value r) (alpha self).
Proof.
  unfold _binary_ztest. destruct (groupby_variant _); simpl bind; [|discriminate].
  destruct (getitem_int _ _); simpl bind; [|discriminate].
  destruct (both_present _); simpl negb; cbv iota; [|discriminate].
  destruct (loc _ "A"); simpl bind; [|discriminate].
  destruct (loc _ "B"); simpl bind; [|discriminate].
  now intros [= <-].
Qed.

(** The significance flag is the strict comparison [p_value < alpha], for
    each of the three metrics (for [conversion_rate] with either
    denominator). *)
Theorem significant_is_p_value_below_alpha d (al : F) self r :
  __init__ d al = Ok self ->
  ctr self = Ok r \/ (exists den, conversion_rate self den = Ok r)
    \/ revenue_per_impression self = Ok r ->
  significant r = f_ltb (p_value r) al.
Proof.
  intros Hinit Hr. apply init_inv in Hinit as [-> Hcols].
  destruct Hr as [Hr | [[den Hr] | Hr]].
  - apply binary_ztest_significant in Hr. exact Hr.
  - unfold conversion_rate in Hr.
    destruct (String.eqb den "impressions");
      [apply binary_ztest_significant in Hr; exact Hr|].
    destruct (String.eqb den "clicks"); [|discriminate].
    destruct (getitem_int _ _); simpl bind in Hr; [|discriminate].
    match type of Hr with
    | context [match ?l with [] => true | _ :: _ => false end] => destruct l
    end; [discriminate|].
    destruct (__init__ _ _) as [inner|] eqn:Ei; simpl bind in Hr; [|discriminate].
    apply binary_ztest_significant in Hr.
    apply init_inv in Ei as [-> _]. exact Hr.
  - unfold revenue_per_impression in Hr.
    destruct (groupby_variant _); simpl bind in Hr; [|discriminate].
    destruct (getitem_revenue _); simpl bind in Hr; [|discriminate].
    destruct (both_present _); simpl negb in Hr; cbv iota in Hr; [|discriminate].
    destruct (loc _ "A"); simpl bind in Hr; [|discriminate].
    destruct (loc _ "B"); simpl bind in Hr; [|discriminate].
    now injection Hr as <-.
Qed.

(** A denominator other than "impressions" and "clicks" is refused with
    [Bad_denominator] (the specification's InvalidArgumentError). *)
Theorem conversion_rate_refuses_other_denominators self (den : string) :
  den <> "impressions" -> den <> "clicks" ->
  conversion_rate self den = Raise Bad_denominator.
Proof.
  intros H1 H2. unfold conversion_rate.
  apply String.eqb_neq in H1, H2. now rewrite H1, H2.
Qed.

(** [summarize] returns the three metrics under the keys "ctr",
    "conversion_rate_per_impression" and "revenue_per_impression", and
    returns at all only when each of the three does. *)
Theorem summarize_is_the_three_metrics self l :
  summarize self = Ok l <->
  exists r1 r2 r3,
    ctr self = Ok r1
    /\ conversion_rate self "impressions" = Ok r2
    /\ revenue_per_impression self = Ok r3
    /\ l = [("ctr", r1); ("conversion_rate_per_impression", r2);
            ("revenue_per_impression", r3)].
Proof.
  unfold summarize. split.
  - destruct (ctr self) as [r1|]; simpl bind; [|discriminate].
    destruct (conversion_rate self "impressions") as [r2|]; simpl bind; [|discriminate].
    destruct (revenue_per_impression self) as [r3|]; simpl bind; [|discriminate].
    intros [= <-]. exists r1, r2, r3. auto.
  - intros (r1 & r2 & r3 & -> & -> & -> & ->). reflexivity.
Qed.
End FurtherProperties.

(** ** Labels that do not count, and the order of the rows *)

Section RowsAndLabels.
Context {F : Type}.
Implicit Types (rs : list (Row F)) (v : string).

Lemma filter_filter_implies (p q : Row F -> bool) rs :
  (forall r, p r = true -> q r = true) ->
  List.filter p (List.filter q rs) = List.filter p rs.
Proof.
  intros Hpq. induction rs as [|r rs IH]; simpl; [reflexivity|].
  destruct (q r) eqn:Eq; simpl.
  - now rewrite IH.
  - destruct (p r) eqn:Ep; [|exact IH]. rewrite (Hpq r Ep) in Eq. discriminate.
Qed.

Lemma filter_filter_comm (p q : Row F -> bool) rs :
  List.filter p (List.filter q rs) = List.filter q (List.filter p rs).
Proof.
  induction rs as [|r rs IH]; simpl; [reflexivity|].
  destruct (q r) eqn:Eq, (p r) eqn:Ep; simpl; rewrite ?Eq, ?Ep, IH; reflexivity.
Qed.

Lemma group_rows_labelled v rs :
  v = "A" \/ v = "B" ->
  group_rows v (List.filter labelled_A_or_B rs) = group_rows v rs.
Proof.
  intros Hv. unfold group_rows. apply filter_filter_implies.
  intros r Hr. apply String.eqb_eq in Hr. unfold labelled_A_or_B. rewrite Hr.
  destruct Hv as [-> | ->]; reflexivity.
Qed.

Lemma filter_Permutation_rows (p : Row F -> bool) rs rs' :
  Permutation rs rs' -> Permutation (List.filter p rs) (List.filter p rs').
Proof.
  induction 1 as [|r l l' _ IH|r r' l|l l' l'' _ IH1 _ IH2]; simpl.
  - constructor.
  - destruct (p r); [now constructor|exact IH].
  - destruct (p r), (p r'); try reflexivity. apply perm_swap.
  - etransitivity; eassumption.
Qed.

Lemma sumZ_Permutation (l l' : list Z) : Permutation l l' -> sumZ l = sumZ l'.
Proof. unfold sumZ. induction 1; simpl; lia. Qed.

Lemma successes_Permutation (col : Row F -> Z) v rs rs' :
  Permutation rs rs' -> successes col v rs = successes col v rs'.
Proof.
  intros Hp. unfold successes, group_rows.
  apply sumZ_Permutation, Permutation_map, filter_Permutation_rows, Hp.
Qed.

Lemma trials_Permutation v rs rs' :
  Permutation rs rs' -> trials v rs = trials v rs'.
Proof.
  intros Hp. unfold trials, group_rows. f_equal.
  apply Permutation_length, filter_Permutation_rows, Hp.
Qed.

(** Both labels have rows, or one of them has none. *)
Lemma groups_cases {X} rs (x y : X) :
  (has_variant "A" rs /\ has_variant "B" rs
   /\ match group_rows "A" rs, group_rows "B" rs with
      | _ :: _, _ :: _ => x
      | _, _ => y
      end = x)
  \/ (~ (has_variant "A" rs /\ has_variant "B" rs)
      /\ match group_rows "A" rs, group_rows "B" rs with
         | _ :: _, _ :: _ => x
         | _, _ => y
         end = y).
Proof.
  rewrite !has_variant_group_rows.
  destruct (group_rows "A" rs) as [|ra la]; [right; split; [tauto|reflexivity]|].
  destruct (group_rows "B" rs) as [|rb lb]; [right; split; [tauto|reflexivity]|].
  left. repeat split; discriminate.
Qed.

Lemma groups_by_trials {X} rs (x y : X) :
  match group_rows "A" rs, group_rows "B" rs with
  | _ :: _, _ :: _ => x
  | _, _ => y
  end = if (0 <? trials "A" rs) && (0 <? trials "B" rs) then x else y.
Proof.
  unfold trials.
  destruct (group_rows "A" rs) as [|ra la]; [reflexivity|].
  destruct (group_rows "B" rs) as [|rb lb]; [now rewrite andb_false_r|reflexivity].
Qed.
(** When every row is labelled "A" or "B", the two groups are all the
    rows. *)
Lemma trials_of_the_two_labels rs :
  (forall r, In r rs -> labelled_A_or_B r = true) ->
  trials "A" rs + trials "B" rs = Z.of_nat (length rs).
Proof.
  unfold trials, group_rows, labelled_A_or_B.
  induction rs as [|r rs IH]; intros Hlab; [reflexivity|].
  assert (IH' := IH (fun r0 Hr0 => Hlab r0 (or_intror Hr0))).
  pose proof (Hlab r (or_introl eq_refl)) as Hr. simpl.
  destruct (String.eqb (variant r) "A") eqn:EA.
  - apply String.eqb_eq in EA. rewrite EA. simpl. simpl length in *. lia.
  - destruct (String.eqb (variant r) "B"); [|discriminate]. simpl length in *. lia.
Qed.
End RowsAndLabels.

(** ** The outcome of each metric *)

Section AnalyzerOutcomes.
Context {F : Type} `{Float64 F} `{StatsLib F}.
Implicit Types (d : DataFrame F) (self : AbTestAnalyzer F) (rs : list (Row F)).

Lemma ctr_outcome d al self :
  __init__ d al = Ok self ->
  ctr self = binary_outcome al "click_through_rate" clicked (rows d).
Proof. apply ctr_spec. Qed.

Lemma conversion_rate_outcome d al self den :
  __init__ d al = Ok self ->
  conversion_rate self den
  = if String.eqb den "impressions"
    then binary_outcome al "conversion_rate_per_impression" converted (rows d)
    else if String.eqb den "clicks"
    then match clicked_rows (rows d) with
         | [] => Raise No_clicks_in_dataset
         | _ :: _ => binary_outcome al "conversion_rate_per_click" converted
                                    (clicked_rows (rows d))
         end
    else Raise Bad_denominator.
Proof.
  intros Hinit.
  destruct (String.eqb den "impressions") eqn:E1.
  { apply String.eqb_eq in E1. subst den.
    now apply conversion_rate_impressions_spec. }
  destruct (String.eqb den "clicks") eqn:E2.
  { apply String.eqb_eq in E2. subst den.
    now rewrite (conversion_rate_clicks_groups _ _ _ Hinit). }
  unfold conversion_rate. now rewrite E1, E2.
Qed.

Lemma revenue_per_impression_outcome d al self :
  __init__ d al = Ok self ->
  revenue_per_impression self = revenue_outcome al (rows d).
Proof.
  intros Hinit. apply init_inv in Hinit as [-> Hcols].
  now rewrite revenue_per_impression_spec
    by (simpl; first [apply Hcols, required_variant|apply Hcols, required_revenue]).
Qed.

Lemma summarize_outcome d al self :
  __init__ d al = Ok self ->
  summarize self
  = (try r1 := binary_outcome al "click_through_rate" clicked (rows d) in
     try r2 := binary_outcome al "conversion_rate_per_impression" converted (rows d) in
     try r3 := revenue_outcome al (rows d) in
     Ok [("ctr", r1);
         ("conversion_rate_per_impression", r2);
         ("revenue_per_impression", r3)])%result.
Proof.
  intros Hinit. unfold summarize.
  now rewrite (ctr_outcome _ _ _ Hinit), (conversion_rate_outcome _ _ _ _ Hinit),
    (revenue_per_impression_outcome _ _ _ Hinit).
Qed.

(** A metric fails for a label without rows and for nothing else. *)
Lemma binary_outcome_cases al name (col : Row F -> Z) rs :
  (has_variant "A" rs /\ has_variant "B" rs
   /\ binary_outcome al name col rs
      = Ok (binary_result al name (successes col "A" rs) (trials "A" rs)
                          (successes col "B" rs) (trials "B" rs)))
  \/ (~ (has_variant "A" rs /\ has_variant "B" rs)
      /\ binary_outcome al name col rs = Raise Both_variants_must_be_present).
Proof. apply groups_cases. Qed.

Lemma revenue_outcome_cases al rs :
  (has_variant "A" rs /\ has_variant "B" rs
   /\ revenue_outcome al rs
      = Ok (revenue_result al (mean_revenue "A" rs) (mean_revenue "B" rs)
              (map revenue (group_rows "A" rs)) (map revenue (group_rows "B" rs))))
  \/ (~ (has_variant "A" rs /\ has_variant "B" rs)
      /\ revenue_outcome al rs = Raise Both_variants_must_be_present).
Proof. apply groups_cases. Qed.

Lemma summarize_cases d al self :
  __init__ d al = Ok self ->
  (has_variant "A" (rows d) /\ has_variant "B" (rows d)
   /\ exists l, summarize self = Ok l)
  \/ (~ (has_variant "A" (rows d) /\ has_variant "B" (rows d))
      /\ summarize self = Raise Both_variants_must_be_present).
Proof.
  intros Hinit. rewrite (summarize_outcome _ _ _ Hinit).
  destruct (binary_outcome_cases al "click_through_rate" clicked (rows d))
    as [(Ha & Hb & ->) | (Hn & ->)]; [|right; split; [exact Hn|reflexivity]].
  destruct (binary_outcome_cases al "conversion_rate_per_impression" converted (rows d))
    as [(_ & _ & ->) | (Hn & _)]; [|tauto].
  destruct (revenue_outcome_cases al (rows d)) as [(_ & _ & ->) | (Hn & _)]; [|tauto].
  left. split; [exact Ha|]. split; [exact Hb|]. simpl. eauto.
Qed.

(** On a constructed analyzer the metrics fail only in the ways the
    source writes down. [ctr], [revenue_per_impression] and [summarize]
    raise nothing but [Both_variants_must_be_present], and
    [conversion_rate], whatever its denominator, nothing but that,
    [No_clicks_in_dataset] and [Bad_denominator]: no [KeyError] or
    [IndexError] escapes from the grouping. [ctr],
    [conversion_rate("impressions")], [revenue_per_impression] and
    [summarize] each return a result exactly when both labels have a
    row. *)
Theorem metrics_fail_only_as_documented d (al : F) self :
  __init__ d al = Ok self ->
  let both := has_variant "A" (rows d) /\ has_variant "B" (rows d) in
  (forall e, ctr self = Raise e -> e = Both_variants_must_be_present)
  /\ (forall den e, conversion_rate self den = Raise e ->
        e = Both_variants_must_be_present \/ e = No_clicks_in_dataset
        \/ e = Bad_denominator)
  /\ (forall e, revenue_per_impression self = Raise e ->
        e = Both_variants_must_be_present)
  /\ (forall e, summarize self = Raise e -> e = Both_variants_must_be_present)
  /\ ((exists r, ctr self = Ok r) <-> both)
  /\ ((exists r, conversion_rate self "impressions" = Ok r) <-> both)
  /\ ((exists r, revenue_per_impression self = Ok r) <-> both)
  /\ ((exists l, summarize self = Ok l) <-> both).
Proof.
  intros Hinit both. subst both.
  pose proof (summarize_cases _ _ _ Hinit) as Hsum.
  rewrite (ctr_outcome _ _ _ Hinit), (revenue_per_impression_outcome _ _ _ Hinit).
  assert (Hconv : forall den, conversion_rate self den = _)
    by (intros den; apply (conversion_rate_outcome _ _ _ den Hinit)).
  rewrite (Hconv "impressions"). simpl String.eqb. cbv iota.
  assert (Hbin : forall name (col : Row F -> Z) rs e,
             binary_outcome al name col rs = Raise e ->
             e = Both_variants_must_be_present).
  { intros name col rs e.
    destruct (binary_outcome_cases al name col rs) as [(_ & _ & ->) | (_ & ->)];
      congruence. }
  assert (Hiff : forall name (col : Row F -> Z),
             (exists r, binary_outcome al name col (rows d) = Ok r)
             <-> has_variant "A" (rows d) /\ has_variant "B" (rows d)).
  { intros name col.
    destruct (binary_outcome_cases al name col (rows d)) as [(Ha & Hb & ->) | (Hn & ->)].
    - split; [tauto|eauto].
    - split; [intros (r & Hr); discriminate Hr|tauto]. }
  split; [apply Hbin|]. split.
  { intros den e. rewrite Hconv.
    destruct (String.eqb den "impressions"); [intros He; left; eapply Hbin, He|].
    destruct (String.eqb den "clicks"); [|intros [= <-]; tauto].
    destruct (clicked_rows (rows d)) as [|r0 l0]; [intros [= <-]; tauto|].
    intros He; left; eapply Hbin, He. }
  split.
  { intros e. destruct (revenue_outcome_cases al (rows d)) as [(_ & _ & ->) | (_ & ->)];
      congruence. }
  split.
  { intros e. destruct Hsum as [(_ & _ & l & ->) | (_ & ->)]; congruence. }
  split; [apply Hiff|]. split; [apply Hiff|]. split.
  { destruct (revenue_outcome_cases al (rows d)) as [(Ha & Hb & ->) | (Hn & ->)].
    - split; [tauto|eauto].
    - split; [intros (r & Hr); discriminate Hr|tauto]. }
  destruct Hsum as [(Ha & Hb & l & ->) | (Hn & ->)].
  - split; [tauto|eauto].
  - split; [intros (r & Hr); discriminate Hr|tauto].
Qed.

Lemma binary_outcome_alpha (al1 al2 : F) name (col : Row F -> Z) rs :
  same_up_to_significance (binary_outcome al1 name col rs) (binary_outcome al2 name col rs).
Proof.
  unfold binary_outcome.
  destruct (group_rows "A" rs); [reflexivity|].
  destruct (group_rows "B" rs); [reflexivity|]. simpl. tauto.
Qed.

(** The significance level decides the significance flag and
    nothing else: two analyzers built on one frame with two levels
    raise the same exception, or return results with the same name,
    the same two values, the same lift and the same p-value, for [ctr],
    for [conversion_rate] with any denominator and for
    [revenue_per_impression]. *)
Theorem alpha_decides_only_the_significance_flag d (al1 al2 : F) self1 self2 :
  __init__ d al1 = Ok self1 -> __init__ d al2 = Ok self2 ->
  same_up_to_significance (ctr self1) (ctr self2)
  /\ (forall den,
        same_up_to_significance (conversion_rate self1 den) (conversion_rate self2 den))
  /\ same_up_to_significance (revenue_per_impression self1)
                             (revenue_per_impression self2).
Proof.
  intros H1 H2.
  rewrite (ctr_outcome _ _ _ H1), (ctr_outcome _ _ _ H2).
  rewrite (revenue_per_impression_outcome _ _ _ H1),
    (revenue_per_impression_outcome _ _ _ H2).
  split; [apply binary_outcome_alpha|]. split.
  - intros den.
    rewrite (conversion_rate_outcome _ _ _ den H1), (conversion_rate_outcome _ _ _ den H2).
    destruct (String.eqb den "impressions"); [apply binary_outcome_alpha|].
    destruct (String.eqb den "clicks"); [|reflexivity].
    destruct (clicked_rows (rows d)); [reflexivity|apply binary_outcome_alpha].
  - unfold revenue_outcome.
    destruct (group_rows "A" (rows d)); [reflexivity|].
    destruct (group_rows "B" (rows d)); [reflexivity|]. simpl. tauto.
Qed.

Lemma binary_outcome_labelled al name (col : Row F -> Z) rs :
  binary_outcome al name col (List.filter labelled_A_or_B rs)
  = binary_outcome al name col rs.
Proof.
  unfold binary_outcome, successes, trials.
  now rewrite !group_rows_labelled by tauto.
Qed.

Lemma revenue_outcome_labelled al rs :
  revenue_outcome al (List.filter labelled_A_or_B rs) = revenue_outcome al rs.
Proof.
  unfold revenue_outcome, mean_revenue, trials.
  now rewrite !group_rows_labelled by tauto.
Qed.

(** Rows under a label other than "A" and "B" are ignored by
    [ctr], [conversion_rate("impressions")], [revenue_per_impression]
    and [summarize]: the analyzer built on the rows of the two labels
    alone gives the same outcome, result or exception. So does
    [conversion_rate("clicks")] when some row of "A" or "B" is
    clicked; when the only clicks are under other labels the full
    frame gets past the no-click check and fails for the missing
    variant instead. *)
Theorem other_labels_are_ignored d (al : F) self :
  __init__ d al = Ok self ->
  exists ab,
    __init__ (select labelled_A_or_B d) al = Ok ab
    /\ ctr ab = ctr self
    /\ conversion_rate ab "impressions" = conversion_rate self "impressions"
    /\ revenue_per_impression ab = revenue_per_impression self
    /\ summarize ab = summarize self
    /\ ((exists r, In r (rows d) /\ clicked r = 1 /\ labelled_A_or_B r = true) ->
        conversion_rate ab "clicks" = conversion_rate self "clicks")
    /\ (clicked_rows (rows d) <> [] ->
        (forall r, In r (rows d) -> clicked r = 1 -> labelled_A_or_B r = false) ->
        conversion_rate ab "clicks" = Raise No_clicks_in_dataset
        /\ conversion_rate self "clicks" = Raise Both_variants_must_be_present).
Proof.
  intros Hinit. pose proof Hinit as Hcols. apply init_inv in Hcols as [_ Hcols].
  assert (Hab : __init__ (select labelled_A_or_B d) al
                = Ok {| df := select labelled_A_or_B d; alpha := al |})
    by (apply init_complete; exact Hcols).
  eexists. split; [exact Hab|].
  rewrite (ctr_outcome _ _ _ Hab), (ctr_outcome _ _ _ Hinit).
  rewrite (revenue_per_impression_outcome _ _ _ Hab),
    (revenue_per_impression_outcome _ _ _ Hinit).
  rewrite (summarize_outcome _ _ _ Hab), (summarize_outcome _ _ _ Hinit).
  rewrite !(conversion_rate_outcome _ _ _ _ Hab), !(conversion_rate_outcome _ _ _ _ Hinit).
  simpl String.eqb. cbv iota. simpl rows.
  rewrite !binary_outcome_labelled, revenue_outcome_labelled.
  do 4 (split; [reflexivity|]).
  assert (Hcomm : clicked_rows (List.filter labelled_A_or_B (rows d))
                  = List.filter labelled_A_or_B (clicked_rows (rows d)))
    by apply filter_filter_comm.
  rewrite Hcomm, binary_outcome_labelled. split.
  - intros (r & Hr & Hc & Hl).
    assert (H1 : In r (List.filter labelled_A_or_B (clicked_rows (rows d))))
      by (apply filter_In; split; [now apply In_clicked_rows|exact Hl]).
    assert (H2 : In r (clicked_rows (rows d))) by now apply In_clicked_rows.
    destruct (List.filter labelled_A_or_B (clicked_rows (rows d))); [destruct H1|].
    destruct (clicked_rows (rows d)); [destruct H2|reflexivity].
  - intros Hne Hother.
    assert (Hnil : List.filter labelled_A_or_B (clicked_rows (rows d)) = []).
    { destruct (List.filter labelled_A_or_B (clicked_rows (rows d))) as [|r l] eqn:E;
        [reflexivity|exfalso].
      assert (Hr : In r (List.filter labelled_A_or_B (clicked_rows (rows d))))
        by (rewrite E; now left).
      apply filter_In in Hr as [Hr Hl]. apply In_clicked_rows in Hr as [Hr Hc].
      rewrite (Hother r Hr Hc) in Hl. discriminate. }
    rewrite Hnil. split; [reflexivity|].
    destruct (clicked_rows (rows d)) as [|r0 l0] eqn:E; [congruence|].
    destruct (binary_outcome_cases al "conversion_rate_per_click" converted (r0 :: l0))
      as [((r & Hr & Hv) & _ & _) | (_ & ->)]; [exfalso|reflexivity].
    rewrite <- E in Hr. apply In_clicked_rows in Hr as [Hr Hc].
    pose proof (Hother r Hr Hc) as Hl. unfold labelled_A_or_B in Hl.
    rewrite Hv in Hl. discriminate.
Qed.

Lemma binary_outcome_Permutation al name (col : Row F -> Z) rs rs' :
  Permutation rs rs' ->
  binary_outcome al name col rs' = binary_outcome al name col rs.
Proof.
  intros Hp. unfold binary_outcome. rewrite !groups_by_trials.
  now rewrite !(successes_Permutation col _ _ _ Hp), !(trials_Permutation _ _ _ Hp).
Qed.

(** The binary metrics do not depend on the order of the rows, nor
    on which further columns the frame has or in which order: two
    constructed analyzers whose frames hold the same rows, in any
    order, give the same outcome for [ctr] and for [conversion_rate]
    with any denominator. *)
Theorem binary_metrics_ignore_row_order d d' (al : F) self self' :
  __init__ d al = Ok self -> __init__ d' al = Ok self' ->
  Permutation (rows d) (rows d') ->
  ctr self' = ctr self
  /\ forall den, conversion_rate self' den = conversion_rate self den.
Proof.
  intros H1 H2 Hp.
  rewrite (ctr_outcome _ _ _ H1), (ctr_outcome _ _ _ H2).
  split; [now apply binary_outcome_Permutation|].
  intros den.
  rewrite (conversion_rate_outcome _ _ _ den H1), (conversion_rate_outcome _ _ _ den H2).
  destruct (String.eqb den "impressions"); [now apply binary_outcome_Permutation|].
  destruct (String.eqb den "clicks"); [|reflexivity].
  assert (Hc : Permutation (clicked_rows (rows d)) (clicked_rows (rows d')))
    by now apply filter_Permutation_rows.
  rewrite (binary_outcome_Permutation _ _ _ _ _ Hc).
  destruct (clicked_rows (rows d)) as [|r0 l0].
  - apply Permutation_nil in Hc. now rewrite Hc.
  - destruct (clicked_rows (rows d')) as [|r1 l1]; [|reflexivity].
    symmetry in Hc. apply Permutation_nil in Hc. discriminate Hc.
Qed.
End AnalyzerOutcomes.

(** ** Revenue means and the sign of the lift, in exact arithmetic *)

Lemma q_is_zero_false (q : Q) : ~ (q == 0)%Q -> q_is_zero q = false.
Proof.
  intros Hq. unfold q_is_zero. apply Z.eqb_neq. intros Hz. apply Hq.
  unfold Qeq. simpl. lia.
Qed.

Lemma Qred_zero (q : Q) : (q == 0)%Q -> Qred q = 0%Q.
Proof. intros Hq. now rewrite (Qred_complete q 0 Hq). Qed.

(** In exact arithmetic a step of the compensated sum adds the value and
    leaves the compensation at 0. *)
Lemma kahan_step_real (a b : Q) (k : Z) :
  exists t, kahan_step (XReal a, XReal 0, k) (XReal b) = (XReal t, XReal 0, k + 1)
            /\ (t == a + b)%Q.
Proof.
  exists (Qred (a + Qred (b + Qred (- 0)))). split.
  - unfold kahan_step. simpl.
    rewrite (Qred_zero (Qred (Qred (a + Qred (b + Qred (- 0))) + Qred (- a))
                        + Qred (- Qred (b + Qred (- 0))))); [reflexivity|].
    rewrite !Qred_correct. ring.
  - rewrite !Qred_correct. ring.
Qed.

Lemma fold_kahan_reals (l : list xfloat) (a : Q) (k : Z) :
  (forall x, In x l -> x_isfinite x = true) ->
  exists q, fold_left kahan_step l (XReal a, XReal 0, k)
            = (XReal q, XReal 0, k + Z.of_nat (length l))
            /\ (q == a + q_sum (map real_part l))%Q.
Proof.
  revert a k. induction l as [|x l IH]; intros a k Hfin.
  - exists a. split; [simpl; f_equal; lia|]. unfold q_sum. simpl. ring.
  - destruct x as [| s | b];
      try (discriminate (Hfin _ (or_introl eq_refl))).
    destruct (kahan_step_real a b k) as (t & Ht & Et).
    destruct (IH t (k + 1)) as (q & Hq & Eq);
      [intros y Hy; apply Hfin; now right|].
    exists q. split.
    + cbn [fold_left]. rewrite Ht, Hq. cbn [length]. f_equal. lia.
    + rewrite Eq, Et. unfold q_sum. simpl. ring.
Qed.

Lemma mean_revenue_exact (v : string) (rs : list (Row xfloat)) :
  0 < trials v rs ->
  (forall r, In r rs -> f_isfinite (revenue r) = true) ->
  exists q, mean_revenue v rs = XReal q
            /\ (q == q_sum (revenues v rs) / inject_Z (trials v rs))%Q.
Proof.
  intros Hn Hfin. unfold mean_revenue, kahan_mean.
  destruct (fold_kahan_reals (map revenue (group_rows v rs)) 0 0) as (s & Hs & Es).
  { intros x Hx. apply in_map_iff in Hx as (r & <- & Hr).
    apply filter_In in Hr as [Hr _]. now apply Hfin. }
  change (fold_left kahan_step (map revenue (group_rows v rs)) (f_zero, f_zero, 0))
    with (fold_left kahan_step (map revenue (group_rows v rs)) (XReal 0, XReal 0, 0)).
  rewrite Hs, length_map. unfold mean_of. fold (trials v rs).
  replace (0 + trials v rs =? 0) with false by (symmetry; apply Z.eqb_neq; lia).
  simpl f_div. simpl f_of_int. unfold x_div, x_of_int.
  assert (Hnz : q_is_zero (inject_Z (0 + trials v rs)) = false)
    by (unfold q_is_zero; simpl; apply Z.eqb_neq; lia).
  rewrite Hnz. eexists. split; [reflexivity|].
  rewrite Qred_correct, Es, Qplus_0_l. unfold revenues. rewrite map_map.
  now replace (0 + trials v rs) with (trials v rs) by lia.
Qed.

(** In exact arithmetic, on a frame with both labels whose revenues
    are numbers, [revenue_per_impression] returns, under the name
    "revenue_per_impression", the two labels' mean revenues, each the
    sum of the label's revenues over the number of its rows, and the
    lift (mean_b - mean_a) / mean_a when mean_a is not 0, NaN when it
    is 0. *)
Theorem revenue_per_impression_returns_exact_means `{StatsLib xfloat}
    (d : DataFrame xfloat) (al : xfloat) self :
  __init__ d al = Ok self ->
  has_variant "A" (rows d) -> has_variant "B" (rows d) ->
  (forall r, In r (rows d) -> f_isfinite (revenue r) = true) ->
  exists r (qa qb : Q),
    revenue_per_impression self = Ok r
    /\ metric_name r = "revenue_per_impression"
    /\ variant_a r = XReal qa /\ variant_b r = XReal qb
    /\ (qa == q_sum (revenues "A" (rows d)) / inject_Z (trials "A" (rows d)))%Q
    /\ (qb == q_sum (revenues "B" (rows d)) / inject_Z (trials "B" (rows d)))%Q
    /\ (~ (qa == 0)%Q -> exists ql, lift r = XReal ql /\ (ql == (qb - qa) / qa)%Q)
    /\ ((qa == 0)%Q -> lift r = XNaN).
Proof.
  intros Hinit Ha Hb Hfin.
  rewrite (revenue_per_impression_outcome _ _ _ Hinit).
  destruct (revenue_outcome_cases al (rows d)) as [(_ & _ & ->) | (Hn & _)]; [|tauto].
  destruct (mean_revenue_exact "A" (rows d)) as (qa & Ea & Qa);
    [now apply trials_pos, has_variant_group_rows|exact Hfin|].
  destruct (mean_revenue_exact "B" (rows d)) as (qb & Eb & Qb);
    [now apply trials_pos, has_variant_group_rows|exact Hfin|].
  eexists _, qa, qb. split; [reflexivity|]. split; [reflexivity|].
  split; [exact Ea|]. split; [exact Eb|]. split; [exact Qa|]. split; [exact Qb|].
  unfold revenue_result. cbn [lift]. rewrite Ea, Eb.
  change (f_neb (XReal qa) f_zero) with (negb (Qeq_bool qa 0)).
  split.
  - intros Hnz.
    assert (Hf : Qeq_bool qa 0 = false)
      by (apply not_true_iff_false; now rewrite Qeq_bool_iff).
    rewrite Hf. simpl. rewrite (q_is_zero_false _ Hnz).
    eexists. split; [reflexivity|]. now rewrite !Qred_correct.
  - intros Hz. apply Qeq_bool_iff in Hz. now rewrite Hz.
Qed.

Lemma relative_difference_sign (qa qb ql : Q) :
  (0 < qa)%Q -> (0 <= qb)%Q -> (ql == (qb - qa) / qa)%Q ->
  (-1 <= ql)%Q /\ ((0 < ql)%Q <-> (qa < qb)%Q)
  /\ ((ql == 0)%Q <-> (qb == qa)%Q) /\ ((ql < 0)%Q <-> (qb < qa)%Q).
Proof.
  intros Ha Hb Hl.
  assert (Hm : (ql * qa == qb - qa)%Q).
  { rewrite Hl. field. intros Hz. rewrite Hz in Ha. now apply Qlt_irrefl in Ha. }
  repeat split; intros; nra.
Qed.

(** In exact arithmetic, on 0/1 indicator columns and a frame with
    both labels, the lift of [ctr] and of
    [conversion_rate("impressions")] has, whenever variant A's rate is
    positive, the sign of the difference of the two rates: it is
    positive exactly when B's rate is above A's, 0 exactly when the two
    are equal, negative exactly when B's is below; and it is never
    below -1. *)
Theorem lift_has_the_sign_of_the_difference `{StatsLib xfloat}
    (d : DataFrame xfloat) (al : xfloat) self :
  __init__ d al = Ok self ->
  has_variant "A" (rows d) -> has_variant "B" (rows d) ->
  binary_indicators (rows d) ->
  let sign_of_difference (o : result (MetricResult xfloat)) :=
    exists r (qa qb : Q),
      o = Ok r /\ variant_a r = XReal qa /\ variant_b r = XReal qb
      /\ ((0 < qa)%Q ->
          exists ql, lift r = XReal ql
            /\ (-1 <= ql)%Q /\ ((0 < ql)%Q <-> (qa < qb)%Q)
            /\ ((ql == 0)%Q <-> (qb == qa)%Q) /\ ((ql < 0)%Q <-> (qb < qa)%Q)) in
  sign_of_difference (ctr self)
  /\ sign_of_difference (conversion_rate self "impressions").
Proof.
  intros Hinit Ha Hb Hbin sign_of_difference. subst sign_of_difference.
  assert (Hsign : forall name (col : Row xfloat -> Z),
    (forall r, In r (rows d) -> col r = 0 \/ col r = 1) ->
    exists r (qa qb : Q),
      binary_outcome al name col (rows d) = Ok r
      /\ variant_a r = XReal qa /\ variant_b r = XReal qb
      /\ ((0 < qa)%Q ->
          exists ql, lift r = XReal ql
            /\ (-1 <= ql)%Q /\ ((0 < ql)%Q <-> (qa < qb)%Q)
            /\ ((ql == 0)%Q <-> (qb == qa)%Q) /\ ((ql < 0)%Q <-> (qb < qa)%Q))).
  { intros name col Hcol.
    destruct (binary_outcome_cases al name col (rows d)) as [(_ & _ & ->) | (Hn & _)];
      [|tauto].
    destruct (binary_result_exact al name
                (successes col "A" (rows d)) (trials "A" (rows d))
                (successes col "B" (rows d)) (trials "B" (rows d)))
      as (qa & qb & Ea & Eb & _ & _ & _ & [Hb0 _] & Hlift & _).
    - now apply trials_pos, has_variant_group_rows.
    - now apply trials_pos, has_variant_group_rows.
    - now apply successes_bounds.
    - now apply successes_bounds.
    - eexists _, qa, qb. split; [reflexivity|]. split; [exact Ea|]. split; [exact Eb|].
      intros Hpos. destruct (Hlift Hpos) as (ql & El & Ql).
      exists ql. split; [exact El|]. now apply relative_difference_sign. }
  rewrite (ctr_outcome _ _ _ Hinit).
  rewrite (conversion_rate_outcome _ _ _ "impressions" Hinit). simpl String.eqb. cbv iota.
  split; apply Hsign; intros r Hr; apply (Hbin r Hr).
Qed.

(** ** The significance flag at NaN and at the level itself *)

#[export] Instance xfloat_order_laws : Float64OrderLaws xfloat.
Proof.
  split.
  - intros x y Hx. apply x_isnan_true in Hx. now subst x.
  - intros x y. destruct x as [| s | a], y as [| t | b]; simpl; try discriminate.
    + destruct s, t; simpl; congruence.
    + intros Heq. apply Qeq_bool_iff in Heq.
      apply negb_false_iff, Qle_bool_iff. rewrite Heq. apply Qle_refl.
Qed.

Lemma SFcompare_refl (s : spec_float) :
  SFcompare s s = Some Eq \/ forall t, SFcompare s t = None.
Proof.
  destruct s as [b | b | | b m e]; simpl.
  - now left.
  - left. now destruct b.
  - now right.
  - left. rewrite Z.compare_refl, Pos.compare_cont_refl. now destruct b.
Qed.

#[export] Instance binary64_order_laws : Float64OrderLaws float.
Proof.
  split.
  - intros x y. simpl. unfold b64_isnan.
    rewrite FloatAxioms.eqb_spec, FloatAxioms.ltb_spec. unfold SFeqb, SFltb.
    destruct (SFcompare_refl (Prim2SF x)) as [-> | Hnan]; [discriminate|].
    intros _. now rewrite (Hnan (Prim2SF y)).
  - intros x y. simpl.
    rewrite FloatAxioms.eqb_spec, FloatAxioms.ltb_spec. unfold SFeqb, SFltb.
    destruct (SFcompare (Prim2SF x) (Prim2SF y)) as [[| |]|]; try discriminate.
    reflexivity.
Qed.

Section SignificanceEdges.
Context {F : Type} `{Float64OrderLaws F} `{StatsLib F}.
Implicit Types (d : DataFrame F) (self : AbTestAnalyzer F).

Lemma binary_outcome_significant (al : F) name (col : Row F -> Z) rs r :
  binary_outcome al name col rs = Ok r -> significant r = f_ltb (p_value r) al.
Proof.
  unfold binary_outcome.
  destruct (group_rows "A" rs); [discriminate|].
  destruct (group_rows "B" rs); [discriminate|]. now intros [= <-].
Qed.

Lemma revenue_outcome_significant (al : F) rs r :
  revenue_outcome al rs = Ok r -> significant r = f_ltb (p_value r) al.
Proof.
  unfold revenue_outcome.
  destruct (group_rows "A" rs); [discriminate|].
  destruct (group_rows "B" rs); [discriminate|]. now intros [= <-].
Qed.

(** A result is never significant by accident of the comparison:
    for each of the three metrics ([conversion_rate] with either
    denominator), a p-value that is NaN gives [significant = False], and
    so does a p-value equal to alpha, the comparison being strict. A
    result flagged significant has a p-value that is a number. *)
Theorem nan_or_equal_p_value_is_not_significant d (al : F) self r :
  __init__ d al = Ok self ->
  ctr self = Ok r \/ (exists den, conversion_rate self den = Ok r)
    \/ revenue_per_impression self = Ok r ->
  (f_isnan (p_value r) = true -> significant r = false)
  /\ (f_eqb (p_value r) al = true -> significant r = false)
  /\ (significant r = true -> f_isnan (p_value r) = false).
Proof.
  intros Hinit Hr.
  assert (Hs : significant r = f_ltb (p_value r) al).
  { destruct Hr as [Hr | [[den Hr] | Hr]].
    - rewrite (ctr_outcome _ _ _ Hinit) in Hr. now apply binary_outcome_significant in Hr.
    - rewrite (conversion_rate_outcome _ _ _ den Hinit) in Hr.
      destruct (String.eqb den "impressions");
        [now apply binary_outcome_significant in Hr|].
      destruct (String.eqb den "clicks"); [|discriminate].
      destruct (clicked_rows (rows d)); [discriminate|].
      now apply binary_outcome_significant in Hr.
    - rewrite (revenue_per_impression_outcome _ _ _ Hinit) in Hr.
      now apply revenue_outcome_significant in Hr. }
  rewrite Hs. split; [apply f_nan_not_ltb|]. split; [apply f_eqb_not_ltb_same|].
  intros Hlt. destruct (f_isnan (p_value r)) eqn:E; [|reflexivity].
  rewrite (f_nan_not_ltb _ _ E) in Hlt. discriminate.
Qed.
End SignificanceEdges.

(** ** The generator: what a run comes to, and what its frame holds *)

Section GeneratorOutcome.
Context {F G : Type} `{Float64 F} `{RandomState F G} (rlaws : RandomStateLaws F G).
Implicit Types (config : AdExperimentConfig F).

Lemma mbind_raise {A B} (m : M G A) (k : A -> M G B) g e g1 :
  m g = (Raise e, g1) -> mbind m k g = (Raise e, g1).
Proof. unfold mbind. now intros ->. Qed.

Lemma seed_step_ok config g :
  seed_accepted config ->
  exists g0, match seed config with
             | Some s => np_random_seed s
             | None => ret tt
             end g = (Ok tt, g0).
Proof.
  unfold seed_accepted. destruct (seed config) as [s|]; intros Hseed.
  - unfold np_random_seed.
    replace ((0 <=? s) && (s <? 2 ^ 32)) with true; [eauto|].
    symmetry. apply andb_true_iff. split; [apply Z.leb_le|apply Z.ltb_lt]; lia.
  - unfold ret. eauto.
Qed.

Lemma generate_bad_seed config g s :
  seed config = Some s -> ~ 0 <= s < 2 ^ 32 ->
  generate_synthetic_data config g
  = (Raise (Library_ValueError "Seed must be between 0 and 2**32 - 1"), g).
Proof.
  intros Hseed Hs. unfold generate_synthetic_data. rewrite Hseed.
  apply mbind_raise. unfold np_random_seed.
  destruct ((0 <=? s) && (s <? 2 ^ 32)) eqn:E; [|reflexivity].
  apply andb_true_iff in E as [E1 E2]. apply Z.leb_le in E1. apply Z.ltb_lt in E2. lia.
Qed.

Lemma generate_negative_size config g :
  seed_accepted config -> n_impressions config < 0 ->
  fst (generate_synthetic_data config g)
  = Raise (Library_ValueError "negative dimensions are not allowed").
Proof.
  intros Hseed Hn. unfold generate_synthetic_data.
  destruct (seed_step_ok config g Hseed) as (g0 & Hs). rewrite (mbind_ok _ _ _ _ _ Hs).
  erewrite mbind_raise; [reflexivity|].
  unfold np_random_choice. apply mbind_raise. rewrite np_random_randint_eq.
  replace (n_impressions config =? 0) with false by (symmetry; apply Z.eqb_neq; lia).
  replace (n_impressions config <? 0) with true by (symmetry; apply Z.ltb_lt; lia).
  reflexivity.
Qed.

Lemma generate_negative_scale config g :
  seed_accepted config -> 0 <= n_impressions config ->
  negative_signed (rev_std config) = true ->
  fst (generate_synthetic_data config g) = Raise (Library_ValueError "scale < 0").
Proof.
  intros Hseed Hn Hscale. unfold generate_synthetic_data.
  set (n := n_impressions config) in *.
  destruct (seed_step_ok config g Hseed) as (g0 & Hs). rewrite (mbind_ok _ _ _ _ _ Hs).
  destruct (np_random_choice_ok rlaws ["A"; "B"] n g0 Hn) as (variants & g1 & Hv);
    [discriminate|].
  rewrite (mbind_ok _ _ _ _ _ Hv).
  assert (Hrand : forall g9,
    np_random_rand n g9
    = (Ok (fst (draws (Z.to_nat n) rk_double g9)), snd (draws (Z.to_nat n) rk_double g9))).
  { intros g9. rewrite np_random_rand_eq.
    now replace (n <? 0) with false by (symmetry; apply Z.ltb_ge; lia). }
  rewrite (mbind_ok _ _ _ _ _ (Hrand g1)). rewrite (mbind_ok _ _ _ _ _ (Hrand _)).
  erewrite mbind_raise; [reflexivity|].
  rewrite np_random_normal_eq, Hscale. reflexivity.
Qed.

(** What a call of [generate_synthetic_data] comes to, case by
    case. A seed outside [0, 2**32 - 1] is refused by [np.random.seed]
    before anything is drawn (the generator state is left as it was).
    Otherwise: a negative [n_impressions] raises "negative dimensions
    are not allowed"; for [n_impressions >= 0] a [rev_std] that fails
    numpy's test ([negative_signed]: a number with its sign bit set,
    [-0.0] included) raises "scale < 0"; with a [rev_std] that passes
    it, [n_impressions = 1] raises "low >= high" (the user ids are asked
    of an empty range), and [n_impressions = 0] or [>= 2] returns a
    frame of [n_impressions] rows. *)
Theorem generate_outcome_by_cases config g :
  let n := n_impressions config in
  let raises (msg : string) :=
    fst (generate_synthetic_data config g) = Raise (Library_ValueError msg) in
  (forall s, seed config = Some s -> ~ 0 <= s < 2 ^ 32 ->
     generate_synthetic_data config g
     = (Raise (Library_ValueError "Seed must be between 0 and 2**32 - 1"), g))
  /\ (seed_accepted config ->
      (n < 0 -> raises "negative dimensions are not allowed")
      /\ (0 <= n -> negative_signed (rev_std config) = true -> raises "scale < 0")
      /\ (n = 1 -> negative_signed (rev_std config) = false -> raises "low >= high")
      /\ (n = 0 \/ 2 <= n -> negative_signed (rev_std config) = false ->
          exists d g', generate_synthetic_data config g = (Ok d, g')
                       /\ length (rows d) = Z.to_nat n)).
Proof.
  intros n raises. subst raises. split; [apply generate_bad_seed|].
  intros Hseed. split; [now apply generate_negative_size|].
  split; [now apply generate_negative_scale|].
  split; [intros Hn Hscale; now apply (generate_one_impression rlaws)|].
  intros Hn Hscale.
  destruct (generate_succeeds rlaws config g Hseed Hn Hscale) as (d & g' & Hd).
  exists d, g'. split; [exact Hd|].
  now destruct (generate_inv rlaws _ _ _ _ Hd)
    as (? & ? & ? & ? & ? & ? & ? & ? & ? & ? & ? & ? & Hlen & ?).
Qed.

Lemma bernoulli_In (u p : list F) (c : Z) : In c (bernoulli u p) -> c = 0 \/ c = 1.
Proof.
  unfold bernoulli. revert p.
  induction u as [|x u IH]; intros [|q p]; simpl; try contradiction.
  intros [<- | Hc]; [destruct (f_ltb x q); auto|eauto].
Qed.

Lemma zip_rows_In (ids uids : list Z) (vs : list string) (cl cv : list Z)
    (rev : list F) r :
  In r (zip_rows ids uids vs cl cv rev) ->
  In (user_id r) uids /\ In (variant r) vs
  /\ In (clicked r) cl /\ In (converted r) cv.
Proof.
  revert uids vs cl cv rev.
  induction ids as [|i ids IH]; intros [|u uids] [|v vs] [|c cl] [|k cv] [|x rev];
    simpl; try contradiction.
  intros [<- | Hr]; [simpl; tauto|].
  destruct (IH _ _ _ _ _ Hr) as (H1 & H2 & H3 & H4). tauto.
Qed.

(** The columns of a generated frame, one by one. *)
Lemma generate_inv_columns config g d g' :
  generate_synthetic_data config g = (Ok d, g') ->
  exists (ids uids : list Z) (vs : list string) (cl cv : list Z) (rev : list F),
    d = {| columns := six_columns; rows := zip_rows ids uids vs cl cv rev |}
    /\ (forall v, In v vs -> v = "A" \/ v = "B")
    /\ (forall u, In u uids -> 1 <= u <= n_impressions config / 2)
    /\ (forall c, In c cl -> c = 0 \/ c = 1)
    /\ (forall c, In c cv -> c = 0 \/ c = 1).
Proof.
  intros Hgen. unfold generate_synthetic_data in Hgen.
  apply mbind_inv in Hgen as (u & g0 & _ & Hgen).
  apply mbind_inv in Hgen as (variants & g1 & Hv & Hgen).
  apply mbind_inv in Hgen as (u1 & g2 & _ & Hgen).
  apply mbind_inv in Hgen as (u2 & g3 & _ & Hgen).
  apply mbind_inv in Hgen as (z & g4 & _ & Hgen).
  apply mbind_inv in Hgen as (uid & g5 & Huid & Hgen).
  injection Hgen as Hd _.
  apply (np_random_choice_inv rlaws) in Hv as (_ & _ & Hvs).
  apply (np_random_randint_inv rlaws) in Huid as (_ & _ & _ & Hu).
  apply pd_DataFrame_inv in Hd as (Hd & _).
  rewrite Forall_forall in Hvs. rewrite Forall_forall in Hu.
  eexists _, uid, variants, _, _, _. split; [exact Hd|].
  split.
  { intros v Hin. apply list_elem_of_In in Hin. apply Hvs in Hin.
    simpl in Hin. destruct Hin as [<- | [<- | []]]; auto. }
  split.
  { intros k Hin. apply list_elem_of_In in Hin. apply Hu in Hin. lia. }
  split; intros c; apply bernoulli_In.
Qed.

(** Every row of a generated frame is well formed: its label is
    "A" or "B", its click and conversion indicators are 0 or 1, and its
    user id lies between 1 and [n_impressions // 2]. *)
Theorem generated_rows_are_well_formed config g d g' :
  generate_synthetic_data config g = (Ok d, g') ->
  forall r, In r (rows d) ->
    (variant r = "A" \/ variant r = "B")
    /\ (clicked r = 0 \/ clicked r = 1)
    /\ (converted r = 0 \/ converted r = 1)
    /\ 1 <= user_id r <= n_impressions config / 2.
Proof.
  intros Hgen r Hr.
  destruct (generate_inv_columns _ _ _ _ Hgen)
    as (ids & uids & vs & cl & cv & rev & -> & Hvs & Hu & Hcl & Hcv).
  apply zip_rows_In in Hr as (H1 & H2 & H3 & H4). auto.
Qed.
(** A normal draw moves the generator as one [gauss] does, whatever the
    location and the scale. *)
Lemma draws_for_normal_state (scale : F) (l : list F) g :
  snd (draws_for l (normal_draw scale) g) = snd (draws (length l) rk_gauss g).
Proof.
  revert g. induction l as [|m l IH]; intros g; simpl; [reflexivity|].
  unfold normal_draw at 1. destruct (rk_gauss g) as [z g1]. specialize (IH g1).
  destruct (draws_for l (normal_draw scale) g1), (draws (length l) rk_gauss g1).
  exact IH.
Qed.

Lemma zip_rows_maps (ids uids : list Z) (vs : list string) (cl cv : list Z)
    (rev : list F) :
  length uids = length ids -> length vs = length ids -> length cl = length ids ->
  length cv = length ids -> length rev = length ids ->
  map user_id (zip_rows ids uids vs cl cv rev) = uids
  /\ map clicked (zip_rows ids uids vs cl cv rev) = cl
  /\ map converted (zip_rows ids uids vs cl cv rev) = cv
  /\ map revenue (zip_rows ids uids vs cl cv rev) = rev.
Proof.
  revert uids vs cl cv rev.
  induction ids as [|i ids IH]; intros [|u uids] [|v vs] [|c cl] [|k cv] [|r rev];
    simpl; try discriminate; auto.
  intros [= H1] [= H2] [= H3] [= H4] [= H5].
  destruct (IH uids vs cl cv rev H1 H2 H3 H4 H5) as (E1 & E2 & E3 & E4).
  now rewrite E1, E2, E3, E4.
Qed.

(** Each parameter moves its own columns only. Two configurations with
    the same size and seed, run from the same generator state, consume
    the same draws: they leave the generator in the same state and
    return frames with the same impression ids, user ids and labels.
    The clicked column is the same when the two click rates are, the
    converted column when the two conversion rates are, and the revenue
    column when the conversion rates, the revenue means and the
    standard deviation are. *)
Theorem parameters_move_only_their_own_columns config config' g d d' g1 g1' :
  n_impressions config = n_impressions config' ->
  seed config = seed config' ->
  generate_synthetic_data config g = (Ok d, g1) ->
  generate_synthetic_data config' g = (Ok d', g1') ->
  g1 = g1'
  /\ map impression_id (rows d) = map impression_id (rows d')
  /\ map user_id (rows d) = map user_id (rows d')
  /\ map variant (rows d) = map variant (rows d')
  /\ (ctr_a config = ctr_a config' -> ctr_b config = ctr_b config' ->
      map clicked (rows d) = map clicked (rows d'))
  /\ (conv_a config = conv_a config' -> conv_b config = conv_b config' ->
      map converted (rows d) = map converted (rows d'))
  /\ (conv_a config = conv_a config' -> conv_b config = conv_b config' ->
      rev_mean_a config = rev_mean_a config' -> rev_mean_b config = rev_mean_b config' ->
      rev_std config = rev_std config' ->
      map revenue (rows d) = map revenue (rows d')).
Proof.
  intros Hn Hseed Hgen Hgen'. unfold generate_synthetic_data in Hgen, Hgen'.
  rewrite Hseed, Hn in Hgen.
  apply mbind_inv in Hgen as (u & g0 & Hs & Hgen).
  apply mbind_inv in Hgen' as (u' & g0' & Hs' & Hgen').
  assert (g0' = g0) by congruence. subst g0'.
  apply mbind_inv in Hgen as (variants & ga & Hv & Hgen).
  apply mbind_inv in Hgen' as (variants' & ga' & Hv' & Hgen').
  assert (variants' = variants /\ ga' = ga) as [-> ->] by (split; congruence).
  apply mbind_inv in Hgen as (u1 & gb & Hu1 & Hgen).
  apply mbind_inv in Hgen' as (u1' & gb' & Hu1' & Hgen').
  assert (u1' = u1 /\ gb' = gb) as [-> ->] by (split; congruence).
  apply mbind_inv in Hgen as (u2 & gc & Hu2 & Hgen).
  apply mbind_inv in Hgen' as (u2' & gc' & Hu2' & Hgen').
  assert (u2' = u2 /\ gc' = gc) as [-> ->] by (split; congruence).
  apply mbind_inv in Hgen as (z & gd & Hz & Hgen).
  apply mbind_inv in Hgen' as (z' & gd' & Hz' & Hgen').
  assert (gd' = gd).
  { rewrite np_random_normal_eq in Hz, Hz'.
    destruct (negative_signed (rev_std config)); [discriminate|].
    destruct (negative_signed (rev_std config')); [discriminate|].
    injection Hz as _ <-. injection Hz' as _ <-.
    now rewrite !draws_for_normal_state, !where_A_length. }
  subst gd'.
  apply mbind_inv in Hgen as (uid & ge & Huid & Hgen).
  apply mbind_inv in Hgen' as (uid' & ge' & Huid' & Hgen').
  assert (uid' = uid /\ ge' = ge) as [-> ->] by (split; congruence).
  injection Hgen as Hd <-. injection Hgen' as Hd' <-.
  apply pd_DataFrame_inv in Hd as (-> & L1 & L2 & L3 & L4 & L5).
  apply pd_DataFrame_inv in Hd' as (-> & L1' & L2' & L3' & L4' & L5').
  simpl rows.
  destruct (zip_rows_columns _ _ _ _ _ _ L1 L2 L3 L4 L5) as (-> & -> & _).
  destruct (zip_rows_columns _ _ _ _ _ _ L1' L2' L3' L4' L5') as (-> & -> & _).
  destruct (zip_rows_maps _ _ _ _ _ _ L1 L2 L3 L4 L5) as (-> & -> & -> & ->).
  destruct (zip_rows_maps _ _ _ _ _ _ L1' L2' L3' L4' L5') as (-> & -> & -> & ->).
  split; [reflexivity|]. split; [reflexivity|]. split; [reflexivity|].
  split; [reflexivity|]. split; [intros -> ->; reflexivity|].
  split; [intros -> ->; reflexivity|].
  intros Ea Eb Ema Emb Es. rewrite Ea, Eb, Ema, Emb, Es in *.
  assert (z' = z) by congruence. now subst z'.
Qed.
End GeneratorOutcome.

(** ** From the generator to the analyzer *)

Section GenerateThenAnalyze.
Context {F G : Type} `{Float64 F} `{StatsLib F} `{RandomState F G}
        (rlaws : RandomStateLaws F G).

(** A generated frame is one the analyzer accepts: it has the
    four required columns, so construction succeeds at every
    significance level; its indicator columns hold 0 or 1 and its
    labels are "A" or "B", so that the rows of "A" and the rows of "B"
    together are the [n_impressions] rows; and [summarize] on it returns the three
    metrics unless one of the two labels was never drawn, the only
    failure there is. *)
Theorem generated_frame_is_accepted_by_the_analyzer
    (config : AdExperimentConfig F) g d g' (al : F) :
  generate_synthetic_data config g = (Ok d, g') ->
  __init__ d al = Ok {| df := d; alpha := al |}
  /\ binary_indicators (rows d)
  /\ (forall r, In r (rows d) -> labelled_A_or_B r = true)
  /\ trials "A" (rows d) + trials "B" (rows d) = n_impressions config
  /\ (has_variant "A" (rows d) -> has_variant "B" (rows d) ->
      exists l, summarize {| df := d; alpha := al |} = Ok l)
  /\ (forall e, summarize {| df := d; alpha := al |} = Raise e ->
      e = Both_variants_must_be_present
      /\ ~ (has_variant "A" (rows d) /\ has_variant "B" (rows d))).
Proof.
  intros Hgen.
  destruct (generate_inv_columns rlaws _ _ _ _ Hgen)
    as (ids & uids & vs & cl & cv & rev & Hd & Hvs & Hu & Hcl & Hcv).
  assert (Hinit : __init__ d al = Ok {| df := d; alpha := al |}).
  { apply init_complete. intros c Hc. rewrite Hd. simpl columns.
    unfold required_cols in Hc. rewrite !elem_of_union, !elem_of_singleton in Hc.
    apply list_elem_of_In. unfold six_columns. simpl.
    destruct Hc as [[[-> | ->] | ->] | ->]; tauto. }
  split; [exact Hinit|]. split.
  { intros r Hr. rewrite Hd in Hr. apply zip_rows_In in Hr as (_ & _ & H3 & H4). auto. }
  assert (Hlab : forall r, In r (rows d) -> labelled_A_or_B r = true).
  { intros r Hr. rewrite Hd in Hr. apply zip_rows_In in Hr as (_ & H2 & _ & _).
    unfold labelled_A_or_B. destruct (Hvs _ H2) as [-> | ->]; reflexivity. }
  split; [exact Hlab|]. split.
  { rewrite (trials_of_the_two_labels _ Hlab).
    destruct (generate_inv rlaws _ _ _ _ Hgen)
      as (? & ? & ? & ? & ? & Hn & ? & ? & ? & ? & ? & ? & Hlen & ?).
    rewrite Hlen. lia. }
  destruct (summarize_cases _ _ _ Hinit) as [(Ha & Hb & l & Hl) | (Hn & Hr)].
  - split; [eauto|]. intros e He. congruence.
  - split; [tauto|]. intros e He. split; [congruence|exact Hn].
Qed.
End GenerateThenAnalyze.

(** * The theorems at concrete inputs *)

(** Membership of a name in a column index, and of a row in a frame. *)
Ltac column_there := apply list_elem_of_In; simpl; tauto.
Ltac column_missing :=
  let Hin := fresh "Hin" in
  intros Hin; apply list_elem_of_In in Hin; simpl in Hin;
  repeat (destruct Hin as [Hin | Hin]; [discriminate Hin|]); exact Hin.
Ltac row_cases Hr :=
  simpl in Hr; repeat (destruct Hr as [<- | Hr]; [|]); [..|destruct Hr].
Ltac some_row r := exists r; split; [simpl; tauto|reflexivity].

(** The generator's rows and ids, with [lcg]. *)
Lemma generate_rows_and_ids_on_demo_config :
  exists d g',
    generate_synthetic_data demo_config 0 = (Ok d, g')
    /\ columns d = ["impression_id"; "user_id"; "variant"; "clicked"; "converted"; "revenue"]
    /\ length (rows d) = 6%nat
    /\ map impression_id (rows d) = [1; 2; 3; 4; 5; 6].
Proof.
  destruct (proj2 (generate_rows_and_ids lcg_laws demo_config 0)) as (d & g' & Hd);
    [unfold seed_accepted; simpl; lia|simpl; lia|reflexivity|].
  exists d, g'. split; [exact Hd|].
  exact (proj1 (generate_rows_and_ids lcg_laws demo_config 0) d g' Hd).
Defined.

(** The significance flag of [ctr] on [four_rows]. *)
Lemma significant_on_four_rows :
  exists r,
    @ctr xfloat _ exact_stats {| df := four_rows; alpha := alpha_005 |} = Ok r
    /\ significant r = f_ltb (p_value r) alpha_005.
Proof.
  eexists. split; [vm_compute; reflexivity|].
  apply (significant_is_p_value_below_alpha four_rows alpha_005
           {| df := four_rows; alpha := alpha_005 |} _ eq_refl).
  left. vm_compute. reflexivity.
Defined.

(** [conversion_rate("users")]. *)
Lemma conversion_rate_refuses_users :
  @conversion_rate xfloat _ exact_stats {| df := four_rows; alpha := alpha_005 |} "users"
  = Raise Bad_denominator.
Proof.
  apply conversion_rate_refuses_other_denominators; discriminate.
Defined.

(** C1 on the test suite's frame, in binary64 and with any statistics
    library: [ctr] returns the two quotients, each within [0, 1]. And on
    [four_rows], in exact arithmetic: [ctr] returns 1/2 and 1, lift 1. *)
Lemma C1_on_test_frame_and_four_rows :
  (forall (S : StatsLib float) (al : float),
     exists r,
       ctr {| df := make_simple_df_for_ctr; alpha := al |} = Ok r
       /\ variant_a r = f_div (f_of_int 20) (f_of_int 100)
       /\ variant_b r = f_div (f_of_int 50) (f_of_int 100)
       /\ in_unit_interval (variant_a r) /\ in_unit_interval (variant_b r)
       /\ lift r = if f_gtb (variant_a r) f_zero
                   then f_div (f_sub (variant_b r) (variant_a r)) (variant_a r)
                   else f_nan)
  /\ (exists r qa qb,
       @ctr xfloat _ exact_stats {| df := four_rows; alpha := alpha_005 |} = Ok r
       /\ variant_a r = XReal qa /\ variant_b r = XReal qb
       /\ (qa == inject_Z 1 / inject_Z 2)%Q /\ (qb == inject_Z 2 / inject_Z 2)%Q
       /\ (0 <= qa <= 1)%Q /\ (0 <= qb <= 1)%Q
       /\ ((0 < qa)%Q -> exists ql, lift r = XReal ql /\ (ql == (qb - qa) / qa)%Q)
       /\ ((qa == 0)%Q -> lift r = XNaN)).
Proof.
  split.
  - intros S al.
    assert (Ha : has_variant "A" (rows (@make_simple_df_for_ctr float _)))
      by (exists (mkRow 1 1 "A" 1 0 0%float);
          split; [vm_compute; left; reflexivity|reflexivity]).
    assert (Hb : has_variant "B" (rows (@make_simple_df_for_ctr float _)))
      by (exists (mkRow 200 1 "B" 0 0 0%float);
          split; [vm_compute; do 199 right; left; reflexivity|reflexivity]).
    assert (Hbin : binary_indicators (rows (@make_simple_df_for_ctr float _)))
      by (apply binary_indicators_check; vm_compute; reflexivity).
    assert (Hlen : Z.of_nat (length (rows (@make_simple_df_for_ctr float _))) < 2 ^ 53)
      by (vm_compute; reflexivity).
    exact (proj1 C1_rates_are_ratios_and_lift_is_relative_difference
             float _ binary64_ratio_laws S make_simple_df_for_ctr al
             {| df := make_simple_df_for_ctr; alpha := al |}
             eq_refl Ha Hb Hbin Hlen clicked
             (ctr {| df := make_simple_df_for_ctr; alpha := al |})
             (or_introl (conj eq_refl eq_refl))).
  - assert (Ha : has_variant "A" (rows four_rows))
      by (some_row (mkRow 1 1 "A" 1 0 (XReal 0))).
    assert (Hb : has_variant "B" (rows four_rows))
      by (some_row (mkRow 3 2 "B" 1 1 (XReal (25 # 2)))).
    assert (Hbin : binary_indicators (rows four_rows))
      by (intros r Hr; row_cases Hr; simpl; tauto).
    exact (proj1 (proj2 C1_rates_are_ratios_and_lift_is_relative_difference)
             exact_stats four_rows alpha_005 {| df := four_rows; alpha := alpha_005 |}
             eq_refl Ha Hb Hbin clicked
             (ctr {| df := four_rows; alpha := alpha_005 |})
             (or_introl (conj eq_refl eq_refl))).
Defined.

(** C2 on [only_A_rows]: no "B", the three metrics raise. *)
Lemma C2_on_only_A_rows :
  ~ has_variant "B" (rows only_A_rows)
  /\ @ctr xfloat _ exact_stats {| df := only_A_rows; alpha := alpha_005 |}
     = Raise Both_variants_must_be_present
  /\ @conversion_rate xfloat _ exact_stats {| df := only_A_rows; alpha := alpha_005 |}
       "impressions" = Raise Both_variants_must_be_present
  /\ @revenue_per_impression xfloat _ exact_stats
       {| df := only_A_rows; alpha := alpha_005 |} = Raise Both_variants_must_be_present.
Proof.
  assert (Hno : ~ has_variant "B" (rows only_A_rows)).
  { intros (r & Hr & Hv). row_cases Hr; discriminate Hv. }
  split; [exact Hno|].
  apply (C2_missing_variant_raises only_A_rows alpha_005 _ eq_refl). now right.
Defined.

(** C3 on [no_revenue_column]: refused, naming [revenue]. *)
Lemma C3_on_no_revenue_column :
  ("revenue" ∉ columns no_revenue_column)
  /\ @__init__ xfloat no_revenue_column alpha_005
     = Raise (Missing_required_columns {[ "revenue" ]}).
Proof.
  assert (Hno : "revenue" ∉ columns no_revenue_column) by column_missing.
  split; [exact Hno|].
  apply (proj2 (proj2 (proj2 (proj2
           (C3_init_checks_required_columns no_revenue_column alpha_005)))));
    [column_there|column_there|column_there|exact Hno].
Defined.

(** C4 on [four_rows]: the p-value of [ctr] is in [0, 1] (one click of two
    under "A", two of two under "B": 0 < 3 < 4). *)
Lemma C4_on_four_rows :
  exists r,
    @ctr xfloat _ exact_stats {| df := four_rows; alpha := alpha_005 |} = Ok r
    /\ f_isnan (p_value r) = false /\ in_unit_interval (p_value r).
Proof.
  eexists. split; [vm_compute; reflexivity|].
  refine (proj2 (proj1 (proj2 (C4_p_value_is_nan_or_in_unit_interval exact_stats_laws
            four_rows alpha_005 {| df := four_rows; alpha := alpha_005 |} _ eq_refl) _)
            _) _).
  - intros r Hr. row_cases Hr; simpl; tauto.
  - vm_compute. reflexivity.
  - vm_compute. split; reflexivity.
Defined.

(** C5 on [zero_baseline_rows], in exact arithmetic: no click under "A",
    the lift of [ctr] is NaN and the result is returned. In binary64, on
    the test suite's frame, where nothing converted: the lift of
    [conversion_rate("impressions")] is NaN, whatever the library. For
    the revenue, in binary64 on [tenths_rows]: mean 0 under "A", lift
    NaN, and the mean of 0.1, 0.2 and 0.3 is 0.19999999999999998, as
    the compensated sum gives it; and on [missing_revenue_rows]: the
    missing value is skipped and the mean under "B" is 5. *)
Lemma C5_on_zero_baseline_rows :
  f_eqb (f_div (f_of_int 0) (f_of_int 2)) f_zero = true
  /\ (exists r,
       @ctr xfloat _ exact_stats {| df := zero_baseline_rows; alpha := alpha_005 |} = Ok r
       /\ lift r = XNaN /\ variant_a r = XReal 0 /\ variant_b r = XReal 1)
  /\ (forall (S : StatsLib float) (al : float),
      exists r,
        conversion_rate {| df := make_simple_df_for_ctr; alpha := al |} "impressions" = Ok r
        /\ PrimFloat.eqb (lift r) (lift r) = false
        /\ variant_a r = 0%float /\ variant_b r = 0%float)
  /\ (forall (S : StatsLib float) (al : float),
      exists r,
        revenue_per_impression {| df := tenths_rows; alpha := al |} = Ok r
        /\ PrimFloat.eqb (lift r) (lift r) = false
        /\ variant_a r = 0%float /\ variant_b r = b64_0_19999999999999998)
  /\ (exists r,
       @revenue_per_impression xfloat _ exact_stats
         {| df := missing_revenue_rows; alpha := alpha_005 |} = Ok r
       /\ lift r = XNaN /\ variant_a r = XReal 0 /\ variant_b r = XReal 5).
Proof.
  split; [reflexivity|]. split; [|split; [|split]].
  - eexists. split.
    + apply (proj1 (C5_zero_baseline_gives_nan_lift zero_baseline_rows alpha_005
                      {| df := zero_baseline_rows; alpha := alpha_005 |} eq_refl
                      ltac:(some_row (mkRow 1 1 "A" 0 0 (XReal 0)))
                      ltac:(some_row (mkRow 3 2 "B" 1 1 (XReal (25 # 2))))));
        [apply binary_indicators_check; reflexivity|reflexivity].
    + repeat split.
  - intros S al. eexists. split.
    + apply (proj1 (proj2 (C5_zero_baseline_gives_nan_lift make_simple_df_for_ctr al
                      {| df := make_simple_df_for_ctr; alpha := al |} eq_refl
                      ltac:(exists (mkRow 1 1 "A" 1 0 0%float);
                            split; [vm_compute; left; reflexivity|reflexivity])
                      ltac:(exists (mkRow 200 1 "B" 0 0 0%float);
                            split; [vm_compute; do 199 right; left; reflexivity
                                   |reflexivity]))));
        [apply binary_indicators_check; vm_compute; reflexivity
        |vm_compute; reflexivity].
    + vm_compute. repeat split.
  - intros S al. eexists. split.
    + apply (proj2 (proj2 (proj2 (C5_zero_baseline_gives_nan_lift tenths_rows al
                      {| df := tenths_rows; alpha := al |} eq_refl
                      ltac:(some_row (mkRow 1 1 "A" 0 0 0%float))
                      ltac:(some_row (mkRow 3 2 "B" 1 1 0x1.999999999999ap-4%float)))))).
      vm_compute. reflexivity.
    + vm_compute. repeat split.
  - eexists. split.
    + apply (proj2 (proj2 (proj2 (C5_zero_baseline_gives_nan_lift missing_revenue_rows
                      alpha_005 {| df := missing_revenue_rows; alpha := alpha_005 |} eq_refl
                      ltac:(some_row (mkRow 1 1 "A" 0 0 (XReal 0)))
                      ltac:(some_row (mkRow 4 2 "B" 1 1 (XReal 5))))))).
      reflexivity.
    + vm_compute. repeat split.
Defined.


(** C7 with the generator [lcg]: started from two different states, the
    seeded run returns the same frame of six rows. And in binary64, with
    [lcg64] and the standard deviation [-0.0]: the two runs end alike,
    in the exception numpy raises for that scale. *)
Lemma C7_on_demo_config :
  seed demo_config = Some 42
  /\ fst (generate_synthetic_data demo_config 0)
     = fst (generate_synthetic_data demo_config 2024)
  /\ (exists d, fst (generate_synthetic_data demo_config 0) = Ok d
                /\ fst (generate_synthetic_data demo_config 2024) = Ok d
                /\ length (rows d) = 6%nat)
  /\ fst (generate_synthetic_data negative_zero_config 0)
     = fst (generate_synthetic_data negative_zero_config 2024)
  /\ fst (generate_synthetic_data negative_zero_config 0)
     = Raise (Library_ValueError "scale < 0").
Proof.
  split; [reflexivity|].
  destruct (C7_same_seed_same_dataset lcg_laws demo_config 42 0 2024 eq_refl)
    as (H1 & _ & H3).
  split; [exact H1|]. split; [apply H3; [lia|right; simpl; lia|reflexivity]|].
  split; [|vm_compute; reflexivity].
  exact (proj1 (C7_same_seed_same_dataset lcg64_laws negative_zero_config 42 0 2024
                  eq_refl)).
Defined.

(** C8 with the generator [lcg], started at 0. *)
Lemma C8_on_lcg :
  fst (generate_synthetic_data (with_n_impressions 1 default_config) 0)
  = Raise (Library_ValueError "low >= high").
Proof. exact (C8_one_impression_raises Z lcg lcg_laws 0). Defined.

(** C9 with the generator [lcg]: the six generated rows. *)
Lemma C9_on_demo_config :
  exists d g',
    generate_synthetic_data demo_config 0 = (Ok d, g')
    /\ forall r, In r (rows d) ->
         f_leb f_zero (revenue r) = true /\ (converted r = 0 -> revenue r = XReal 0).
Proof.
  eexists _, _. split; [vm_compute; reflexivity|].
  intros r Hr.
  eapply (C9_revenue_nonnegative_and_zero_without_conversion Z lcg lcg_laws demo_config 0);
    [vm_compute; reflexivity|reflexivity|reflexivity|reflexivity|exact Hr].
Defined.

(** C10 on [clicks_under_B_rows]. *)
Lemma C10_on_clicks_under_B_rows :
  has_variant "A" (rows clicks_under_B_rows)
  /\ has_variant "B" (rows clicks_under_B_rows)
  /\ @conversion_rate xfloat _ exact_stats
       {| df := clicks_under_B_rows; alpha := alpha_005 |} "clicks"
     = Raise Both_variants_must_be_present.
Proof.
  assert (Ha : has_variant "A" (rows clicks_under_B_rows))
    by (some_row (mkRow 1 1 "A" 0 0 (XReal 0))).
  assert (Hb : has_variant "B" (rows clicks_under_B_rows))
    by (some_row (mkRow 2 1 "B" 1 1 (XReal 3))).
  split; [exact Ha|]. split; [exact Hb|].
  apply (C10_clicks_under_one_label_raises clicks_under_B_rows alpha_005 _ "B" eq_refl Ha Hb).
  - exists (mkRow 2 1 "B" 1 1 (XReal 3)). split; [simpl; tauto|reflexivity].
  - intros r Hr Hc. row_cases Hr; try reflexivity. discriminate Hc.
Defined.

(** The outcome of [summarize] with both labels and with "A" alone. *)
Lemma summarize_on_four_rows_and_on_only_A_rows :
  (exists l, @summarize xfloat _ exact_stats {| df := four_rows; alpha := alpha_005 |} = Ok l)
  /\ (forall e,
        @summarize xfloat _ exact_stats {| df := only_A_rows; alpha := alpha_005 |} = Raise e ->
        e = Both_variants_must_be_present).
Proof.
  pose proof (metrics_fail_only_as_documented four_rows alpha_005
                {| df := four_rows; alpha := alpha_005 |} eq_refl) as Hfour.
  pose proof (metrics_fail_only_as_documented only_A_rows alpha_005
                {| df := only_A_rows; alpha := alpha_005 |} eq_refl) as Honly.
  cbv zeta in Hfour, Honly.
  destruct Hfour as (_ & _ & _ & _ & _ & _ & _ & Hsum).
  destruct Honly as (_ & _ & _ & Hraise & _).
  split; [|exact Hraise].
  apply Hsum. split.
  - some_row (mkRow 1 1 "A" 1 0 (XReal 0)).
  - some_row (mkRow 3 2 "B" 1 1 (XReal (25 # 2))).
Defined.

(** [ctr] on [four_rows] at the levels 0.05 and 0.01. *)
Lemma alpha_on_four_rows :
  same_up_to_significance
    (@ctr xfloat _ exact_stats {| df := four_rows; alpha := alpha_005 |})
    (@ctr xfloat _ exact_stats {| df := four_rows; alpha := XReal (1 # 100) |}).
Proof.
  exact (proj1 (alpha_decides_only_the_significance_flag four_rows alpha_005
                  (XReal (1 # 100))
                  {| df := four_rows; alpha := alpha_005 |}
                  {| df := four_rows; alpha := XReal (1 # 100) |} eq_refl eq_refl)).
Defined.

(** [third_label_rows]: the impression under "C" changes nothing. *)
Lemma other_labels_on_third_label_rows :
  exists ab,
    __init__ (select labelled_A_or_B third_label_rows) alpha_005 = Ok ab
    /\ @ctr xfloat _ exact_stats ab
       = ctr {| df := third_label_rows; alpha := alpha_005 |}
    /\ @conversion_rate xfloat _ exact_stats ab "clicks"
       = conversion_rate {| df := third_label_rows; alpha := alpha_005 |} "clicks".
Proof.
  destruct (other_labels_are_ignored third_label_rows alpha_005
              {| df := third_label_rows; alpha := alpha_005 |} eq_refl)
    as (ab & Hab & Hctr & _ & _ & _ & Hclicks & _).
  exists ab. split; [exact Hab|]. split; [exact Hctr|]. apply Hclicks.
  exists (mkRow 1 1 "A" 1 0 (XReal 0)). split; [simpl; tauto|split; reflexivity].
Defined.

(** [four_rows] and [four_rows_reversed]. *)
Lemma row_order_on_four_rows_reversed :
  Permutation (rows four_rows) (rows four_rows_reversed)
  /\ @ctr xfloat _ exact_stats {| df := four_rows_reversed; alpha := alpha_005 |}
     = ctr {| df := four_rows; alpha := alpha_005 |}
  /\ @conversion_rate xfloat _ exact_stats
       {| df := four_rows_reversed; alpha := alpha_005 |} "clicks"
     = conversion_rate {| df := four_rows; alpha := alpha_005 |} "clicks".
Proof.
  assert (Hp : Permutation (rows four_rows) (rows four_rows_reversed))
    by apply Permutation_rev.
  split; [exact Hp|].
  destruct (binary_metrics_ignore_row_order four_rows four_rows_reversed alpha_005
              {| df := four_rows; alpha := alpha_005 |}
              {| df := four_rows_reversed; alpha := alpha_005 |} eq_refl eq_refl Hp)
    as [Hctr Hconv].
  split; [exact Hctr|apply Hconv].
Defined.

(** The test suite's revenue frame: means 10 and 20, lift 1. *)
Lemma revenue_means_on_revenue_test_df :
  exists r (qa qb ql : Q),
    @revenue_per_impression xfloat _ exact_stats
      {| df := revenue_test_df; alpha := alpha_005 |} = Ok r
    /\ variant_a r = XReal qa /\ variant_b r = XReal qb /\ lift r = XReal ql
    /\ (qa == 10)%Q /\ (qb == 20)%Q /\ (ql == 1)%Q.
Proof.
  destruct (revenue_per_impression_returns_exact_means revenue_test_df alpha_005
              {| df := revenue_test_df; alpha := alpha_005 |} eq_refl)
    as (r & qa & qb & Hr & _ & Ea & Eb & Qa & Qb & Hl & _).
  - exists (mkRow 1 1 "A" 1 0 (XReal 0)).
    split; [vm_compute; left; reflexivity|reflexivity].
  - exists (mkRow 4 1 "B" 1 0 (XReal 0)).
    split; [vm_compute; do 3 right; left; reflexivity|reflexivity].
  - intros r Hr. vm_compute in Hr.
    repeat (destruct Hr as [<- | Hr]; [reflexivity|]). destruct Hr.
  - assert (Qa' : (qa == 10)%Q) by (rewrite Qa; vm_compute; reflexivity).
    assert (Qb' : (qb == 20)%Q) by (rewrite Qb; vm_compute; reflexivity).
    destruct Hl as (ql & El & Ql).
    { intros Hz. rewrite Qa' in Hz. discriminate Hz. }
    exists r, qa, qb, ql. repeat (split; [assumption|]).
    rewrite Ql, Qa', Qb'. reflexivity.
Defined.

(** The sign of the lift of [ctr] on [four_rows]. *)
Lemma lift_sign_on_four_rows :
  exists r (qa qb : Q),
    @ctr xfloat _ exact_stats {| df := four_rows; alpha := alpha_005 |} = Ok r
    /\ variant_a r = XReal qa /\ variant_b r = XReal qb
    /\ ((0 < qa)%Q ->
        exists ql, lift r = XReal ql
          /\ (-1 <= ql)%Q /\ ((0 < ql)%Q <-> (qa < qb)%Q)
          /\ ((ql == 0)%Q <-> (qb == qa)%Q) /\ ((ql < 0)%Q <-> (qb < qa)%Q)).
Proof.
  assert (Ha : has_variant "A" (rows four_rows))
    by (some_row (mkRow 1 1 "A" 1 0 (XReal 0))).
  assert (Hb : has_variant "B" (rows four_rows))
    by (some_row (mkRow 3 2 "B" 1 1 (XReal (25 # 2)))).
  assert (Hbin : binary_indicators (rows four_rows))
    by (intros r Hr; row_cases Hr; simpl; tauto).
  exact (proj1 (lift_has_the_sign_of_the_difference four_rows alpha_005
                  {| df := four_rows; alpha := alpha_005 |} eq_refl Ha Hb Hbin)).
Defined.

(** The test suite's click frame, where nothing converted: the p-value of
    the conversion rate is NaN and the result is not significant. *)
Lemma nan_p_value_on_make_simple_df_for_ctr :
  exists r,
    @conversion_rate xfloat _ exact_stats
      {| df := make_simple_df_for_ctr; alpha := alpha_005 |} "impressions" = Ok r
    /\ f_isnan (p_value r) = true /\ significant r = false.
Proof.
  eexists. split; [vm_compute; reflexivity|]. split; [reflexivity|].
  refine (proj1 (nan_or_equal_p_value_is_not_significant make_simple_df_for_ctr alpha_005
                   {| df := make_simple_df_for_ctr; alpha := alpha_005 |} _ _ _) _).
  - vm_compute. reflexivity.
  - right. left. exists "impressions". vm_compute. reflexivity.
  - reflexivity.
Defined.

(** The five cases, with the generator [lcg] started at 5; and in
    binary64, with [lcg64], the standard deviation [-0.0] is refused. *)
Lemma generate_outcome_on_demo_config :
  generate_synthetic_data (with_seed (Some (-1)) demo_config) 5
  = (Raise (Library_ValueError "Seed must be between 0 and 2**32 - 1"), 5)
  /\ fst (generate_synthetic_data (with_n_impressions (-3) demo_config) 5)
     = Raise (Library_ValueError "negative dimensions are not allowed")
  /\ fst (generate_synthetic_data (with_rev_std (XReal (-2 # 1)) demo_config) 5)
     = Raise (Library_ValueError "scale < 0")
  /\ fst (generate_synthetic_data (with_n_impressions 1 demo_config) 5)
     = Raise (Library_ValueError "low >= high")
  /\ (exists d g',
       generate_synthetic_data (with_n_impressions 0 demo_config) 5 = (Ok d, g')
       /\ length (rows d) = 0%nat)
  /\ fst (generate_synthetic_data negative_zero_config 5)
     = Raise (Library_ValueError "scale < 0").
Proof.
  assert (Hseed : forall n, seed_accepted (with_n_impressions n demo_config))
    by (intros n; unfold seed_accepted; simpl; lia).
  split.
  { apply (proj1 (generate_outcome_by_cases lcg_laws
                    (with_seed (Some (-1)) demo_config) 5) (-1) eq_refl). lia. }
  split.
  { apply (proj2 (generate_outcome_by_cases lcg_laws
                    (with_n_impressions (-3) demo_config) 5) (Hseed _)). simpl. lia. }
  split.
  { apply (proj2 (generate_outcome_by_cases lcg_laws
                    (with_rev_std (XReal (-2 # 1)) demo_config) 5));
      [unfold seed_accepted; simpl; lia|simpl; lia|reflexivity]. }
  split.
  { apply (proj2 (generate_outcome_by_cases lcg_laws
                    (with_n_impressions 1 demo_config) 5) (Hseed _)); reflexivity. }
  split.
  { apply (proj2 (generate_outcome_by_cases lcg_laws
                    (with_n_impressions 0 demo_config) 5) (Hseed _));
      [left; reflexivity|reflexivity]. }
  apply (proj2 (generate_outcome_by_cases lcg64_laws negative_zero_config 5));
    [unfold seed_accepted; simpl; lia|simpl; lia|reflexivity].
Defined.

(** The six generated rows, with the generator [lcg]. *)
Lemma generated_rows_on_demo_config :
  exists d g',
    generate_synthetic_data demo_config 0 = (Ok d, g')
    /\ forall r, In r (rows d) ->
         (variant r = "A" \/ variant r = "B")
         /\ (clicked r = 0 \/ clicked r = 1)
         /\ (converted r = 0 \/ converted r = 1)
         /\ 1 <= user_id r <= 3.
Proof.
  eexists _, _. split; [vm_compute; reflexivity|].
  eapply (generated_rows_are_well_formed lcg_laws demo_config 0).
  vm_compute. reflexivity.
Defined.

(** The run of [demo_config] and the run with the click rates 0 and 1:
    the same rows but for the clicked column. *)
Lemma parameters_on_demo_config :
  exists d d' g1,
    generate_synthetic_data demo_config 0 = (Ok d, g1)
    /\ generate_synthetic_data (with_ctr (XReal 0) (XReal 1) demo_config) 0 = (Ok d', g1)
    /\ map user_id (rows d) = map user_id (rows d')
    /\ map variant (rows d) = map variant (rows d')
    /\ map converted (rows d) = map converted (rows d')
    /\ map revenue (rows d) = map revenue (rows d').
Proof.
  assert (H1 : exists d g1, generate_synthetic_data demo_config 0 = (Ok d, g1))
    by (eexists _, _; vm_compute; reflexivity).
  assert (H2 : exists d' g1',
             generate_synthetic_data (with_ctr (XReal 0) (XReal 1) demo_config) 0
             = (Ok d', g1'))
    by (eexists _, _; vm_compute; reflexivity).
  destruct H1 as (d & g1 & H1). destruct H2 as (d' & g1' & H2).
  destruct (@parameters_move_only_their_own_columns xfloat Z _ lcg demo_config
              (with_ctr (XReal 0) (XReal 1) demo_config) 0 d d' g1 g1'
              eq_refl eq_refl H1 H2)
    as (Hg & _ & Hu & Hv & _ & Hc & Hr).
  exists d, d', g1. split; [exact H1|]. split; [rewrite Hg; exact H2|].
  split; [exact Hu|]. split; [exact Hv|].
  split; [now apply Hc|now apply Hr].
Defined.

(** The six generated rows are a frame the analyzer takes. *)
Lemma generated_frame_on_demo_config :
  exists d g',
    generate_synthetic_data demo_config 0 = (Ok d, g')
    /\ @__init__ xfloat d alpha_005 = Ok {| df := d; alpha := alpha_005 |}
    /\ binary_indicators (rows d).
Proof.
  eexists _, _. split; [vm_compute; reflexivity|].
  refine (let H := generated_frame_is_accepted_by_the_analyzer (H0 := exact_stats)
                     lcg_laws demo_config 0 _ _ alpha_005 _ in
          conj (proj1 H) (proj1 (proj2 H))).
  vm_compute. reflexivity.
Defined.
